(** * Session-scoped AI orchestration and persistence layer

    A shallow embedding of [backend/server.py]: the record model, the
    storage codec ([prepare_for_mongo] and the decoders of the history
    reads), the session keys handed to the model backends and the three
    feature orchestrators (chat, upload + analysis, search), followed by
    the properties the specification states about them.

    Layout: every definition comes first, the lemmas and theorems follow. *)

From Stdlib Require Import String Ascii List NArith ZArith Lia Bool.
From Stdlib Require Import Sorting.Sorted DecimalString.
From Stdlib Require OrderedTypeEx.
Import ListNotations.

Local Open Scope string_scope.
Local Open Scope list_scope.

(* ================================================================== *)
(** * Part I: definitions                                              *)
(* ================================================================== *)

(** ** Decimal fields of fixed width

    [datetime.isoformat] prints every field zero-padded to a fixed width
    and [datetime.fromisoformat] reads them back. *)

Module Digits.

Fixpoint pow10 (w : nat) : N :=
  match w with
  | O => 1
  | S w' => 10 * pow10 w'
  end.

Definition digit (d : N) : ascii := ascii_of_N (48 + d).

Definition digit_val (c : ascii) : option N :=
  let n := N_of_ascii c in
  if ((48 <=? n) && (n <=? 57))%N then Some (n - 48)%N else None.

(** [pad w n]: the [w] low decimal digits of [n], most significant
    first (Python's ["%0wd" % n] for [n < 10^w]). *)
Fixpoint pad (w : nat) (n : N) : string :=
  match w with
  | O => EmptyString
  | S w' => String (digit (n / pow10 w')) (pad w' (n mod pow10 w'))
  end.

(** Reads exactly [w] decimal digits; gives their value and the rest. *)
Fixpoint take_digits (w : nat) (s : string) : option (N * string) :=
  match w with
  | O => Some (0%N, s)
  | S w' =>
      match s with
      | EmptyString => None
      | String c s' =>
          match digit_val c with
          | None => None
          | Some d =>
              match take_digits w' s' with
              | None => None
              | Some (v, rest) => Some ((d * pow10 w' + v)%N, rest)
              end
          end
      end
  end.

Definition expect (c : ascii) (s : string) : option string :=
  match s with
  | String c' s' => if Ascii.eqb c' c then Some s' else None
  | EmptyString => None
  end.

End Digits.

(** ** Timezone-aware datetimes (Python's [datetime] with a fixed offset) *)

Module PyDatetime.
Import Digits.

(** The wall-clock fields of a [datetime]. *)
Record naive := mk_naive {
  year : N; month : N; day : N;
  hour : N; minute : N; second : N; microsecond : N
}.

(** An aware datetime: wall-clock fields and the offset from UTC, in
    whole minutes (the only tzinfo the service creates is
    [timezone.utc], offset [0]). *)
Record datetime := mk_datetime {
  wall : naive;
  utcoffset : Z
}.

Definition is_leap (y : N) : bool :=
  ((y mod 4 =? 0) && (negb (y mod 100 =? 0) || (y mod 400 =? 0)))%N.

Definition days_in_month (y m : N) : N :=
  match m with
  | 2 => if is_leap y then 29 else 28
  | 4 | 6 | 9 | 11 => 30
  | _ => 31
  end%N.

(** The range checks of the [datetime] constructor. *)
Definition valid_naive (t : naive) : bool :=
  ((1 <=? year t) && (year t <=? 9999) &&
   (1 <=? month t) && (month t <=? 12) &&
   (1 <=? day t) && (day t <=? days_in_month (year t) (month t)) &&
   (hour t <? 24) && (minute t <? 60) && (second t <? 60) &&
   (microsecond t <? 1000000))%N.

Definition valid_datetime (d : datetime) : bool :=
  valid_naive (wall d) && ((-1440 <? utcoffset d) && (utcoffset d <? 1440))%Z.

(** [datetime.now(timezone.utc)], given the reading of the UTC clock. *)
Definition now_utc (clock : naive) : datetime :=
  {| wall := clock; utcoffset := 0 |}.

Definition format_offset (off : Z) : string :=
  let a := Z.to_N (Z.abs off) in
  String (if (off <? 0)%Z then "-"%char else "+"%char)
    (pad 2 (a / 60) ++ String ":"%char (pad 2 (a mod 60))).

Definition format_fraction (us : N) : string :=
  if (us =? 0)%N then EmptyString else String "."%char (pad 6 us).

(** [datetime.isoformat()]:
    [YYYY-MM-DDTHH:MM:SS[.ffffff]+HH:MM], the fraction being left out
    when the microsecond field is zero. *)
Definition isoformat (d : datetime) : string :=
  let t := wall d in
  pad 4 (year t) ++ String "-"%char
 (pad 2 (month t) ++ String "-"%char
 (pad 2 (day t) ++ String "T"%char
 (pad 2 (hour t) ++ String ":"%char
 (pad 2 (minute t) ++ String ":"%char
 (pad 2 (second t) ++
 (format_fraction (microsecond t) ++ format_offset (utcoffset d))))))).

Definition parse_fraction (s : string) : option (N * string) :=
  match s with
  | String "."%char s' => take_digits 6 s'
  | _ => Some (0%N, s)
  end.

Definition parse_sign (s : string) : option (Z * string) :=
  match s with
  | String "+"%char s' => Some (1%Z, s')
  | String "-"%char s' => Some ((-1)%Z, s')
  | _ => None
  end.

Definition skip_char (s : string) : option string :=
  match s with
  | String _ s' => Some s'
  | EmptyString => None
  end.

Notation "'do' x <- a ; b" :=
  (match a with Some x => b | None => None end)
    (at level 10, x pattern, a at level 100, b at level 200,
     only parsing).

(** [datetime.fromisoformat], on the strings that denote an aware
    datetime in the layout [isoformat] emits; [None] stands for the
    [ValueError] raised on a string that cannot be read.  (CPython
    reads a few more layouts, none of which [isoformat] produces.) *)
Definition fromisoformat (s : string) : option datetime :=
  do (y, s) <- take_digits 4 s;
  do s <- expect "-"%char s;
  do (m, s) <- take_digits 2 s;
  do s <- expect "-"%char s;
  do (d, s) <- take_digits 2 s;
  do s <- skip_char s;
  do (h, s) <- take_digits 2 s;
  do s <- expect ":"%char s;
  do (mi, s) <- take_digits 2 s;
  do s <- expect ":"%char s;
  do (sec, s) <- take_digits 2 s;
  do (us, s) <- parse_fraction s;
  do (sg, s) <- parse_sign s;
  do (oh, s) <- take_digits 2 s;
  do s <- expect ":"%char s;
  do (om, s) <- take_digits 2 s;
  match s with
  | EmptyString =>
      let r := {| wall := mk_naive y m d h mi sec us;
                  utcoffset := sg * Z.of_N (oh * 60 + om) |} in
      if valid_datetime r && (om <? 60)%N then Some r else None
  | String _ _ => None
  end.

(** Lexicographic combination of comparisons. *)
Definition lex (c : comparison) (k : comparison) : comparison :=
  match c with
  | Eq => k
  | _ => c
  end.

(** Field-by-field comparison of the wall-clock fields: the comparison
    CPython's [datetime._cmp] makes of two datetimes that carry the
    same offset. *)
Definition naive_compare (a b : naive) : comparison :=
  lex (N.compare (year a) (year b))
 (lex (N.compare (month a) (month b))
 (lex (N.compare (day a) (day b))
 (lex (N.compare (hour a) (hour b))
 (lex (N.compare (minute a) (minute b))
 (lex (N.compare (second a) (second b))
      (N.compare (microsecond a) (microsecond b))))))).

(** [a] is not later than [b], for two datetimes of the same offset. *)
Definition datetime_le (a b : datetime) : Prop :=
  utcoffset a = utcoffset b /\ naive_compare (wall a) (wall b) <> Gt.

Definition datetime_ge (a b : datetime) : Prop := datetime_le b a.

End PyDatetime.

(** ** Python values and dictionaries *)

Module PyValue.
Import PyDatetime.

#[local] Unset Elimination Schemes.

(** The values held by the dictionaries the service handles.  A [dict]
    is kept as the list of its items in insertion order; its keys are
    pairwise distinct ([wf_dict]). *)
Inductive pyval :=
| VNone
| VBool (b : bool)
| VInt (z : Z)
| VStr (s : string)
| VDatetime (d : datetime)
| VObjectId (n : nat)
| VList (l : list pyval)
| VDict (d : list (string * pyval)).
#[local] Set Elimination Schemes.

Definition dict := list (string * pyval).

Definition keys (d : dict) : list string := map fst d.

(** [d.get(k)] *)
Fixpoint dict_get (d : dict) (k : string) : option pyval :=
  match d with
  | [] => None
  | (k', v) :: t => if String.eqb k' k then Some v else dict_get t k
  end.

(** [d[k] = v]: an existing key keeps its place, a new one goes last. *)
Fixpoint dict_set (d : dict) (k : string) (v : pyval) : dict :=
  match d with
  | [] => [(k, v)]
  | (k', v') :: t =>
      if String.eqb k' k then (k', v) :: t else (k', v') :: dict_set t k v
  end.

(** Keys pairwise distinct, here and in every nested dictionary. *)
Fixpoint wf_val (v : pyval) : Prop :=
  match v with
  | VDict d =>
      NoDup (map fst d) /\
      (fix all (l : list (string * pyval)) : Prop :=
         match l with
         | [] => True
         | (_, x) :: t => wf_val x /\ all t
         end) d
  | _ => True
  end.

Definition wf_dict (d : dict) : Prop := wf_val (VDict d).

(** Induction on values that reaches the values of a dictionary. *)
Section Induction.
Variable P : pyval -> Prop.
Hypothesis HNone : P VNone.
Hypothesis HBool : forall b, P (VBool b).
Hypothesis HInt : forall z, P (VInt z).
Hypothesis HStr : forall s, P (VStr s).
Hypothesis HDatetime : forall d, P (VDatetime d).
Hypothesis HObjectId : forall n, P (VObjectId n).
Hypothesis HList : forall l, P (VList l).
Hypothesis HDict :
  forall d, Forall (fun kv => P (snd kv)) d -> P (VDict d).

Fixpoint pyval_values_ind (v : pyval) : P v :=
  match v with
  | VNone => HNone
  | VBool b => HBool b
  | VInt z => HInt z
  | VStr s => HStr s
  | VDatetime d => HDatetime d
  | VObjectId n => HObjectId n
  | VList l => HList l
  | VDict d =>
      HDict d
        ((fix go (l : list (string * pyval))
            : Forall (fun kv => P (snd kv)) l :=
            match l with
            | [] => Forall_nil _
            | (k, x) :: t =>
                Forall_cons (k, x) (pyval_values_ind x) (go t)
            end) d)
  end.
End Induction.

End PyValue.

(** ** The storage encoder *)

Module Codec.
Import PyDatetime PyValue.

(** One turn of the loop [for key, value in data.items()] of
    [prepare_for_mongo], [rec] being the recursive call. *)
Definition prepare_step (rec : pyval -> pyval)
    (data : dict) (kv : string * pyval) : dict :=
  match kv with
  | (key, value) =>
      match value with
      | VDatetime t => dict_set data key (VStr (isoformat t))
      | VDict _ => dict_set data key (rec value)
      | _ => data
      end
  end.

(** [prepare_for_mongo(data)]: a dictionary has each datetime value
    replaced by its ISO string and each dictionary value encoded in
    turn; any other [data] is returned as it is.  The dictionary is
    updated in place, key by key, and returned. *)
Fixpoint prepare_for_mongo (data : pyval) : pyval :=
  match data with
  | VDict items =>
      VDict (fold_left
               (fun d kv =>
                  match kv with
                  | (key, value) =>
                      match value with
                      | VDatetime t => dict_set d key (VStr (isoformat t))
                      | VDict _ => dict_set d key (prepare_for_mongo value)
                      | _ => d
                      end
                  end) items items)
  | _ => data
  end.

(** The value a key holds once the loop has passed it. *)
Definition encode_value (v : pyval) : pyval :=
  match v with
  | VDatetime t => VStr (isoformat t)
  | VDict _ => prepare_for_mongo v
  | _ => v
  end.

Definition encode_item (kv : string * pyval) : string * pyval :=
  (fst kv, encode_value (snd kv)).

Definition prepare_dict (d : dict) : dict :=
  match prepare_for_mongo (VDict d) with
  | VDict d' => d'
  | _ => d
  end.

End Codec.

(** ** The record model (the pydantic classes) *)

Module User.
Record t := mk {
  id : string;
  first_name : string;
  username : option string;
  phone : option string;
  chat_id : string;
  created_at : PyDatetime.datetime
}.
End User.

Module UserCreate.
Record t := mk {
  first_name : string;
  username : option string;
  phone : option string
}.
End UserCreate.

Module ChatMessage.
Record t := mk {
  id : string;
  user_id : string;
  message : string;
  response : string;
  timestamp : PyDatetime.datetime
}.
End ChatMessage.

Module ChatRequest.
Record t := mk { user_id : string; message : string }.
End ChatRequest.

Module FileMetadata.
Record t := mk {
  id : string;
  user_id : string;
  filename : string;
  description : string;
  file_path : string;
  file_type : string;
  uploaded_at : PyDatetime.datetime
}.
End FileMetadata.

Module SearchRequest.
Record t := mk { user_id : string; query : string }.
End SearchRequest.

Module SearchResult.
Record t := mk {
  id : string;
  user_id : string;
  query : string;
  summary : string;
  timestamp : PyDatetime.datetime
}.
End SearchResult.

(** The multipart file part handed to the upload route. *)
Module UploadFile.
Record t := mk {
  filename : string;
  content_type : option string;
  content : string
}.
End UploadFile.

(** ** The world the service runs in *)

Module World.
Import PyDatetime PyValue.

Inductive collection := users | chat_history | file_metadata | search_results.

Inductive store_op := FindOne | Find | InsertOne.

(** A request to a model backend: the [LlmChat] it is sent through and
    the [UserMessage] it carries. *)
Record llm_call := mk_call {
  provider : string;
  model : string;
  session_id : string;
  system_message : string;
  text : string;
  file_contents : list (string * string)   (* file_path, mime_type *)
}.

Record world := mk_world {
  db_users : list dict;
  db_chat_history : list dict;
  db_file_metadata : list dict;
  db_search_results : list dict;
  uploads : list (string * string);      (* files under /app/uploads *)
  llm_log : list llm_call;               (* requests sent so far *)
  warnings : list string;                (* logging.warning *)
  uuid_count : nat;                      (* uuid4 tokens drawn so far *)
  clock_count : nat;                     (* clock readings so far *)
  oid_count : nat                        (* ObjectIds issued so far *)
}.

Definition empty_world : world :=
  mk_world [] [] [] [] [] [] [] 0 0 0.

Definition coll (w : world) (c : collection) : list dict :=
  match c with
  | users => db_users w
  | chat_history => db_chat_history w
  | file_metadata => db_file_metadata w
  | search_results => db_search_results w
  end.

Definition set_coll (w : world) (c : collection) (l : list dict) : world :=
  match c with
  | users =>
      mk_world l (db_chat_history w) (db_file_metadata w)
        (db_search_results w) (uploads w) (llm_log w) (warnings w)
        (uuid_count w) (clock_count w) (oid_count w)
  | chat_history =>
      mk_world (db_users w) l (db_file_metadata w)
        (db_search_results w) (uploads w) (llm_log w) (warnings w)
        (uuid_count w) (clock_count w) (oid_count w)
  | file_metadata =>
      mk_world (db_users w) (db_chat_history w) l
        (db_search_results w) (uploads w) (llm_log w) (warnings w)
        (uuid_count w) (clock_count w) (oid_count w)
  | search_results =>
      mk_world (db_users w) (db_chat_history w) (db_file_metadata w)
        l (uploads w) (llm_log w) (warnings w)
        (uuid_count w) (clock_count w) (oid_count w)
  end.

Definition set_uploads (w : world) (l : list (string * string)) : world :=
  mk_world (db_users w) (db_chat_history w) (db_file_metadata w)
    (db_search_results w) l (llm_log w) (warnings w)
    (uuid_count w) (clock_count w) (oid_count w).

Definition set_llm_log (w : world) (l : list llm_call) : world :=
  mk_world (db_users w) (db_chat_history w) (db_file_metadata w)
    (db_search_results w) (uploads w) l (warnings w)
    (uuid_count w) (clock_count w) (oid_count w).

Definition set_warnings (w : world) (l : list string) : world :=
  mk_world (db_users w) (db_chat_history w) (db_file_metadata w)
    (db_search_results w) (uploads w) (llm_log w) l
    (uuid_count w) (clock_count w) (oid_count w).

Definition set_uuid_count (w : world) (n : nat) : world :=
  mk_world (db_users w) (db_chat_history w) (db_file_metadata w)
    (db_search_results w) (uploads w) (llm_log w) (warnings w)
    n (clock_count w) (oid_count w).

Definition set_clock_count (w : world) (n : nat) : world :=
  mk_world (db_users w) (db_chat_history w) (db_file_metadata w)
    (db_search_results w) (uploads w) (llm_log w) (warnings w)
    (uuid_count w) n (oid_count w).

Definition set_oid_count (w : world) (n : nat) : world :=
  mk_world (db_users w) (db_chat_history w) (db_file_metadata w)
    (db_search_results w) (uploads w) (llm_log w) (warnings w)
    (uuid_count w) (clock_count w) n.

(** What a model backend answers: the generated text, or a failure. *)
Inductive reply := Text (s : string) | Failure (msg : string).

(** Everything outside the service: the random tokens [uuid.uuid4]
    yields, the readings of the clock, the answers of the model
    backends (which keep their own memory of the requests seen so
    far), and the failures of the store and of the file system. *)
Record externals := mk_externals {
  uuid4_str : nat -> string;
  utc_clock : nat -> naive;
  llm_reply : list llm_call -> llm_call -> reply;
  db_fault : store_op -> collection -> world -> option string;
  fs_fault : string -> world -> option string
}.

(** Exceptions: FastAPI's [HTTPException], and any other [Exception]
    with the text [str(e)] gives. *)
Inductive exn :=
| HTTPException (status_code : nat) (detail : string)
| Exception (msg : string).

Inductive outcome (A : Type) :=
| Ok (a : A)
| Raise (e : exn).
Arguments Ok {A} a.
Arguments Raise {A} e.

(** A computation of the service: it reads and updates the world and
    returns or raises. *)
Definition M (A : Type) : Type := world -> outcome A * world.

Definition ret {A} (a : A) : M A := fun w => (Ok a, w).

Definition raise {A} (e : exn) : M A := fun w => (Raise e, w).

Definition bind {A B} (m : M A) (k : A -> M B) : M B :=
  fun w =>
    match m w with
    | (Ok a, w') => k a w'
    | (Raise e, w') => (Raise e, w')
    end.

(** [try: m  except Exception as e: h e] *)
Definition try_except {A} (m : M A) (h : exn -> M A) : M A :=
  fun w =>
    match m w with
    | (Ok a, w') => (Ok a, w')
    | (Raise e, w') => h e w'
    end.

Fixpoint mapM {A B} (f : A -> M B) (l : list A) : M (list B) :=
  match l with
  | [] => ret []
  | x :: t => bind (f x) (fun y => bind (mapM f t) (fun ys => ret (y :: ys)))
  end.

End World.

Declare Scope service_scope.
Delimit Scope service_scope with service.
Notation "x <- m ;; k" := (World.bind m (fun x => k))
  (at level 61, m at next level, right associativity) : service_scope.
Notation "m ;;; k" := (World.bind m (fun _ => k))
  (at level 61, right associativity) : service_scope.

(** ** The collaborators: token generator, clock, store, files, models *)

Module Collab.
Import PyDatetime PyValue World.
Local Open Scope service_scope.

(** [str(e)]: the message of an exception; of an [HTTPException],
    its status and detail.  (No route takes the text of an
    [HTTPException]: where a handler formats [str(e)], none is raised.) *)
Definition exn_str (e : exn) : string :=
  match e with
  | HTTPException status_code detail =>
      (NilZero.string_of_uint (Nat.to_uint status_code) ++ ": " ++ detail)%string
  | Exception msg => msg
  end.

(** [str(uuid.uuid4())] *)
Definition uuid4 (E : externals) : M string :=
  fun w =>
    (Ok (uuid4_str E (uuid_count w)), set_uuid_count w (S (uuid_count w))).

(** [datetime.now(timezone.utc)] *)
Definition datetime_now_utc (E : externals) : M datetime :=
  fun w =>
    (Ok (now_utc (utc_clock E (clock_count w))),
     set_clock_count w (S (clock_count w))).

(** [logging.warning(msg)] *)
Definition log_warning (msg : string) : M unit :=
  fun w => (Ok tt, set_warnings w (warnings w ++ [msg])).

(** The filter [{field: value}] on a stored document. *)
Definition field_is (field value : string) (doc : dict) : bool :=
  match dict_get doc field with
  | Some (VStr s) => String.eqb s value
  | _ => false
  end.

(** [db.c.find_one({field: value})] *)
Definition find_one (E : externals) (c : collection)
    (field value : string) : M (option dict) :=
  fun w =>
    match db_fault E FindOne c w with
    | Some msg => (Raise (Exception msg), w)
    | None => (Ok (List.find (field_is field value) (coll w c)), w)
    end.

(** The order the store sorts field values by: values of different
    kinds by the rank of their kind, two strings by their characters.
    (Two values of one other kind are left in the order they have;
    the documents the service writes are sorted on string fields.) *)
Definition bson_rank (v : option pyval) : nat :=
  match v with
  | None | Some VNone => 0
  | Some (VInt _) => 1
  | Some (VStr _) => 2
  | Some (VDict _) => 3
  | Some (VList _) => 4
  | Some (VObjectId _) => 5
  | Some (VBool _) => 6
  | Some (VDatetime _) => 7
  end.

Definition bson_compare (a b : option pyval) : comparison :=
  match a, b with
  | Some (VStr s1), Some (VStr s2) => String.compare s1 s2
  | _, _ => Nat.compare (bson_rank a) (bson_rank b)
  end.

(** Sort directions of [cursor.sort(field, direction)]: [1] and [-1]. *)
Inductive direction := Ascending | Descending.

(** [before field dir x y]: document [x] may stand before [y]. *)
Definition before (field : string) (dir : direction) (x y : dict) : bool :=
  match dir with
  | Ascending =>
      match bson_compare (dict_get x field) (dict_get y field) with
      | Gt => false
      | _ => true
      end
  | Descending =>
      match bson_compare (dict_get x field) (dict_get y field) with
      | Lt => false
      | _ => true
      end
  end.

Fixpoint insert_sorted (ord : dict -> dict -> bool) (x : dict)
    (l : list dict) : list dict :=
  match l with
  | [] => [x]
  | y :: t => if ord x y then x :: y :: t else y :: insert_sorted ord x t
  end.

Definition sort_docs (field : string) (dir : direction)
    (l : list dict) : list dict :=
  fold_right (insert_sorted (before field dir)) [] l.

(** What [find({field: value}).sort(sort_field, dir).to_list(n)]
    selects: the documents that pass the filter, sorted, the first
    [n] of them. *)
Definition selected (field value sort_field : string) (dir : direction)
    (n : nat) (docs : list dict) : list dict :=
  firstn n (sort_docs sort_field dir (filter (field_is field value) docs)).

(** [db.c.find({field: value}).sort(sort_field, dir).to_list(n)] *)
Definition find_sorted (E : externals) (c : collection)
    (field value : string) (sort_field : string) (dir : direction)
    (n : nat) : M (list dict) :=
  fun w =>
    match db_fault E Find c w with
    | Some msg => (Raise (Exception msg), w)
    | None => (Ok (selected field value sort_field dir n (coll w c)), w)
    end.

(** [db.c.insert_one(doc)]: the store gives the document an [_id]
    unless it has one, and appends it to the collection. *)
Definition with_object_id (doc : dict) (n : nat) : dict :=
  match dict_get doc "_id" with
  | Some _ => doc
  | None => doc ++ [("_id", VObjectId n)]
  end.

Definition insert_one (E : externals) (c : collection) (doc : dict)
    : M unit :=
  fun w =>
    match db_fault E InsertOne c w with
    | Some msg => (Raise (Exception msg), w)
    | None =>
        (Ok tt,
         set_oid_count
           (set_coll w c (coll w c ++ [with_object_id doc (oid_count w)]))
           (S (oid_count w)))
    end.

(** [upload_dir.mkdir(exist_ok=True)] *)
Definition mkdir (E : externals) (path : string) : M unit :=
  fun w =>
    match fs_fault E path w with
    | Some msg => (Raise (Exception msg), w)
    | None => (Ok tt, w)
    end.

(** [async with aiofiles.open(path, 'wb') as f: await f.write(content)] *)
Definition write_file (E : externals) (path content : string) : M unit :=
  fun w =>
    match fs_fault E path w with
    | Some msg => (Raise (Exception msg), w)
    | None =>
        (Ok tt,
         set_uploads w
           (filter (fun f => negb (String.eqb (fst f) path)) (uploads w)
              ++ [(path, content)]))
    end.

(** [await chat.send_message(message)]: the request reaches the
    backend, which answers from the requests it has seen. *)
Definition send_message (E : externals) (c : llm_call) : M string :=
  fun w =>
    let w' := set_llm_log w (llm_log w ++ [c]) in
    match llm_reply E (llm_log w) c with
    | Text s => (Ok s, w')
    | Failure msg => (Raise (Exception msg), w')
    end.

End Collab.

(** ** Building records from keyword arguments, and [.dict()] *)

Module Pydantic.
Import PyDatetime PyValue World Collab.
Local Open Scope service_scope.

(** The [ValidationError] raised for a field that is absent or holds a
    value of another type (its text is abridged; the coercions pydantic
    would try on such a value are not modelled). *)
Definition validation_error (cls field : string) : exn :=
  Exception ("validation error for " ++ cls ++ ": " ++ field).

(** A required [str] field. *)
Definition str_field (cls : string) (kw : dict) (k : string) : M string :=
  match dict_get kw k with
  | Some (VStr s) => ret s
  | _ => raise (validation_error cls k)
  end.

(** An [Optional[str] = None] field. *)
Definition optional_str_field (cls : string) (kw : dict) (k : string)
    : M (option string) :=
  match dict_get kw k with
  | None | Some VNone => ret None
  | Some (VStr s) => ret (Some s)
  | Some _ => raise (validation_error cls k)
  end.

(** A [str] field with a [default_factory]. *)
Definition str_field_or (cls : string) (kw : dict) (k : string)
    (factory : M string) : M string :=
  match dict_get kw k with
  | None => factory
  | Some (VStr s) => ret s
  | Some _ => raise (validation_error cls k)
  end.

(** A [datetime] field with a [default_factory]. *)
Definition datetime_field_or (cls : string) (kw : dict) (k : string)
    (factory : M datetime) : M datetime :=
  match dict_get kw k with
  | None => factory
  | Some (VDatetime d) => ret d
  | Some _ => raise (validation_error cls k)
  end.

Definition opt_val (o : option string) : pyval :=
  match o with
  | Some s => VStr s
  | None => VNone
  end.

(** [User] built from the keyword arguments [kw]: the fields are filled in the order of the class, the
    absent ones from their default factories; keys that name no field
    are ignored. *)
Definition User_init (E : externals) (kw : dict) : M User.t :=
  id <- str_field_or "User" kw "id" (uuid4 E) ;;
  first_name <- str_field "User" kw "first_name" ;;
  username <- optional_str_field "User" kw "username" ;;
  phone <- optional_str_field "User" kw "phone" ;;
  chat_id <- str_field_or "User" kw "chat_id" (uuid4 E) ;;
  created_at <- datetime_field_or "User" kw "created_at" (datetime_now_utc E) ;;
  ret (User.mk id first_name username phone chat_id created_at).

Definition User_dict (u : User.t) : dict :=
  [ ("id", VStr (User.id u));
    ("first_name", VStr (User.first_name u));
    ("username", opt_val (User.username u));
    ("phone", opt_val (User.phone u));
    ("chat_id", VStr (User.chat_id u));
    ("created_at", VDatetime (User.created_at u)) ].

Definition UserCreate_dict (u : UserCreate.t) : dict :=
  [ ("first_name", VStr (UserCreate.first_name u));
    ("username", opt_val (UserCreate.username u));
    ("phone", opt_val (UserCreate.phone u)) ].

Definition ChatMessage_init (E : externals) (kw : dict) : M ChatMessage.t :=
  id <- str_field_or "ChatMessage" kw "id" (uuid4 E) ;;
  user_id <- str_field "ChatMessage" kw "user_id" ;;
  message <- str_field "ChatMessage" kw "message" ;;
  response <- str_field "ChatMessage" kw "response" ;;
  timestamp <- datetime_field_or "ChatMessage" kw "timestamp" (datetime_now_utc E) ;;
  ret (ChatMessage.mk id user_id message response timestamp).

Definition ChatMessage_dict (m : ChatMessage.t) : dict :=
  [ ("id", VStr (ChatMessage.id m));
    ("user_id", VStr (ChatMessage.user_id m));
    ("message", VStr (ChatMessage.message m));
    ("response", VStr (ChatMessage.response m));
    ("timestamp", VDatetime (ChatMessage.timestamp m)) ].

Definition FileMetadata_init (E : externals) (kw : dict) : M FileMetadata.t :=
  id <- str_field_or "FileMetadata" kw "id" (uuid4 E) ;;
  user_id <- str_field "FileMetadata" kw "user_id" ;;
  filename <- str_field "FileMetadata" kw "filename" ;;
  description <- str_field "FileMetadata" kw "description" ;;
  file_path <- str_field "FileMetadata" kw "file_path" ;;
  file_type <- str_field "FileMetadata" kw "file_type" ;;
  uploaded_at <- datetime_field_or "FileMetadata" kw "uploaded_at" (datetime_now_utc E) ;;
  ret (FileMetadata.mk id user_id filename description file_path file_type
         uploaded_at).

Definition FileMetadata_dict (f : FileMetadata.t) : dict :=
  [ ("id", VStr (FileMetadata.id f));
    ("user_id", VStr (FileMetadata.user_id f));
    ("filename", VStr (FileMetadata.filename f));
    ("description", VStr (FileMetadata.description f));
    ("file_path", VStr (FileMetadata.file_path f));
    ("file_type", VStr (FileMetadata.file_type f));
    ("uploaded_at", VDatetime (FileMetadata.uploaded_at f)) ].

Definition SearchResult_init (E : externals) (kw : dict) : M SearchResult.t :=
  id <- str_field_or "SearchResult" kw "id" (uuid4 E) ;;
  user_id <- str_field "SearchResult" kw "user_id" ;;
  query <- str_field "SearchResult" kw "query" ;;
  summary <- str_field "SearchResult" kw "summary" ;;
  timestamp <- datetime_field_or "SearchResult" kw "timestamp" (datetime_now_utc E) ;;
  ret (SearchResult.mk id user_id query summary timestamp).

Definition SearchResult_dict (r : SearchResult.t) : dict :=
  [ ("id", VStr (SearchResult.id r));
    ("user_id", VStr (SearchResult.user_id r));
    ("query", VStr (SearchResult.query r));
    ("summary", VStr (SearchResult.summary r));
    ("timestamp", VDatetime (SearchResult.timestamp r)) ].

End Pydantic.

(** ** Paths

    [pathlib.PurePosixPath], as far as the upload route uses it: a path
    is a root and the components that follow it.  An argument is split
    at the slashes, its empty components and its [.] components are
    dropped; a rooted argument replaces what it is joined to. *)

Module PyPath.
Local Open Scope string_scope.

Definition sep : ascii := "/"%char.

(** [s.split('/')] *)
Fixpoint split (s : string) : list string :=
  match s with
  | EmptyString => [EmptyString]
  | String c t =>
      if Ascii.eqb c sep then EmptyString :: split t
      else
        match split t with
        | h :: r => String c h :: r
        | [] => [String c EmptyString]
        end
  end.

(** [s.lstrip('/')] *)
Fixpoint lstrip (s : string) : string :=
  match s with
  | EmptyString => EmptyString
  | String c t => if Ascii.eqb c sep then lstrip t else s
  end.

(** [splitroot(part)] of the POSIX flavour: two leading slashes, no more
    and no less, are a root of their own. *)
Definition splitroot (part : string) : string * string :=
  match part with
  | EmptyString => (EmptyString, part)
  | String c _ =>
      if Ascii.eqb c sep
      then
        let stripped := lstrip part in
        if Nat.eqb (String.length part - String.length stripped) 2
        then ("//", stripped)
        else ("/", stripped)
      else (EmptyString, part)
  end.

(** [x and x != '.'] *)
Definition kept (x : string) : bool :=
  negb (String.eqb x EmptyString) && negb (String.eqb x ".").

Record t := mk { root : string; parts : list string }.

(** [PurePosixPath(s)] *)
Definition PurePosixPath (s : string) : t :=
  let (r, rel) := splitroot s in
  mk r (filter kept (split rel)).

(** [self / key] *)
Definition joinpath (self : t) (key : string) : t :=
  let other := PurePosixPath key in
  match root other with
  | EmptyString => mk (root self) (parts self ++ parts other)
  | _ => other
  end.

(** [str(self)] *)
Definition str (self : t) : string :=
  match root self, parts self with
  | EmptyString, [] => "."
  | r, l => r ++ String.concat "/" l
  end.

End PyPath.

(** ** The routes of [server.py] *)

Module Server.
Import PyDatetime PyValue Codec World Collab Pydantic.
Local Open Scope string_scope.
Local Open Scope service_scope.

Definition nl : string := String (ascii_of_nat 10) EmptyString.
Definition dquote : string := String (ascii_of_nat 34) EmptyString.

(** *** Session keys: the [session_id] each feature hands to [LlmChat] *)

Definition chat_session_id (user_id : string) : string := user_id.

Definition file_analysis_session_id (user_id : string) : string :=
  user_id ++ "_file_analysis".

Definition search_session_id (user_id : string) : string :=
  user_id ++ "_search".

(** [get_llm_chat(session_id)], carrying the message [text]. *)
Definition get_llm_chat (session_id text : string) : llm_call :=
  {| provider := "openai";
     model := "gpt-5";
     session_id := session_id;
     system_message :=
       "You are a helpful AI assistant. Provide clear, informative, and engaging responses.";
     text := text;
     file_contents := [] |}.

(** [except HTTPException: raise] then
    [except Exception as e: raise HTTPException(500, prefix + str(e))] *)
Definition guarded {A} (prefix : string) (m : M A) : M A :=
  try_except m
    (fun e =>
       match e with
       | HTTPException _ _ => raise e
       | Exception msg => raise (HTTPException 500 (prefix ++ msg))
       end).

(** [except Exception as e: raise HTTPException(500, prefix + str(e))] *)
Definition guarded_all {A} (prefix : string) (m : M A) : M A :=
  try_except m
    (fun e => raise (HTTPException 500 (prefix ++ exn_str e))).

(** [if isinstance(d.get(k), str): d[k] = datetime.fromisoformat(d[k])] *)
Definition revive (k : string) (d : dict) : M dict :=
  match dict_get d k with
  | Some (VStr s) =>
      match fromisoformat s with
      | Some t => ret (dict_set d k (VDatetime t))
      | None => raise (Exception ("Invalid isoformat string: '" ++ s ++ "'"))
      end
  | _ => ret d
  end.

(** The two steps by which a read turns a stored document back into
    a record: the timestamp field is parsed if it is a string, then
    the record is built from the document. *)
Definition decode_User (E : externals) (doc : dict) : M User.t :=
  user_data <- revive "created_at" doc ;;
  User_init E user_data.

Definition decode_ChatMessage (E : externals) (doc : dict)
    : M ChatMessage.t :=
  chat <- revive "timestamp" doc ;;
  ChatMessage_init E chat.

Definition decode_FileMetadata (E : externals) (doc : dict)
    : M FileMetadata.t :=
  file_data <- revive "uploaded_at" doc ;;
  FileMetadata_init E file_data.

Definition decode_SearchResult (E : externals) (doc : dict)
    : M SearchResult.t :=
  search <- revive "timestamp" doc ;;
  SearchResult_init E search.

(** *** [POST /users] *)
Definition create_user (E : externals) (user_data : UserCreate.t)
    : M User.t :=
  guarded_all "Error creating user: "
    (user <- User_init E (UserCreate_dict user_data) ;;
     let user_dict := prepare_dict (User_dict user) in
     insert_one E users user_dict ;;;
     ret user).

(** *** [GET /users/{user_id}] *)
Definition get_user (E : externals) (user_id : string) : M User.t :=
  guarded "Error retrieving user: "
    (user_data <- find_one E users "id" user_id ;;
     match user_data with
     | None => raise (HTTPException 404 "User not found")
     | Some user_data => decode_User E user_data
     end).

(** *** [POST /chat] *)
Definition chat_with_ai (E : externals) (chat_request : ChatRequest.t)
    : M ChatMessage.t :=
  guarded "Error processing chat: "
    (user <- find_one E users "id" (ChatRequest.user_id chat_request) ;;
     match user with
     | None => raise (HTTPException 404 "User not found")
     | Some _ =>
         ai_response <-
           send_message E
             (get_llm_chat (chat_session_id (ChatRequest.user_id chat_request))
                (ChatRequest.message chat_request)) ;;
         chat_message <-
           ChatMessage_init E
             [ ("user_id", VStr (ChatRequest.user_id chat_request));
               ("message", VStr (ChatRequest.message chat_request));
               ("response", VStr ai_response) ] ;;
         let chat_dict := prepare_dict (ChatMessage_dict chat_message) in
         insert_one E chat_history chat_dict ;;;
         ret chat_message
     end).

(** *** [GET /chat/{user_id}] *)
Definition get_chat_history (E : externals) (user_id : string)
    : M (list ChatMessage.t) :=
  guarded_all "Error retrieving chat history: "
    (history <- find_sorted E chat_history "user_id" user_id
                  "timestamp" Ascending 100 ;;
     history <- mapM (revive "timestamp") history ;;
     mapM (ChatMessage_init E) history).

(** *** [POST /upload] *)
Definition allowed_types : list string :=
  ["image/jpeg"; "image/png"; "application/pdf"].

(** [file_type in allowed_types] *)
Definition type_allowed (content_type : option string) : bool :=
  match content_type with
  | Some file_type => existsb (String.eqb file_type) allowed_types
  | None => false
  end.

Definition upload_dir : string := "/app/uploads".

(** [str(upload_dir / name)], for [upload_dir = Path("/app/uploads")] *)
Definition upload_path (name : string) : string :=
  PyPath.str (PyPath.joinpath (PyPath.PurePosixPath upload_dir) name).

Definition analysis_call (user_id file_path file_type : string) : llm_call :=
  {| provider := "gemini";
     model := "gemini-2.0-flash";
     session_id := file_analysis_session_id user_id;
     system_message :=
       "You are an expert file analyzer. Describe the content of uploaded files in detail.";
     text := "Please analyze this " ++ file_type
               ++ " file and describe its content in detail.";
     file_contents := [(file_path, file_type)] |}.

Definition fallback_description (file_type filename : string) : string :=
  "Uploaded " ++ file_type ++ " file: " ++ filename.

Definition upload_and_analyze_file (E : externals) (user_id : string)
    (file : UploadFile.t) : M FileMetadata.t :=
  guarded "Error processing file upload: "
    (user <- find_one E users "id" user_id ;;
     match user with
     | None => raise (HTTPException 404 "User not found")
     | Some _ =>
         match UploadFile.content_type file with
         | None =>
             raise (HTTPException 400 "Only JPG, PNG, and PDF files are allowed")
         | Some file_type =>
             if negb (type_allowed (Some file_type))
             then raise (HTTPException 400 "Only JPG, PNG, and PDF files are allowed")
             else
               mkdir E upload_dir ;;;
               token <- uuid4 E ;;
               let file_path :=
                 upload_path (token ++ "_" ++ UploadFile.filename file) in
               write_file E file_path (UploadFile.content file) ;;;
               description <-
                 try_except
                   (send_message E (analysis_call user_id file_path file_type))
                   (fun e =>
                      log_warning ("File analysis failed: " ++ exn_str e) ;;;
                      ret (fallback_description file_type
                             (UploadFile.filename file))) ;;
               file_metadata <-
                 FileMetadata_init E
                   [ ("user_id", VStr user_id);
                     ("filename", VStr (UploadFile.filename file));
                     ("description", VStr description);
                     ("file_path", VStr file_path);
                     ("file_type", VStr file_type) ] ;;
               let metadata_dict := prepare_dict (FileMetadata_dict file_metadata) in
               insert_one E World.file_metadata metadata_dict ;;;
               ret file_metadata
         end
     end).

(** *** [GET /files/{user_id}] *)
Definition get_user_files (E : externals) (user_id : string)
    : M (list FileMetadata.t) :=
  guarded_all "Error retrieving files: "
    (files <- find_sorted E file_metadata "user_id" user_id
                "uploaded_at" Descending 50 ;;
     files <- mapM (revive "uploaded_at") files ;;
     mapM (FileMetadata_init E) files).

(** *** [POST /websearch] *)
Definition search_prompt (query : string) : string :=
  "Please provide a comprehensive and informative response about: "
    ++ dquote ++ query ++ dquote ++ nl
    ++ nl
    ++ "Include:" ++ nl
    ++ "1. Key information and facts" ++ nl
    ++ "2. Current context and relevance" ++ nl
    ++ "3. Multiple perspectives if applicable" ++ nl
    ++ "4. Helpful resources or suggestions" ++ nl
    ++ nl
    ++ "Format your response as if you've searched the web and are providing a summary of the most relevant and useful information.".

Definition web_search (E : externals) (search_request : SearchRequest.t)
    : M SearchResult.t :=
  guarded "Error processing search: "
    (user <- find_one E users "id" (SearchRequest.user_id search_request) ;;
     match user with
     | None => raise (HTTPException 404 "User not found")
     | Some _ =>
         summary <-
           send_message E
             (get_llm_chat
                (search_session_id (SearchRequest.user_id search_request))
                (search_prompt (SearchRequest.query search_request))) ;;
         search_result <-
           SearchResult_init E
             [ ("user_id", VStr (SearchRequest.user_id search_request));
               ("query", VStr (SearchRequest.query search_request));
               ("summary", VStr summary) ] ;;
         let result_dict := prepare_dict (SearchResult_dict search_result) in
         insert_one E search_results result_dict ;;;
         ret search_result
     end).

(** *** [GET /search/{user_id}] *)
Definition get_search_history (E : externals) (user_id : string)
    : M (list SearchResult.t) :=
  guarded_all "Error retrieving search history: "
    (searches <- find_sorted E search_results "user_id" user_id
                   "timestamp" Descending 50 ;;
     searches <- mapM (revive "timestamp") searches ;;
     mapM (SearchResult_init E) searches).

End Server.

(** ** Runs of the service, and what its store holds *)

Module Runs.
Import PyDatetime PyValue Codec World Collab Pydantic Server.
Local Open Scope service_scope.

(** The requests that create a record. *)
Inductive request :=
| PostUsers (user_data : UserCreate.t)
| PostChat (chat_request : ChatRequest.t)
| PostUpload (user_id : string) (file : UploadFile.t)
| PostWebsearch (search_request : SearchRequest.t).

Inductive record :=
| AUser (u : User.t)
| AChatMessage (m : ChatMessage.t)
| AFileMetadata (f : FileMetadata.t)
| ASearchResult (r : SearchResult.t).

Definition record_id (r : record) : string :=
  match r with
  | AUser u => User.id u
  | AChatMessage m => ChatMessage.id m
  | AFileMetadata f => FileMetadata.id f
  | ASearchResult r => SearchResult.id r
  end.

Definition handle (E : externals) (rq : request) : M record :=
  match rq with
  | PostUsers user_data => u <- create_user E user_data ;; ret (AUser u)
  | PostChat chat_request =>
      m <- chat_with_ai E chat_request ;; ret (AChatMessage m)
  | PostUpload user_id file =>
      f <- upload_and_analyze_file E user_id file ;; ret (AFileMetadata f)
  | PostWebsearch search_request =>
      r <- web_search E search_request ;; ret (ASearchResult r)
  end.

(** The records a sequence of requests creates, in order, and the
    world it leaves; a request that fails creates none. *)
Fixpoint serve (E : externals) (rqs : list request) (w : world)
    : list record * world :=
  match rqs with
  | [] => ([], w)
  | rq :: rest =>
      match handle E rq w with
      | (Ok r, w') => let (rs, w'') := serve E rest w' in (r :: rs, w'')
      | (Raise _, w') => serve E rest w'
      end
  end.

(** The document the store holds for an encoded record. *)
Definition stored (doc : dict) (oid : nat) : dict :=
  with_object_id (prepare_dict doc) oid.

(** A timestamp taken by [datetime.now(timezone.utc)]. *)
Definition utc_stamp (d : datetime) : Prop :=
  utcoffset d = 0%Z /\ valid_naive (wall d) = true.

(** [doc] is the stored form of a record stamped by the service. *)
Definition holds_chat (doc : dict) (m : ChatMessage.t) : Prop :=
  (exists oid, doc = stored (ChatMessage_dict m) oid) /\
  utc_stamp (ChatMessage.timestamp m).

Definition holds_file (doc : dict) (f : FileMetadata.t) : Prop :=
  (exists oid, doc = stored (FileMetadata_dict f) oid) /\
  utc_stamp (FileMetadata.uploaded_at f).

Definition holds_search (doc : dict) (r : SearchResult.t) : Prop :=
  (exists oid, doc = stored (SearchResult_dict r) oid) /\
  utc_stamp (SearchResult.timestamp r).

Definition chat_doc (doc : dict) : Prop := exists m, holds_chat doc m.

Definition file_doc (doc : dict) : Prop := exists f, holds_file doc f.

Definition search_doc (doc : dict) : Prop := exists r, holds_search doc r.

(** Every history document is one the service wrote. *)
Definition store_ok (w : world) : Prop :=
  Forall chat_doc (db_chat_history w) /\
  Forall file_doc (db_file_metadata w) /\
  Forall search_doc (db_search_results w).

(** The clock gives real dates. *)
Definition clock_ok (E : externals) : Prop :=
  forall n, valid_naive (utc_clock E n) = true.

(** The store and the file system answer. *)
Definition store_up (E : externals) : Prop :=
  forall op c w, db_fault E op c w = None.

Definition files_up (E : externals) : Prop :=
  forall path w, fs_fault E path w = None.

(** The lookup of the user answers, with a user or with none. *)
Definition user_known (E : externals) (user_id : string) (w : world)
    : Prop :=
  exists user, find_one E users "id" user_id w = (Ok (Some user), w).

Definition user_unknown (E : externals) (user_id : string) (w : world)
    : Prop :=
  find_one E users "id" user_id w = (Ok None, w).

(** [w'] holds the documents and the files [w] holds. *)
Definition same_store (w w' : world) : Prop :=
  (forall c, coll w' c = coll w c) /\ uploads w' = uploads w.

(** [uuid4] as a source of fresh tokens: no token comes twice. *)
Definition fresh_tokens (E : externals) : Prop :=
  forall i j, uuid4_str E i = uuid4_str E j -> i = j.

(** The description an accepted upload gets, and the warnings logged
    by then. *)
Definition described (r : reply) (file_type filename : string) : string :=
  match r with
  | Text s => s
  | Failure _ => fallback_description file_type filename
  end.

Definition warned (r : reply) (l : list string) : list string :=
  match r with
  | Text _ => l
  | Failure msg => l ++ [("File analysis failed: " ++ msg)%string]
  end.

(** The identifier of a created record is a token drawn while the
    request was served. *)
Definition drawn_within (E : externals) (w w' : world) (id : string) : Prop :=
  exists k, uuid_count w <= k < uuid_count w' /\ id = uuid4_str E k.

(** A collection stays as it is or gains one document. *)
Definition grown (P : dict -> Prop) (old new : list dict) : Prop :=
  new = old \/ exists doc, P doc /\ new = old ++ [doc].

(** [p] occurs in [s]. *)
Definition Substring (p s : string) : Prop :=
  exists a b, s = (a ++ p ++ b)%string.

End Runs.

(** ** Sample data *)

Module Sample.
Import Digits PyDatetime PyValue Codec World Collab Pydantic Server Runs.
Local Open Scope string_scope.

Definition leap_day : datetime :=
  mk_datetime (mk_naive 2024 2 29 23 59 59 0) 0.

Definition teatime : datetime :=
  mk_datetime (mk_naive 1987 12 1 16 4 5 120) 330.

Definition nested_doc : dict :=
  [ ("count", VInt 1);
    ("seen", VDatetime leap_day);
    ("tags", VList [VStr "a"; VDatetime teatime]);
    ("inner", VDict [("at", VDatetime teatime); ("note", VNone)]) ].

Definition ana : User.t :=
  User.mk "u-1" "Ana" None (Some "555") "c-1" leap_day.

Definition a_chat : ChatMessage.t :=
  ChatMessage.mk "m-1" "u-1" "hi" "hello" teatime.

Definition a_file : FileMetadata.t :=
  FileMetadata.mk "f-1" "u-1" "cat.png" "A cat." "/app/uploads/t_cat.png"
    "image/png" leap_day.

Definition a_search : SearchResult.t :=
  SearchResult.mk "s-1" "u-1" "rocq" "A proof assistant." teatime.

(** Tokens [u], [uu], [uuu], ...: no two alike. *)
Fixpoint tally (n : nat) : string :=
  match n with
  | O => "u"
  | S k => String "u"%char (tally k)
  end.

Definition tick (n : nat) : naive :=
  mk_naive 2024 5 17 10 30 (N.of_nat n mod 60) ((N.of_nat n mod 2) * 500000).

(** The conversational backend answers; the analysis backend is down. *)
Definition analysis_down : externals :=
  {| uuid4_str := tally;
     utc_clock := tick;
     llm_reply := fun _ c =>
       if String.eqb (provider c) "gemini"
       then Failure "analysis backend unavailable"
       else Text ("re: " ++ text c);
     db_fault := fun _ _ _ => None;
     fs_fault := fun _ _ => None |}.

(** Both backends answer; the analysis backend describes the file. *)
Definition all_up : externals :=
  {| uuid4_str := tally;
     utc_clock := tick;
     llm_reply := fun _ c =>
       if String.eqb (provider c) "gemini"
       then Text "A picture."
       else Text ("re: " ++ text c);
     db_fault := fun _ _ _ => None;
     fs_fault := fun _ _ => None |}.

(** Both backends answer with the empty string. *)
Definition mute : externals :=
  {| uuid4_str := tally;
     utc_clock := tick;
     llm_reply := fun _ _ => Text EmptyString;
     db_fault := fun _ _ _ => None;
     fs_fault := fun _ _ => None |}.

(** No backend answers. *)
Definition all_down : externals :=
  {| uuid4_str := tally;
     utc_clock := tick;
     llm_reply := fun _ _ => Failure "backend unavailable";
     db_fault := fun _ _ _ => None;
     fs_fault := fun _ _ => None |}.

Definition cat_png : UploadFile.t :=
  UploadFile.mk "cat.png" (Some "image/png") "PNG-bytes".

Definition notes_txt : UploadFile.t :=
  UploadFile.mk "notes.txt" (Some "text/plain") "hello".

(** The world after Ana has registered: her identifier is [tally 0]. *)
Definition registered : world :=
  snd (create_user all_up (UserCreate.mk "Ana" None None) empty_world).

Definition stamp (s us : N) : datetime :=
  now_utc (mk_naive 2024 5 17 10 30 s us).

(** A store written over a morning by two users, not in the order of
    time. *)
Definition archive : world :=
  mk_world
    [ stored (User_dict (User.mk "u" "Ana" None None "uu" (stamp 0 0))) 0;
      stored (User_dict (User.mk "v" "Bo" None None "vv" (stamp 0 7))) 1 ]
    [ stored (ChatMessage_dict
                (ChatMessage.mk "m1" "u" "two" "re: two" (stamp 9 0))) 2;
      stored (ChatMessage_dict
                (ChatMessage.mk "m2" "v" "hey" "re: hey" (stamp 3 0))) 3;
      stored (ChatMessage_dict
                (ChatMessage.mk "m3" "u" "one" "re: one" (stamp 2 250000))) 4;
      stored (ChatMessage_dict
                (ChatMessage.mk "m4" "u" "zero" "re: zero" (stamp 2 0))) 5 ]
    [ stored (FileMetadata_dict
                (FileMetadata.mk "f1" "u" "a.png" "A." "/app/uploads/x_a.png"
                   "image/png" (stamp 4 0))) 6;
      stored (FileMetadata_dict
                (FileMetadata.mk "f2" "u" "b.pdf" "B." "/app/uploads/y_b.pdf"
                   "application/pdf" (stamp 5 10))) 7 ]
    [ stored (SearchResult_dict
                (SearchResult.mk "s1" "u" "rocq" "R." (stamp 6 0))) 8;
      stored (SearchResult_dict
                (SearchResult.mk "s2" "u" "coq" "C." (stamp 7 999999))) 9;
      stored (SearchResult_dict
                (SearchResult.mk "s3" "v" "ocaml" "O." (stamp 8 0))) 10 ]
    [] [] [] 20 20 11.

(** A busy session: registration, three chats, two uploads, three
    searches. *)
Definition session : list request :=
  [ PostUsers (UserCreate.mk "Ana" None None);
    PostChat (ChatRequest.mk "u" "one");
    PostUpload "u" cat_png;
    PostChat (ChatRequest.mk "u" "two");
    PostWebsearch (SearchRequest.mk "u" "rocq");
    PostWebsearch (SearchRequest.mk "u" "coq");
    PostUpload "u" cat_png;
    PostChat (ChatRequest.mk "u" "three");
    PostWebsearch (SearchRequest.mk "u" "gallina") ].

End Sample.

(** ** Lifecycle of the stored documents *)

Module Lifecycle.
Import PyDatetime PyValue Codec World Collab Pydantic Server Runs.

(** [doc] is the stored form of a user stamped by the service. *)
Definition holds_user (doc : dict) (u : User.t) : Prop :=
  (exists oid, doc = stored (User_dict u) oid) /\
  utc_stamp (User.created_at u).

(** Every user document was written at a registration, under a token
    drawn before the next one of [w]. *)
Definition users_ok (E : externals) (w : world) : Prop :=
  Forall (fun doc =>
            exists u k,
              holds_user doc u /\ User.id u = uuid4_str E k /\
              k < uuid_count w)
    (db_users w).

(** [new] is [old] with at most one document added at its end. *)
Definition appended (old new : list dict) : Prop :=
  exists more, new = old ++ more /\ length more <= 1.

(** The user a request is made for; a registration is made for none. *)
Definition request_user (rq : request) : option string :=
  match rq with
  | PostUsers _ => None
  | PostChat chat_request => Some (ChatRequest.user_id chat_request)
  | PostUpload user_id _ => Some user_id
  | PostWebsearch search_request => Some (SearchRequest.user_id search_request)
  end.

(** [a] is earlier than [b], for two datetimes of the same offset. *)
Definition datetime_lt (a b : datetime) : Prop :=
  utcoffset a = utcoffset b /\ naive_compare (wall a) (wall b) = Lt.

(** The document's stamp, as stored under [field], sorts before the
    rendering of [t]. *)
Definition stamped_before (field : string) (t : datetime) (doc : dict)
    : bool :=
  match dict_get doc field with
  | Some (VStr s) =>
      match String.compare s (isoformat t) with
      | Lt => true
      | _ => false
      end
  | _ => false
  end.

(** The document's stamp, as stored under [field], sorts after the
    rendering of [t]. *)
Definition stamped_after (field : string) (t : datetime) (doc : dict)
    : bool :=
  match dict_get doc field with
  | Some (VStr s) =>
      match String.compare s (isoformat t) with
      | Gt => true
      | _ => false
      end
  | _ => false
  end.

(** The document holds a string under [field]. *)
Definition has_stamp (field : string) (doc : dict) : Prop :=
  exists s, dict_get doc field = Some (VStr s).

(** The page a history read takes from the store:
    [find({"user_id": user_id}).sort(field, direction).to_list(n)]. *)
Definition chat_page (user_id : string) (w : world) : list dict :=
  selected "user_id" user_id "timestamp" Ascending 100 (db_chat_history w).

Definition file_page (user_id : string) (w : world) : list dict :=
  selected "user_id" user_id "uploaded_at" Descending 50 (db_file_metadata w).

Definition search_page (user_id : string) (w : world) : list dict :=
  selected "user_id" user_id "timestamp" Descending 50 (db_search_results w).

(** No slash occurs in [s]. *)
Fixpoint slashless (s : string) : bool :=
  match s with
  | EmptyString => true
  | String c t => negb (Ascii.eqb c "/"%char) && slashless t
  end.

(** The tokens hold no slash, as the hexadecimal digits and hyphens of
    [str(uuid.uuid4())] do not. *)
Definition plain_tokens (E : externals) : Prop :=
  forall n, slashless (uuid4_str E n) = true.

(** What a path keeps of a filename written after a token: its
    components, the empty ones and the [.] ones after the first
    dropped. *)
Definition kept_name (filename : string) : string :=
  match PyPath.split filename with
  | h :: r => String.concat "/" (h :: filter PyPath.kept r)
  | [] => filename
  end.

(** No value of the dictionary [v], nor of a dictionary nested in it as
    a value, is a datetime.  (Lists are not looked into.) *)
Fixpoint dict_values_encoded (v : pyval) : Prop :=
  match v with
  | VDict d =>
      (fix all (l : list (string * pyval)) : Prop :=
         match l with
         | [] => True
         | (_, x) :: t =>
             (forall dt, x <> VDatetime dt) /\ dict_values_encoded x /\ all t
         end) d
  | _ => True
  end.

End Lifecycle.

(** ** A crowded store *)

Module Crowd.
Import PyDatetime PyValue Codec World Collab Pydantic Server Runs.
Local Open Scope string_scope.

(** One stamp a second, from half past ten. *)
Definition second_stamp (k : nat) : datetime :=
  now_utc (mk_naive 2024 5 17 10 (30 + N.of_nat k / 60) (N.of_nat k mod 60) 0).

(** [n] messages of user [u], the latest first in the collection. *)
Fixpoint chats (n : nat) : list dict :=
  match n with
  | O => []
  | S k =>
      stored (ChatMessage_dict
                (ChatMessage.mk (Sample.tally k) "u" "ping" "pong"
                   (second_stamp k))) k
      :: chats k
  end.

(** [n] uploads of user [u], the earliest last in the collection. *)
Fixpoint files (n : nat) : list dict :=
  match n with
  | O => []
  | S k =>
      stored (FileMetadata_dict
                (FileMetadata.mk (Sample.tally k) "u" "a.png" "A."
                   "/app/uploads/x_a.png" "image/png" (second_stamp k))) k
      :: files k
  end.

(** [n] searches of user [u]. *)
Fixpoint searches (n : nat) : list dict :=
  match n with
  | O => []
  | S k =>
      stored (SearchResult_dict
                (SearchResult.mk (Sample.tally k) "u" "rocq" "R."
                   (second_stamp k))) k
      :: searches k
  end.

(** A store with more than a page of each history. *)
Definition crowded : world :=
  mk_world [] (chats 103) (files 52) (searches 51) [] [] [] 0 0 103.

(** A document of user [u] without a message, stamped after the
    others. *)
Definition no_message : dict :=
  [ ("id", VStr "late");
    ("user_id", VStr "u");
    ("response", VStr "pong");
    ("timestamp", VStr (isoformat (second_stamp 200))) ].

(** A full page of messages, and that document beyond it. *)
Definition spoiled : world :=
  mk_world [] (no_message :: chats 100) [] [] [] [] [] 0 0 100.

End Crowd.

(* ================================================================== *)
(** * Part II: lemmas and theorems                                     *)
(* ================================================================== *)

(** ** Fixed-width decimal fields *)

Module DigitsFacts.
Import Digits PyDatetime.
Local Open Scope string_scope.

Lemma pow10_pos w : (0 < pow10 w)%N.
Proof. induction w; cbn [pow10]; lia. Qed.

Lemma N_of_digit d : (d < 10)%N -> N_of_ascii (digit d) = (48 + d)%N.
Proof. intros H. unfold digit. apply N_ascii_embedding. lia. Qed.

Lemma digit_val_digit d : (d < 10)%N -> digit_val (digit d) = Some d.
Proof.
  intros H. unfold digit_val. rewrite N_of_digit by assumption.
  replace (48 <=? 48 + d)%N with true by (symmetry; apply N.leb_le; lia).
  replace (48 + d <=? 57)%N with true by (symmetry; apply N.leb_le; lia).
  cbn [andb]. f_equal. lia.
Qed.

Lemma split_digit w n :
  (n < pow10 (S w))%N ->
  (n / pow10 w < 10)%N /\ (n mod pow10 w < pow10 w)%N /\
  n = (n / pow10 w * pow10 w + n mod pow10 w)%N.
Proof.
  intros H. pose proof (pow10_pos w) as Hp. cbn [pow10] in H.
  split; [| split].
  - apply N.Div0.div_lt_upper_bound; lia.
  - apply N.mod_lt; lia.
  - rewrite N.mul_comm. apply N.div_mod; lia.
Qed.

Lemma take_digits_pad w : forall n rest,
  (n < pow10 w)%N -> take_digits w (pad w n ++ rest) = Some (n, rest).
Proof.
  induction w as [| w IH]; intros n rest H.
  - cbn [pow10] in H. cbn. f_equal. f_equal. lia.
  - destruct (split_digit w n H) as (Hq & Hr & Hn).
    cbn [pad take_digits append].
    rewrite (digit_val_digit _ Hq), (IH _ rest Hr), <- Hn. reflexivity.
Qed.

Lemma lex_eq c k : lex c k = match c with Eq => k | _ => c end.
Proof. reflexivity. Qed.

Lemma compare_pad w : forall n m r1 r2,
  (n < pow10 w)%N -> (m < pow10 w)%N ->
  String.compare (pad w n ++ r1) (pad w m ++ r2)
  = lex (N.compare n m) (String.compare r1 r2).
Proof.
  induction w as [| w IH]; intros n m r1 r2 Hn Hm.
  - cbn [pow10] in *. replace n with 0%N by lia. replace m with 0%N by lia.
    reflexivity.
  - destruct (split_digit w n Hn) as (Hqn & Hrn & En).
    destruct (split_digit w m Hm) as (Hqm & Hrm & Em).
    cbn [pad append String.compare]. unfold Ascii.compare.
    rewrite !N_of_digit by assumption.
    rewrite (IH _ _ r1 r2 Hrn Hrm).
    pose proof (pow10_pos w) as Hp.
    set (p := pow10 w) in *. set (qn := (n / p)%N) in *.
    set (qm := (m / p)%N) in *. set (rn := (n mod p)%N) in *.
    set (rm := (m mod p)%N) in *.
    destruct (N.compare_spec (48 + qn) (48 + qm)) as [E | L | G].
    + assert (qn = qm) by lia. subst qm.
      replace (N.compare n m) with (N.compare rn rm); [reflexivity |].
      destruct (N.compare_spec rn rm), (N.compare_spec n m);
        try reflexivity; exfalso; lia.
    + assert (n < m)%N by nia.
      rewrite (proj2 (N.compare_lt_iff n m)) by assumption. reflexivity.
    + assert (m < n)%N by nia.
      rewrite (proj2 (N.compare_gt_iff n m)) by assumption. reflexivity.
Qed.

Lemma append_empty_r s : s ++ EmptyString = s.
Proof. induction s as [| c s IH]; cbn [append]; [| rewrite IH]; reflexivity. Qed.

Lemma take_digits_pad_end w n :
  (n < pow10 w)%N -> take_digits w (pad w n) = Some (n, EmptyString).
Proof.
  intros H. rewrite <- (append_empty_r (pad w n)) at 1.
  apply take_digits_pad, H.
Qed.

Lemma expect_same c s : expect c (String c s) = Some s.
Proof. unfold expect. rewrite Ascii.eqb_refl. reflexivity. Qed.

End DigitsFacts.

(** ** The ISO-8601 rendering of datetimes *)

Module DatetimeFacts.
Import Digits PyDatetime DigitsFacts.
Local Open Scope string_scope.

Lemma days_in_month_le y m : (days_in_month y m <= 31)%N.
Proof.
  unfold days_in_month.
  repeat match goal with
         | |- context [match ?x with _ => _ end] => destruct x
         end; lia.
Qed.

(** What [valid_naive] checks, as inequalities. *)
Lemma valid_naive_bounds t :
  valid_naive t = true ->
  (1 <= year t <= 9999 /\ 1 <= month t <= 12 /\
   1 <= day t <= days_in_month (year t) (month t) /\
   hour t < 24 /\ minute t < 60 /\ second t < 60 /\
   microsecond t < 1000000)%N.
Proof.
  unfold valid_naive. rewrite !andb_true_iff, !N.leb_le, !N.ltb_lt. tauto.
Qed.

Lemma valid_datetime_bounds d :
  valid_datetime d = true ->
  valid_naive (wall d) = true /\ (-1440 < utcoffset d < 1440)%Z.
Proof.
  unfold valid_datetime. rewrite !andb_true_iff, !Z.ltb_lt. tauto.
Qed.

Lemma offset_split off :
  (-1440 < off < 1440)%Z ->
  let a := Z.to_N (Z.abs off) in
  (a / 60 < 100 /\ a mod 60 < 60 /\
   a / 60 * 60 + a mod 60 = a)%N.
Proof.
  intros H a. assert (a < 1440)%N by lia.
  split; [| split].
  - apply N.Div0.div_lt_upper_bound; lia.
  - apply N.mod_lt; lia.
  - rewrite N.mul_comm. symmetry. apply N.div_mod; lia.
Qed.

Ltac read_field :=
  first [ rewrite take_digits_pad by (cbn [pow10]; lia)
        | rewrite expect_same ];
  cbv beta iota.

(** Round trip of the ISO-8601 rendering. *)
Lemma fromisoformat_isoformat d :
  valid_datetime d = true -> fromisoformat (isoformat d) = Some d.
Proof.
  intros Hv.
  destruct (valid_datetime_bounds d Hv) as (Hn & Hoff).
  destruct (valid_naive_bounds _ Hn) as (Hy & Hm & Hd & Hh & Hmi & Hs & Hus).
  pose proof (days_in_month_le (year (wall d)) (month (wall d))) as Hdim.
  destruct (offset_split _ Hoff) as (Hoh & Hom & Ha).
  destruct d as [[y m dd h mi s us] off]; cbn [wall utcoffset year month day hour minute second microsecond] in *.
  unfold fromisoformat, isoformat; cbn [wall utcoffset year month day hour minute second microsecond].
  do 5 read_field. cbn [skip_char]. do 5 read_field.
  assert (Hfrac : parse_fraction (format_fraction us ++ format_offset off)
                  = Some (us, format_offset off)).
  { unfold format_fraction. destruct (N.eqb_spec us 0) as [-> | Hne].
    - unfold format_offset. destruct (off <? 0)%Z; reflexivity.
    - cbn [append parse_fraction]. apply take_digits_pad. cbn [pow10]; lia. }
  rewrite Hfrac; cbv beta iota.
  assert (Hsign : parse_sign (format_offset off)
                  = Some ((if (off <? 0)%Z then -1 else 1)%Z,
                          pad 2 (Z.to_N (Z.abs off) / 60)
                            ++ String ":"%char (pad 2 (Z.to_N (Z.abs off) mod 60)))).
  { unfold format_offset. destruct (off <? 0)%Z; reflexivity. }
  rewrite Hsign; cbv beta iota.
  read_field. read_field.
  rewrite take_digits_pad_end by (cbn [pow10]; lia). cbv beta iota zeta.
  rewrite Ha.
  replace ((if (off <? 0)%Z then -1 else 1) * Z.of_N (Z.to_N (Z.abs off)))%Z
    with off by (destruct (Z.ltb_spec off 0); lia).
  rewrite Hv. rewrite (proj2 (N.ltb_lt _ _) Hom). reflexivity.
Qed.

Lemma compare_same_head c s1 s2 :
  String.compare (String c s1) (String c s2) = String.compare s1 s2.
Proof.
  cbn [String.compare]. unfold Ascii.compare. rewrite N.compare_refl.
  reflexivity.
Qed.

Lemma compare_refl s : String.compare s s = Eq.
Proof.
  induction s as [| c s IH]; [reflexivity |].
  rewrite compare_same_head. exact IH.
Qed.

Lemma lex_Eq_r c : lex c Eq = c.
Proof. destruct c; reflexivity. Qed.

(** The fraction and the offset: with the same offset on both sides,
    the strings compare as the microseconds do; an absent fraction
    comes first because the sign of the offset sorts before the dot. *)
Lemma compare_fraction u1 u2 off :
  (u1 < 1000000)%N -> (u2 < 1000000)%N ->
  String.compare (format_fraction u1 ++ format_offset off)
                 (format_fraction u2 ++ format_offset off)
  = N.compare u1 u2.
Proof.
  intros H1 H2. unfold format_fraction.
  destruct (N.eqb_spec u1 0) as [-> | N1], (N.eqb_spec u2 0) as [-> | N2].
  - cbn [append]. apply compare_refl.
  - replace (N.compare 0 u2) with Lt
      by (symmetry; apply N.compare_lt_iff; lia).
    unfold format_offset. destruct (off <? 0)%Z; reflexivity.
  - replace (N.compare u1 0) with Gt
      by (symmetry; apply N.compare_gt_iff; lia).
    unfold format_offset. destruct (off <? 0)%Z; reflexivity.
  - cbn [append]. rewrite compare_same_head.
    rewrite compare_pad by (cbn [pow10]; lia).
    rewrite compare_refl. apply lex_Eq_r.
Qed.

(** The rendering is sortable: two datetimes of the same offset
    compare as their renderings do, character by character. *)
Lemma isoformat_compare a b :
  valid_naive (wall a) = true -> valid_naive (wall b) = true ->
  utcoffset a = utcoffset b ->
  String.compare (isoformat a) (isoformat b)
  = naive_compare (wall a) (wall b).
Proof.
  intros Ha Hb Hoff.
  destruct (valid_naive_bounds _ Ha) as (Hy & Hm & Hd & Hh & Hmi & Hs & Hus).
  destruct (valid_naive_bounds _ Hb) as (Hy' & Hm' & Hd' & Hh' & Hmi' & Hs' & Hus').
  pose proof (days_in_month_le (year (wall a)) (month (wall a))).
  pose proof (days_in_month_le (year (wall b)) (month (wall b))).
  unfold isoformat, naive_compare. rewrite Hoff.
  repeat (rewrite compare_pad by (cbn [pow10]; lia);
          rewrite ?compare_same_head).
  rewrite compare_fraction by assumption. reflexivity.
Qed.

End DatetimeFacts.

(** ** Python values *)

Module ValueFacts.
Import PyDatetime PyValue.

Lemma wf_dict_iff d :
  wf_dict d <-> NoDup (keys d) /\ Forall (fun kv => wf_val (snd kv)) d.
Proof.
  unfold wf_dict, keys. cbn [wf_val].
  apply and_iff_compat_l.
  induction d as [| [k v] t IH]; cbn [snd].
  - split; [constructor | trivial].
  - rewrite IH. split.
    + intros [Hv Ht]. constructor; assumption.
    + intros H. inversion H; subst. split; assumption.
Qed.

Lemma dict_set_fresh pre : forall k v x t,
  ~ In k (keys pre) ->
  dict_set (pre ++ (k, v) :: t) k x = pre ++ (k, x) :: t.
Proof.
  induction pre as [| [k' v'] pre IH]; intros k v x t Hk; cbn [app dict_set].
  - rewrite String.eqb_refl. reflexivity.
  - cbn [keys map fst In] in Hk.
    destruct (String.eqb_spec k' k) as [-> | Hne].
    + exfalso. apply Hk. left. reflexivity.
    + rewrite IH; [reflexivity |]. intros Hin. apply Hk. right. exact Hin.
Qed.

Lemma keys_app (a b : dict) : keys (a ++ b) = keys a ++ keys b.
Proof. apply map_app. Qed.

Lemma dict_get_app_l (a b : dict) k v :
  dict_get a k = Some v -> dict_get (a ++ b) k = Some v.
Proof.
  induction a as [| [k' v'] a IH]; cbn [app dict_get]; [discriminate |].
  destruct (String.eqb k' k); auto.
Qed.

Lemma dict_get_app_r (a b : dict) k :
  dict_get a k = None -> dict_get (a ++ b) k = dict_get b k.
Proof.
  induction a as [| [k' v'] a IH]; cbn [app dict_get]; [reflexivity |].
  destruct (String.eqb k' k); [discriminate | auto].
Qed.

End ValueFacts.

(** ** The storage encoder *)

Module CodecFacts.
Import PyDatetime PyValue Codec ValueFacts.

Lemma prepare_for_mongo_loop items :
  prepare_for_mongo (VDict items)
  = VDict (fold_left (prepare_step prepare_for_mongo) items items).
Proof. reflexivity. Qed.

Lemma prepare_step_fresh pre k v t :
  ~ In k (keys pre) ->
  prepare_step prepare_for_mongo (pre ++ (k, v) :: t) (k, v)
  = pre ++ encode_item (k, v) :: t.
Proof.
  intros Hk. unfold prepare_step, encode_item, encode_value. cbn [fst snd].
  destruct v; try reflexivity; apply dict_set_fresh; assumption.
Qed.

Lemma keys_encode_items d : keys (map encode_item d) = keys d.
Proof.
  unfold keys. rewrite map_map. apply map_ext. intros [k v]. reflexivity.
Qed.

(** The loop, on a dictionary whose keys are distinct: the items
    already passed are encoded, the others are still to come. *)
Lemma prepare_loop_inv post : forall pre,
  NoDup (keys (pre ++ post)) ->
  fold_left (prepare_step prepare_for_mongo) post (pre ++ post)
  = pre ++ map encode_item post.
Proof.
  induction post as [| [k v] t IH]; intros pre Hnd; cbn [fold_left map].
  - reflexivity.
  - assert (Hk : ~ In k (keys pre)).
    { rewrite keys_app in Hnd. cbn [keys map fst] in Hnd.
      apply NoDup_remove_2 in Hnd. intros Hin. apply Hnd.
      apply in_or_app. left. exact Hin. }
    rewrite prepare_step_fresh by exact Hk.
    change (pre ++ encode_item (k, v) :: t)
      with (pre ++ [encode_item (k, v)] ++ t).
    rewrite app_assoc. rewrite IH.
    + rewrite <- app_assoc. reflexivity.
    + rewrite <- app_assoc. rewrite keys_app in *. exact Hnd.
Qed.

(** [prepare_for_mongo] encodes the values, each at its key. *)
Lemma prepare_for_mongo_items d :
  NoDup (keys d) ->
  prepare_for_mongo (VDict d) = VDict (map encode_item d).
Proof.
  intros Hnd. rewrite prepare_for_mongo_loop.
  f_equal. exact (prepare_loop_inv d [] Hnd).
Qed.

Lemma prepare_dict_items d :
  NoDup (keys d) -> prepare_dict d = map encode_item d.
Proof.
  intros Hnd. unfold prepare_dict. rewrite prepare_for_mongo_items by exact Hnd.
  reflexivity.
Qed.

Lemma encode_value_dict d : exists d', encode_value (VDict d) = VDict d'.
Proof. eexists. reflexivity. Qed.

(** Encoding twice is encoding once, and keeps keys distinct. *)
Lemma prepare_twice v :
  wf_val v ->
  prepare_for_mongo (prepare_for_mongo v) = prepare_for_mongo v /\
  wf_val (prepare_for_mongo v).
Proof.
  induction v as [| | | | | | | d IH] using pyval_values_ind; intros Hwf;
    try (split; [reflexivity | exact I]).
  apply wf_dict_iff in Hwf. destruct Hwf as [Hnd Hvals].
  rewrite (prepare_for_mongo_items d Hnd).
  assert (Hnd' : NoDup (keys (map encode_item d)))
    by (rewrite keys_encode_items; exact Hnd).
  rewrite (prepare_for_mongo_items _ Hnd').
  assert (Hitems : Forall (fun kv =>
            encode_item (encode_item kv) = encode_item kv /\
            wf_val (snd (encode_item kv))) d).
  { clear Hnd Hnd'. induction d as [| [k x] t IHt]; constructor.
    - inversion IH as [| ? ? Hx _]; subst.
      inversion Hvals as [| ? ? Hwx _]; subst. cbn [snd] in Hx, Hwx.
      unfold encode_item; cbn [fst snd].
      destruct x; try (split; [reflexivity | exact I]).
      destruct (Hx Hwx) as [Htw Hw]. cbn [encode_value]. split.
      + f_equal. rewrite prepare_for_mongo_loop in *. cbn [encode_value].
        rewrite <- prepare_for_mongo_loop. exact Htw.
      + exact Hw.
    - inversion IH; subst. inversion Hvals; subst. apply IHt; assumption. }
  split.
  - f_equal. rewrite map_map. apply map_ext_in. intros kv Hin.
    rewrite Forall_forall in Hitems. apply (Hitems kv Hin).
  - apply wf_dict_iff. split; [exact Hnd' |].
    apply Forall_map. eapply Forall_impl; [| exact Hitems].
    intros kv [_ Hw]. exact Hw.
Qed.

End CodecFacts.

(** ** Round trip through the storage form *)

Module RoundTrip.
Import PyDatetime PyValue Codec World Collab Pydantic Server Runs.
Import DatetimeFacts ValueFacts CodecFacts.

Lemma dict_get_encode_items d k :
  dict_get (map encode_item d) k = option_map encode_value (dict_get d k).
Proof.
  induction d as [| [k' v] t IH]; cbn [map dict_get encode_item fst snd option_map].
  - reflexivity.
  - destruct (String.eqb k' k); [reflexivity | exact IH].
Qed.

Lemma revive_string k d s t w :
  dict_get d k = Some (VStr s) -> fromisoformat s = Some t ->
  revive k d w = (Ok (dict_set d k (VDatetime t)), w).
Proof. intros Hg Hp. unfold revive. rewrite Hg, Hp. reflexivity. Qed.

Lemma decode_encode_User E w u :
  valid_datetime (User.created_at u) = true ->
  decode_User E (prepare_dict (User_dict u)) w = (Ok u, w).
Proof.
  intros Hv. destruct u as [id fn un ph cid t]. cbn [User.created_at] in Hv.
  unfold decode_User, bind.
  destruct un, ph;
    (rewrite (revive_string "created_at" _ (isoformat t) t w);
     [| reflexivity | apply fromisoformat_isoformat; exact Hv]);
    reflexivity.
Qed.

Lemma decode_encode_ChatMessage E w m :
  valid_datetime (ChatMessage.timestamp m) = true ->
  decode_ChatMessage E (prepare_dict (ChatMessage_dict m)) w = (Ok m, w).
Proof.
  intros Hv. destruct m as [id uid msg rsp t]. cbn [ChatMessage.timestamp] in Hv.
  unfold decode_ChatMessage, bind.
  rewrite (revive_string "timestamp" _ (isoformat t) t w);
    [| reflexivity | apply fromisoformat_isoformat; exact Hv].
  reflexivity.
Qed.

Lemma decode_encode_FileMetadata E w f :
  valid_datetime (FileMetadata.uploaded_at f) = true ->
  decode_FileMetadata E (prepare_dict (FileMetadata_dict f)) w = (Ok f, w).
Proof.
  intros Hv. destruct f as [id uid fn ds fp ft t].
  cbn [FileMetadata.uploaded_at] in Hv.
  unfold decode_FileMetadata, bind.
  rewrite (revive_string "uploaded_at" _ (isoformat t) t w);
    [| reflexivity | apply fromisoformat_isoformat; exact Hv].
  reflexivity.
Qed.

Lemma decode_encode_SearchResult E w r :
  valid_datetime (SearchResult.timestamp r) = true ->
  decode_SearchResult E (prepare_dict (SearchResult_dict r)) w = (Ok r, w).
Proof.
  intros Hv. destruct r as [id uid q sm t]. cbn [SearchResult.timestamp] in Hv.
  unfold decode_SearchResult, bind.
  rewrite (revive_string "timestamp" _ (isoformat t) t w);
    [| reflexivity | apply fromisoformat_isoformat; exact Hv].
  reflexivity.
Qed.

(** The stored form of a record: its field dictionary with the
    timestamp rendered as an ISO string, the rest as it was. *)
Lemma stored_form_User u :
  prepare_dict (User_dict u)
  = dict_set (User_dict u) "created_at"
      (VStr (isoformat (User.created_at u))).
Proof. destruct u as [id fn [un |] [ph |] cid t]; reflexivity. Qed.

Lemma stored_form_ChatMessage m :
  prepare_dict (ChatMessage_dict m)
  = dict_set (ChatMessage_dict m) "timestamp"
      (VStr (isoformat (ChatMessage.timestamp m))).
Proof. destruct m; reflexivity. Qed.

Lemma stored_form_FileMetadata f :
  prepare_dict (FileMetadata_dict f)
  = dict_set (FileMetadata_dict f) "uploaded_at"
      (VStr (isoformat (FileMetadata.uploaded_at f))).
Proof. destruct f; reflexivity. Qed.

Lemma stored_form_SearchResult r :
  prepare_dict (SearchResult_dict r)
  = dict_set (SearchResult_dict r) "timestamp"
      (VStr (isoformat (SearchResult.timestamp r))).
Proof. destruct r; reflexivity. Qed.

(** Parsing the timestamp of the stored form gives the field
    dictionary back. *)
Lemma revive_stored_User u w :
  valid_datetime (User.created_at u) = true ->
  revive "created_at" (prepare_dict (User_dict u)) w = (Ok (User_dict u), w).
Proof.
  intros Hv. destruct u as [id fn [un |] [ph |] cid t];
    cbn [User.created_at] in Hv;
    (rewrite (revive_string "created_at" _ (isoformat t) t w);
     [| reflexivity | apply fromisoformat_isoformat; exact Hv]);
    reflexivity.
Qed.

Lemma revive_stored_ChatMessage m w :
  valid_datetime (ChatMessage.timestamp m) = true ->
  revive "timestamp" (prepare_dict (ChatMessage_dict m)) w
  = (Ok (ChatMessage_dict m), w).
Proof.
  intros Hv. destruct m as [id uid msg rsp t]. cbn [ChatMessage.timestamp] in Hv.
  rewrite (revive_string "timestamp" _ (isoformat t) t w);
    [| reflexivity | apply fromisoformat_isoformat; exact Hv].
  reflexivity.
Qed.

Lemma revive_stored_FileMetadata f w :
  valid_datetime (FileMetadata.uploaded_at f) = true ->
  revive "uploaded_at" (prepare_dict (FileMetadata_dict f)) w
  = (Ok (FileMetadata_dict f), w).
Proof.
  intros Hv. destruct f as [id uid fn ds fp ft t].
  cbn [FileMetadata.uploaded_at] in Hv.
  rewrite (revive_string "uploaded_at" _ (isoformat t) t w);
    [| reflexivity | apply fromisoformat_isoformat; exact Hv].
  reflexivity.
Qed.

Lemma revive_stored_SearchResult r w :
  valid_datetime (SearchResult.timestamp r) = true ->
  revive "timestamp" (prepare_dict (SearchResult_dict r)) w
  = (Ok (SearchResult_dict r), w).
Proof.
  intros Hv. destruct r as [id uid q sm t]. cbn [SearchResult.timestamp] in Hv.
  rewrite (revive_string "timestamp" _ (isoformat t) t w);
    [| reflexivity | apply fromisoformat_isoformat; exact Hv].
  reflexivity.
Qed.

End RoundTrip.

(** ** The collaborators, step by step *)

Module CollabFacts.
Import PyDatetime PyValue Codec World Collab Pydantic Server Runs.

Lemma find_one_cases E c field value w :
  find_one E c field value w
    = (Ok (List.find (field_is field value) (coll w c)), w) \/
  exists msg, find_one E c field value w = (Raise (Exception msg), w).
Proof.
  unfold find_one. destruct (db_fault E FindOne c w) as [msg |].
  - right. exists msg. reflexivity.
  - left. reflexivity.
Qed.

Lemma insert_one_cases E c doc w :
  insert_one E c doc w
    = (Ok tt,
       set_oid_count
         (set_coll w c (coll w c ++ [with_object_id doc (oid_count w)]))
         (S (oid_count w))) \/
  exists msg, insert_one E c doc w = (Raise (Exception msg), w).
Proof.
  unfold insert_one. destruct (db_fault E InsertOne c w) as [msg |].
  - right. exists msg. reflexivity.
  - left. reflexivity.
Qed.

Lemma insert_one_up E c doc w :
  store_up E ->
  insert_one E c doc w
  = (Ok tt,
     set_oid_count
       (set_coll w c (coll w c ++ [with_object_id doc (oid_count w)]))
       (S (oid_count w))).
Proof. intros Hup. unfold insert_one. rewrite Hup. reflexivity. Qed.

Lemma mkdir_cases E path w :
  mkdir E path w = (Ok tt, w) \/
  exists msg, mkdir E path w = (Raise (Exception msg), w).
Proof.
  unfold mkdir. destruct (fs_fault E path w) as [msg |].
  - right. exists msg. reflexivity.
  - left. reflexivity.
Qed.

Lemma mkdir_up E path w : files_up E -> mkdir E path w = (Ok tt, w).
Proof. intros Hup. unfold mkdir. rewrite Hup. reflexivity. Qed.

Lemma write_file_cases E path content w :
  write_file E path content w
    = (Ok tt,
       set_uploads w
         (filter (fun f => negb (String.eqb (fst f) path)) (uploads w)
            ++ [(path, content)])) \/
  exists msg, write_file E path content w = (Raise (Exception msg), w).
Proof.
  unfold write_file. destruct (fs_fault E path w) as [msg |].
  - right. exists msg. reflexivity.
  - left. reflexivity.
Qed.

Lemma write_file_up E path content w :
  files_up E ->
  write_file E path content w
  = (Ok tt,
     set_uploads w
       (filter (fun f => negb (String.eqb (fst f) path)) (uploads w)
          ++ [(path, content)])).
Proof. intros Hup. unfold write_file. rewrite Hup. reflexivity. Qed.

Lemma send_message_text E c w s :
  llm_reply E (llm_log w) c = Text s ->
  send_message E c w = (Ok s, set_llm_log w (llm_log w ++ [c])).
Proof. intros H. unfold send_message. rewrite H. reflexivity. Qed.

Lemma send_message_failure E c w msg :
  llm_reply E (llm_log w) c = Failure msg ->
  send_message E c w
  = (Raise (Exception msg), set_llm_log w (llm_log w ++ [c])).
Proof. intros H. unfold send_message. rewrite H. reflexivity. Qed.

Lemma user_known_or_not E user_id w :
  user_known E user_id w \/ user_unknown E user_id w \/
  exists msg, find_one E users "id" user_id w = (Raise (Exception msg), w).
Proof.
  unfold user_known, user_unknown.
  destruct (find_one_cases E users "id" user_id w) as [H | H].
  - rewrite H. destruct (List.find _ _) as [u |].
    + left. exists u. reflexivity.
    + right. left. reflexivity.
  - right. right. exact H.
Qed.

Lemma same_store_refl w : same_store w w.
Proof. split; reflexivity. Qed.

End CollabFacts.

(** ** The routes, case by case *)

Module RouteFacts.
Import PyDatetime PyValue Codec World Collab Pydantic Server Runs.
Import CollabFacts.

(** *** Chat *)

Lemma chat_user_unknown E req w :
  user_unknown E (ChatRequest.user_id req) w ->
  chat_with_ai E req w = (Raise (HTTPException 404 "User not found"), w).
Proof.
  intros Hu. unfold chat_with_ai, guarded, try_except, bind.
  rewrite Hu. reflexivity.
Qed.

Lemma chat_lookup_fault E req w msg :
  find_one E users "id" (ChatRequest.user_id req) w
    = (Raise (Exception msg), w) ->
  chat_with_ai E req w
  = (Raise (HTTPException 500 ("Error processing chat: " ++ msg)), w).
Proof.
  intros Hu. unfold chat_with_ai, guarded, try_except, bind.
  rewrite Hu. reflexivity.
Qed.

Lemma chat_backend_failure E req w msg :
  user_known E (ChatRequest.user_id req) w ->
  llm_reply E (llm_log w)
    (get_llm_chat (chat_session_id (ChatRequest.user_id req))
       (ChatRequest.message req)) = Failure msg ->
  chat_with_ai E req w
  = (Raise (HTTPException 500 ("Error processing chat: " ++ msg)),
     set_llm_log w
       (llm_log w ++
          [get_llm_chat (chat_session_id (ChatRequest.user_id req))
             (ChatRequest.message req)])).
Proof.
  intros [u Hu] Hr. unfold chat_with_ai, guarded, try_except, bind.
  rewrite Hu. rewrite (send_message_failure _ _ _ _ Hr). reflexivity.
Qed.

Ltac open_route :=
  unfold create_user, chat_with_ai, upload_and_analyze_file, web_search,
    guarded, guarded_all,
    User_init, ChatMessage_init, FileMetadata_init, SearchResult_init,
    str_field, str_field_or, optional_str_field, datetime_field_or,
    find_one, send_message, insert_one, mkdir, write_file, uuid4,
    datetime_now_utc, log_warning;
  cbn [dict_get String.eqb Ascii.eqb Bool.eqb UserCreate_dict opt_val
       UserCreate.first_name UserCreate.username UserCreate.phone];
  unfold try_except, bind, ret, raise.

Ltac split_faults :=
  repeat match goal with
    | |- context [match db_fault ?E ?o ?c ?w with _ => _ end] =>
        destruct (db_fault E o c w) eqn:?
    | |- context [match fs_fault ?E ?p ?w with _ => _ end] =>
        destruct (fs_fault E p w) eqn:?
    | |- context [match List.find ?f ?l with _ => _ end] =>
        destruct (List.find f l) eqn:?
    | |- context [match llm_reply ?E ?l ?c with _ => _ end] =>
        destruct (llm_reply E l c) eqn:?
    | |- context [match UploadFile.content_type ?f with _ => _ end] =>
        destruct (UploadFile.content_type f) eqn:?
    | |- context [if negb (type_allowed ?o) then _ else _] =>
        destruct (type_allowed o) eqn:?; cbn [negb]
    end.

Lemma chat_store_effect E req w :
  let call := get_llm_chat (chat_session_id (ChatRequest.user_id req))
                (ChatRequest.message req) in
  let r := fst (chat_with_ai E req w) in
  let w' := snd (chat_with_ai E req w) in
  (forall c, c <> chat_history -> coll w' c = coll w c) /\
  uploads w' = uploads w /\
  (coll w' chat_history = coll w chat_history \/
   exists s,
     let m := ChatMessage.mk (uuid4_str E (uuid_count w))
                (ChatRequest.user_id req) (ChatRequest.message req) s
                (now_utc (utc_clock E (clock_count w))) in
     llm_reply E (llm_log w) call = Text s /\
     r = Ok m /\
     coll w' chat_history
     = coll w chat_history ++ [stored (ChatMessage_dict m) (oid_count w)]).
Proof.
  intros call r w'. subst call r w'. open_route. split_faults;
    cbn [fst snd coll set_coll set_oid_count set_clock_count set_uuid_count
         set_llm_log db_users db_chat_history db_file_metadata
         db_search_results uploads llm_log];
    (split; [intros [] Hc; try reflexivity; congruence |]);
    (split; [reflexivity |]);
    try (left; reflexivity).
  right. eexists. cbv zeta. split; [reflexivity | split; reflexivity].
Qed.


Lemma chat_backend_text_up E req w s :
  store_up E ->
  user_known E (ChatRequest.user_id req) w ->
  llm_reply E (llm_log w)
    (get_llm_chat (chat_session_id (ChatRequest.user_id req))
       (ChatRequest.message req)) = Text s ->
  let m := ChatMessage.mk (uuid4_str E (uuid_count w))
             (ChatRequest.user_id req) (ChatRequest.message req) s
             (now_utc (utc_clock E (clock_count w))) in
  chat_with_ai E req w
  = (Ok m,
     mk_world (db_users w)
       (db_chat_history w ++ [stored (ChatMessage_dict m) (oid_count w)])
       (db_file_metadata w) (db_search_results w) (uploads w)
       (llm_log w ++
          [get_llm_chat (chat_session_id (ChatRequest.user_id req))
             (ChatRequest.message req)])
       (warnings w) (S (uuid_count w)) (S (clock_count w))
       (S (oid_count w))).
Proof.
  intros Hup [u Hu] Hr m. unfold chat_with_ai, guarded, try_except, bind.
  rewrite Hu. rewrite (send_message_text _ _ _ _ Hr).
  unfold ChatMessage_init, bind, str_field_or, str_field, datetime_field_or.
  cbn [dict_get String.eqb Ascii.eqb Bool.eqb].
  unfold uuid4, datetime_now_utc, ret.
  rewrite insert_one_up by exact Hup. reflexivity.
Qed.

(** *** Search *)

Lemma search_user_unknown E req w :
  user_unknown E (SearchRequest.user_id req) w ->
  web_search E req w = (Raise (HTTPException 404 "User not found"), w).
Proof.
  intros Hu. unfold web_search, guarded, try_except, bind.
  rewrite Hu. reflexivity.
Qed.

Lemma search_lookup_fault E req w msg :
  find_one E users "id" (SearchRequest.user_id req) w
    = (Raise (Exception msg), w) ->
  web_search E req w
  = (Raise (HTTPException 500 ("Error processing search: " ++ msg)), w).
Proof.
  intros Hu. unfold web_search, guarded, try_except, bind.
  rewrite Hu. reflexivity.
Qed.

Lemma search_backend_failure E req w msg :
  user_known E (SearchRequest.user_id req) w ->
  llm_reply E (llm_log w)
    (get_llm_chat (search_session_id (SearchRequest.user_id req))
       (search_prompt (SearchRequest.query req))) = Failure msg ->
  web_search E req w
  = (Raise (HTTPException 500 ("Error processing search: " ++ msg)),
     set_llm_log w
       (llm_log w ++
          [get_llm_chat (search_session_id (SearchRequest.user_id req))
             (search_prompt (SearchRequest.query req))])).
Proof.
  intros [u Hu] Hr. unfold web_search, guarded, try_except, bind.
  rewrite Hu. rewrite (send_message_failure _ _ _ _ Hr). reflexivity.
Qed.

Lemma search_backend_text_up E req w s :
  store_up E ->
  user_known E (SearchRequest.user_id req) w ->
  llm_reply E (llm_log w)
    (get_llm_chat (search_session_id (SearchRequest.user_id req))
       (search_prompt (SearchRequest.query req))) = Text s ->
  let r := SearchResult.mk (uuid4_str E (uuid_count w))
             (SearchRequest.user_id req) (SearchRequest.query req) s
             (now_utc (utc_clock E (clock_count w))) in
  web_search E req w
  = (Ok r,
     mk_world (db_users w) (db_chat_history w) (db_file_metadata w)
       (db_search_results w ++ [stored (SearchResult_dict r) (oid_count w)])
       (uploads w)
       (llm_log w ++
          [get_llm_chat (search_session_id (SearchRequest.user_id req))
             (search_prompt (SearchRequest.query req))])
       (warnings w) (S (uuid_count w)) (S (clock_count w))
       (S (oid_count w))).
Proof.
  intros Hup [u Hu] Hr r. unfold web_search, guarded, try_except, bind.
  rewrite Hu. rewrite (send_message_text _ _ _ _ Hr).
  unfold SearchResult_init, bind, str_field_or, str_field, datetime_field_or.
  cbn [dict_get String.eqb Ascii.eqb Bool.eqb].
  unfold uuid4, datetime_now_utc, ret.
  rewrite insert_one_up by exact Hup. reflexivity.
Qed.

Lemma search_store_effect E req w :
  let call := get_llm_chat (search_session_id (SearchRequest.user_id req))
                (search_prompt (SearchRequest.query req)) in
  let r := fst (web_search E req w) in
  let w' := snd (web_search E req w) in
  (forall c, c <> search_results -> coll w' c = coll w c) /\
  uploads w' = uploads w /\
  (coll w' search_results = coll w search_results \/
   exists s,
     let sr := SearchResult.mk (uuid4_str E (uuid_count w))
                 (SearchRequest.user_id req) (SearchRequest.query req) s
                 (now_utc (utc_clock E (clock_count w))) in
     llm_reply E (llm_log w) call = Text s /\
     r = Ok sr /\
     coll w' search_results
     = coll w search_results ++ [stored (SearchResult_dict sr) (oid_count w)]).
Proof.
  intros call r w'. subst call r w'. open_route. split_faults;
    cbn [fst snd coll set_coll set_oid_count set_clock_count set_uuid_count
         set_llm_log db_users db_chat_history db_file_metadata
         db_search_results uploads llm_log];
    (split; [intros [] Hc; try reflexivity; congruence |]);
    (split; [reflexivity |]);
    try (left; reflexivity).
  right. eexists. cbv zeta. split; [reflexivity | split; reflexivity].
Qed.

(** *** Upload *)

Lemma upload_user_unknown E user_id file w :
  user_unknown E user_id w ->
  upload_and_analyze_file E user_id file w
  = (Raise (HTTPException 404 "User not found"), w).
Proof.
  intros Hu. unfold upload_and_analyze_file, guarded, try_except, bind.
  rewrite Hu. reflexivity.
Qed.

Lemma upload_type_rejected E user_id file w :
  user_known E user_id w ->
  type_allowed (UploadFile.content_type file) = false ->
  upload_and_analyze_file E user_id file w
  = (Raise (HTTPException 400 "Only JPG, PNG, and PDF files are allowed"), w).
Proof.
  intros [u Hu] Ht. unfold upload_and_analyze_file, guarded, try_except, bind.
  rewrite Hu. destruct (UploadFile.content_type file) as [ft |];
    [rewrite Ht |]; reflexivity.
Qed.

(** A rejected upload leaves the world as it was, whoever sent it. *)
Lemma upload_rejected_untouched E user_id file w :
  type_allowed (UploadFile.content_type file) = false ->
  snd (upload_and_analyze_file E user_id file w) = w /\
  exists e, fst (upload_and_analyze_file E user_id file w) = Raise e.
Proof.
  intros Ht.
  destruct (user_known_or_not E user_id w) as [Hk | [Hn | [msg Hf]]].
  - rewrite (upload_type_rejected _ _ _ _ Hk Ht). split; [| eexists]; reflexivity.
  - rewrite (upload_user_unknown _ _ _ _ Hn). split; [| eexists]; reflexivity.
  - unfold upload_and_analyze_file, guarded, try_except, bind.
    rewrite Hf. split; [| eexists]; reflexivity.
Qed.

Lemma upload_accepted_up E user_id file file_type w :
  store_up E -> files_up E ->
  user_known E user_id w ->
  UploadFile.content_type file = Some file_type ->
  type_allowed (Some file_type) = true ->
  let path := upload_path (uuid4_str E (uuid_count w) ++ "_"
                             ++ UploadFile.filename file)%string in
  let call := analysis_call user_id path file_type in
  let r := llm_reply E (llm_log w) call in
  let fm := FileMetadata.mk (uuid4_str E (S (uuid_count w))) user_id
              (UploadFile.filename file)
              (described r file_type (UploadFile.filename file))
              path file_type (now_utc (utc_clock E (clock_count w))) in
  upload_and_analyze_file E user_id file w
  = (Ok fm,
     mk_world (db_users w) (db_chat_history w)
       (db_file_metadata w ++ [stored (FileMetadata_dict fm) (oid_count w)])
       (db_search_results w)
       (filter (fun f => negb (String.eqb (fst f) path)) (uploads w)
          ++ [(path, UploadFile.content file)])
       (llm_log w ++ [call]) (warned r (warnings w))
       (S (S (uuid_count w))) (S (clock_count w)) (S (oid_count w))).
Proof.
  intros Hup Hfs [u Hu] Hct Hal path call r fm.
  unfold upload_and_analyze_file, guarded, try_except, bind.
  rewrite Hu, Hct, Hal. cbn [negb].
  rewrite (mkdir_up _ _ _ Hfs). unfold uuid4.
  rewrite (write_file_up _ _ _ _ Hfs). fold path.
  unfold send_message.
  cbn [llm_log set_uploads set_uuid_count]. fold call. fold r.
  subst fm. destruct r as [s | msg]; cbn [described warned];
    unfold FileMetadata_init, bind, str_field_or, str_field,
      datetime_field_or, log_warning;
    cbn [dict_get String.eqb Ascii.eqb Bool.eqb];
    unfold uuid4, datetime_now_utc, ret;
    rewrite insert_one_up by exact Hup; reflexivity.
Qed.

Lemma upload_store_effect E user_id file w :
  let r := fst (upload_and_analyze_file E user_id file w) in
  let w' := snd (upload_and_analyze_file E user_id file w) in
  (forall c, c <> file_metadata -> coll w' c = coll w c) /\
  (coll w' file_metadata = coll w file_metadata \/
   exists file_type,
     let path := upload_path (uuid4_str E (uuid_count w) ++ "_"
                                ++ UploadFile.filename file)%string in
     let fm := FileMetadata.mk (uuid4_str E (S (uuid_count w))) user_id
                 (UploadFile.filename file)
                 (described
                    (llm_reply E (llm_log w)
                       (analysis_call user_id path file_type))
                    file_type (UploadFile.filename file))
                 path file_type (now_utc (utc_clock E (clock_count w))) in
     UploadFile.content_type file = Some file_type /\
     type_allowed (Some file_type) = true /\
     r = Ok fm /\
     coll w' file_metadata
     = coll w file_metadata ++ [stored (FileMetadata_dict fm) (oid_count w)]).
Proof.
  intros r w'. subst r w'. open_route. split_faults;
    cbn [fst snd coll set_coll set_oid_count set_clock_count set_uuid_count
         set_llm_log set_uploads set_warnings db_users db_chat_history
         db_file_metadata db_search_results uploads llm_log];
    (split; [intros [] Hc; try reflexivity; congruence |]);
    try (left; reflexivity);
    right; eexists; cbv zeta;
    (split; [reflexivity |]); (split; [assumption |]);
    match goal with
    | H : llm_reply _ _ _ = _ |- _ =>
        cbn [llm_log set_uploads set_uuid_count] in H; rewrite H
    end;
    split; reflexivity.
Qed.

(** *** Registration *)

Lemma create_user_up E user_data w :
  store_up E ->
  let u := User.mk (uuid4_str E (uuid_count w))
             (UserCreate.first_name user_data)
             (UserCreate.username user_data) (UserCreate.phone user_data)
             (uuid4_str E (S (uuid_count w)))
             (now_utc (utc_clock E (clock_count w))) in
  create_user E user_data w
  = (Ok u,
     mk_world (db_users w ++ [stored (User_dict u) (oid_count w)])
       (db_chat_history w) (db_file_metadata w) (db_search_results w)
       (uploads w) (llm_log w) (warnings w)
       (S (S (uuid_count w))) (S (clock_count w)) (S (oid_count w))).
Proof.
  intros Hup u. subst u. destruct user_data as [fn [un |] [ph |]];
    open_route; rewrite !Hup; reflexivity.
Qed.

Lemma create_user_store_effect E user_data w :
  let r := fst (create_user E user_data w) in
  let w' := snd (create_user E user_data w) in
  (forall c, c <> users -> coll w' c = coll w c) /\
  uploads w' = uploads w /\
  (forall u, r = Ok u ->
     User.id u = uuid4_str E (uuid_count w) /\
     User.chat_id u = uuid4_str E (S (uuid_count w))).
Proof.
  intros r w'. subst r w'. destruct user_data as [fn [un |] [ph |]];
    open_route; split_faults;
    cbn [fst snd coll set_coll set_oid_count set_clock_count set_uuid_count
         set_llm_log db_users db_chat_history db_file_metadata
         db_search_results uploads llm_log uuid_count];
    (split; [intros [] Hc; try reflexivity; congruence |]);
    (split; [reflexivity |]);
    intros u Hu; inversion Hu; subst; split; reflexivity.
Qed.

End RouteFacts.

(** ** Sorting and the history reads *)

Module SortFacts.
Import PyDatetime PyValue Codec World Collab Pydantic Server Runs.

Lemma bson_compare_antisym a b :
  bson_compare b a = CompOpp (bson_compare a b).
Proof.
  unfold bson_compare.
  destruct a as [[] |], b as [[] |];
    try apply PeanoNat.Nat.compare_antisym.
  apply String.compare_antisym.
Qed.

(** Of two documents, one may stand before the other. *)
Lemma before_total field dir x y :
  before field dir x y = false -> before field dir y x = true.
Proof.
  unfold before.
  rewrite (bson_compare_antisym (dict_get x field) (dict_get y field)).
  destruct dir, (bson_compare (dict_get x field) (dict_get y field));
    cbn [CompOpp]; congruence.
Qed.

Section Insertion.
Variable ord : dict -> dict -> bool.
Hypothesis ord_total : forall x y, ord x y = false -> ord y x = true.

Let R (x y : dict) : Prop := ord x y = true.

Lemma In_insert_sorted x y l :
  In y (insert_sorted ord x l) <-> y = x \/ In y l.
Proof.
  induction l as [| z t IH]; cbn [insert_sorted In].
  - intuition.
  - destruct (ord x z); cbn [In]; [intuition |].
    rewrite IH. intuition.
Qed.

Lemma length_insert_sorted x l :
  length (insert_sorted ord x l) = S (length l).
Proof.
  induction l as [| z t IH]; cbn [insert_sorted length]; [reflexivity |].
  destruct (ord x z); cbn [length]; [reflexivity | rewrite IH; reflexivity].
Qed.

Lemma HdRel_insert_sorted z x t :
  R z x -> HdRel R z t -> HdRel R z (insert_sorted ord x t).
Proof.
  intros Hzx Hd. destruct t as [| y t]; cbn [insert_sorted].
  - constructor. exact Hzx.
  - destruct (ord x y); constructor; [exact Hzx |].
    inversion Hd; assumption.
Qed.

Lemma Sorted_insert_sorted x l :
  Sorted R l -> Sorted R (insert_sorted ord x l).
Proof.
  induction l as [| z t IH]; intros Hs; cbn [insert_sorted].
  - repeat constructor.
  - destruct (ord x z) eqn:Hxz.
    + constructor; [exact Hs | constructor; exact Hxz].
    + inversion Hs as [| ? ? Ht Hd]; subst.
      constructor; [apply IH; exact Ht |].
      apply HdRel_insert_sorted; [apply ord_total; exact Hxz | exact Hd].
Qed.
End Insertion.

Lemma In_sort_docs field dir l y :
  In y (sort_docs field dir l) <-> In y l.
Proof.
  unfold sort_docs. induction l as [| x t IH]; cbn [fold_right In].
  - reflexivity.
  - rewrite In_insert_sorted, IH. intuition.
Qed.

Lemma length_sort_docs field dir l :
  length (sort_docs field dir l) = length l.
Proof.
  unfold sort_docs. induction l as [| x t IH]; cbn [fold_right length].
  - reflexivity.
  - rewrite length_insert_sorted, IH. reflexivity.
Qed.

Lemma Sorted_sort_docs field dir l :
  Sorted (fun x y => before field dir x y = true) (sort_docs field dir l).
Proof.
  unfold sort_docs. induction l as [| x t IH]; cbn [fold_right].
  - constructor.
  - apply Sorted_insert_sorted; [apply before_total | exact IH].
Qed.

Lemma Sorted_firstn {A} (R : A -> A -> Prop) n : forall l,
  Sorted R l -> Sorted R (firstn n l).
Proof.
  induction n as [| n IH]; intros l Hs; [constructor |].
  destruct l as [| x t]; [constructor |]. cbn [firstn].
  inversion Hs as [| ? ? Ht Hd]; subst.
  constructor; [apply IH; exact Ht |].
  destruct t as [| y t]; [destruct n; constructor |].
  destruct n; cbn [firstn]; constructor. inversion Hd; assumption.
Qed.

(** Sortedness carries over along a pointwise correspondence. *)
Lemma Sorted_Forall2 {A B} (R1 : A -> A -> Prop) (R2 : B -> B -> Prop)
    (Q : A -> B -> Prop) :
  (forall x y x' y', Q x x' -> Q y y' -> R1 x y -> R2 x' y') ->
  forall l l', Forall2 Q l l' -> Sorted R1 l -> Sorted R2 l'.
Proof.
  intros Hq l l' HF. induction HF as [| x x' t t' Hx Ht IH]; intros Hs.
  - constructor.
  - inversion Hs as [| ? ? Hst Hd]; subst.
    constructor; [apply IH; exact Hst |].
    destruct Ht as [| y y' ? ? Hy _]; constructor.
    inversion Hd; subst. eapply Hq; eassumption.
Qed.

Lemma mapM_Forall2 {A B} (f : A -> M B) w : forall l l',
  Forall2 (fun x y => f x w = (Ok y, w)) l l' ->
  mapM f l w = (Ok l', w).
Proof.
  intros l l' HF. induction HF as [| x y t t' Hx _ IH]; cbn [mapM].
  - reflexivity.
  - unfold bind. rewrite Hx, IH. reflexivity.
Qed.

End SortFacts.

Module HistoryFacts.
Import PyDatetime PyValue Codec World Collab Pydantic Server Runs.
Import DatetimeFacts ValueFacts CodecFacts RoundTrip SortFacts.

Lemma utc_stamp_valid d : utc_stamp d -> valid_datetime d = true.
Proof.
  intros [Hoff Hv]. unfold valid_datetime. rewrite Hv, Hoff. reflexivity.
Qed.

Lemma naive_compare_antisym a b :
  valid_naive a = true -> valid_naive b = true ->
  naive_compare b a = CompOpp (naive_compare a b).
Proof.
  intros Ha Hb.
  pose proof (isoformat_compare (now_utc b) (now_utc a) Hb Ha eq_refl) as H1.
  pose proof (isoformat_compare (now_utc a) (now_utc b) Ha Hb eq_refl) as H2.
  cbn [wall now_utc] in H1, H2. rewrite <- H1, <- H2.
  apply String.compare_antisym.
Qed.

(** Documents sorted on a stamp field stand in the order of time. *)
Lemma before_stamps field dir x y tx ty :
  dict_get x field = Some (VStr (isoformat tx)) ->
  dict_get y field = Some (VStr (isoformat ty)) ->
  utc_stamp tx -> utc_stamp ty ->
  before field dir x y = true ->
  match dir with
  | Ascending => datetime_le tx ty
  | Descending => datetime_ge tx ty
  end.
Proof.
  intros Hx Hy [Ox Vx] [Oy Vy]. unfold before. rewrite Hx, Hy.
  cbn [bson_compare].
  rewrite isoformat_compare by congruence.
  destruct dir; intros Hb.
  - split; [congruence |].
    destruct (naive_compare (wall tx) (wall ty)); congruence.
  - split; [congruence |].
    rewrite (naive_compare_antisym (wall tx) (wall ty)) by assumption.
    destruct (naive_compare (wall tx) (wall ty)); cbn [CompOpp]; congruence.
Qed.

Lemma Forall_exists_Forall2 {A B} (Q : A -> B -> Prop) l :
  Forall (fun x => exists y, Q x y) l -> exists l', Forall2 Q l l'.
Proof.
  induction 1 as [| x t [y Hy] _ [t' IH]].
  - exists []. constructor.
  - exists (y :: t'). constructor; assumption.
Qed.

Lemma Forall_firstn {A} (P : A -> Prop) n l :
  Forall P l -> Forall P (firstn n l).
Proof.
  intros H. revert n. induction H as [| x t Hx _ IH]; intros [| n];
    cbn [firstn]; constructor; auto.
Qed.

Lemma selected_Forall (P : dict -> Prop) field value sort_field dir n docs :
  Forall P docs ->
  Forall (fun d => P d /\ field_is field value d = true /\ In d docs)
    (selected field value sort_field dir n docs).
Proof.
  intros H. unfold selected. apply Forall_firstn.
  rewrite Forall_forall in *. intros d Hin.
  apply In_sort_docs in Hin. apply filter_In in Hin. destruct Hin as [Hin Hf].
  auto.
Qed.

Lemma selected_length field value sort_field dir n docs :
  length (selected field value sort_field dir n docs)
  = Nat.min n (length (filter (field_is field value) docs)).
Proof.
  unfold selected. rewrite length_firstn, length_sort_docs. reflexivity.
Qed.

Lemma selected_Sorted field value sort_field dir n docs :
  Sorted (fun x y => before sort_field dir x y = true)
    (selected field value sort_field dir n docs).
Proof. unfold selected. apply Sorted_firstn, Sorted_sort_docs. Qed.

Lemma find_sorted_up E c field value sort_field dir n w :
  store_up E ->
  find_sorted E c field value sort_field dir n w
  = (Ok (selected field value sort_field dir n (coll w c)), w).
Proof. intros Hup. unfold find_sorted. rewrite Hup. reflexivity. Qed.

(** *** Chat history *)

Lemma decode_stored_chat E w doc m :
  holds_chat doc m ->
  exists doc',
    revive "timestamp" doc w = (Ok doc', w) /\
    ChatMessage_init E doc' w = (Ok m, w).
Proof.
  intros [[oid ->] Hs]. apply utc_stamp_valid in Hs.
  destruct m as [id uid msg rsp t]. cbn [ChatMessage.timestamp] in Hs.
  eexists. split.
  - apply (revive_string "timestamp" _ (isoformat t) t w);
      [reflexivity | apply fromisoformat_isoformat; exact Hs].
  - reflexivity.
Qed.

Lemma decode_all_chat E w docs ms :
  Forall2 holds_chat docs ms ->
  exists docs',
    mapM (revive "timestamp") docs w = (Ok docs', w) /\
    mapM (ChatMessage_init E) docs' w = (Ok ms, w).
Proof.
  intros HF.
  assert (H : exists docs',
             Forall2 (fun x y => revive "timestamp" x w = (Ok y, w)) docs docs' /\
             Forall2 (fun y m => ChatMessage_init E y w = (Ok m, w)) docs' ms).
  { induction HF as [| doc m t t' Hd _ [l' [H1 H2]]].
    - exists []. split; constructor.
    - destruct (decode_stored_chat E w doc m Hd) as [doc' [Hr Hi]].
      exists (doc' :: l'). split; constructor; assumption. }
  destruct H as [docs' [H1 H2]]. exists docs'.
  split; apply mapM_Forall2; assumption.
Qed.

Lemma holds_chat_fields doc m :
  holds_chat doc m ->
  dict_get doc "timestamp" = Some (VStr (isoformat (ChatMessage.timestamp m))) /\
  dict_get doc "user_id" = Some (VStr (ChatMessage.user_id m)).
Proof. intros [[oid ->] _]. destruct m. split; reflexivity. Qed.

Lemma get_chat_history_up E user_id w :
  store_up E -> Forall chat_doc (db_chat_history w) ->
  exists ms,
    get_chat_history E user_id w = (Ok ms, w) /\
    Forall2 holds_chat
      (selected "user_id" user_id "timestamp" Ascending 100
         (db_chat_history w)) ms.
Proof.
  intros Hup Hok.
  pose proof (selected_Forall chat_doc "user_id" user_id "timestamp"
                Ascending 100 _ Hok) as Hsel.
  destruct (Forall_exists_Forall2 holds_chat _
              (Forall_impl _ (fun d H => proj1 H) Hsel)) as [ms HF].
  exists ms. split; [| exact HF].
  destruct (decode_all_chat E w _ ms HF) as [docs' [H1 H2]].
  unfold get_chat_history, guarded_all, try_except, bind.
  rewrite (find_sorted_up _ _ _ _ _ _ _ _ Hup). cbn [coll].
  rewrite H1, H2. reflexivity.
Qed.

(** *** File history *)

Lemma decode_stored_file E w doc m :
  holds_file doc m ->
  exists doc',
    revive "uploaded_at" doc w = (Ok doc', w) /\
    FileMetadata_init E doc' w = (Ok m, w).
Proof.
  intros [[oid ->] Hs]. apply utc_stamp_valid in Hs.
  destruct m as [id uid fn ds fp ft t]. cbn [FileMetadata.uploaded_at] in Hs.
  eexists. split.
  - apply (revive_string "uploaded_at" _ (isoformat t) t w);
      [reflexivity | apply fromisoformat_isoformat; exact Hs].
  - reflexivity.
Qed.

Lemma decode_all_file E w docs ms :
  Forall2 holds_file docs ms ->
  exists docs',
    mapM (revive "uploaded_at") docs w = (Ok docs', w) /\
    mapM (FileMetadata_init E) docs' w = (Ok ms, w).
Proof.
  intros HF.
  assert (H : exists docs',
             Forall2 (fun x y => revive "uploaded_at" x w = (Ok y, w)) docs docs' /\
             Forall2 (fun y m => FileMetadata_init E y w = (Ok m, w)) docs' ms).
  { induction HF as [| doc m t t' Hd _ [l' [H1 H2]]].
    - exists []. split; constructor.
    - destruct (decode_stored_file E w doc m Hd) as [doc' [Hr Hi]].
      exists (doc' :: l'). split; constructor; assumption. }
  destruct H as [docs' [H1 H2]]. exists docs'.
  split; apply mapM_Forall2; assumption.
Qed.

Lemma holds_file_fields doc m :
  holds_file doc m ->
  dict_get doc "uploaded_at" = Some (VStr (isoformat (FileMetadata.uploaded_at m))) /\
  dict_get doc "user_id" = Some (VStr (FileMetadata.user_id m)).
Proof. intros [[oid ->] _]. destruct m. split; reflexivity. Qed.

Lemma get_user_files_up E user_id w :
  store_up E -> Forall file_doc (db_file_metadata w) ->
  exists ms,
    get_user_files E user_id w = (Ok ms, w) /\
    Forall2 holds_file
      (selected "user_id" user_id "uploaded_at" Descending 50
         (db_file_metadata w)) ms.
Proof.
  intros Hup Hok.
  pose proof (selected_Forall file_doc "user_id" user_id "uploaded_at"
                Descending 50 _ Hok) as Hsel.
  destruct (Forall_exists_Forall2 holds_file _
              (Forall_impl _ (fun d H => proj1 H) Hsel)) as [ms HF].
  exists ms. split; [| exact HF].
  destruct (decode_all_file E w _ ms HF) as [docs' [H1 H2]].
  unfold get_user_files, guarded_all, try_except, bind.
  rewrite (find_sorted_up _ _ _ _ _ _ _ _ Hup). cbn [coll].
  rewrite H1, H2. reflexivity.
Qed.

(** *** Search history *)

Lemma decode_stored_search E w doc m :
  holds_search doc m ->
  exists doc',
    revive "timestamp" doc w = (Ok doc', w) /\
    SearchResult_init E doc' w = (Ok m, w).
Proof.
  intros [[oid ->] Hs]. apply utc_stamp_valid in Hs.
  destruct m as [id uid q sm t]. cbn [SearchResult.timestamp] in Hs.
  eexists. split.
  - apply (revive_string "timestamp" _ (isoformat t) t w);
      [reflexivity | apply fromisoformat_isoformat; exact Hs].
  - reflexivity.
Qed.

Lemma decode_all_search E w docs ms :
  Forall2 holds_search docs ms ->
  exists docs',
    mapM (revive "timestamp") docs w = (Ok docs', w) /\
    mapM (SearchResult_init E) docs' w = (Ok ms, w).
Proof.
  intros HF.
  assert (H : exists docs',
             Forall2 (fun x y => revive "timestamp" x w = (Ok y, w)) docs docs' /\
             Forall2 (fun y m => SearchResult_init E y w = (Ok m, w)) docs' ms).
  { induction HF as [| doc m t t' Hd _ [l' [H1 H2]]].
    - exists []. split; constructor.
    - destruct (decode_stored_search E w doc m Hd) as [doc' [Hr Hi]].
      exists (doc' :: l'). split; constructor; assumption. }
  destruct H as [docs' [H1 H2]]. exists docs'.
  split; apply mapM_Forall2; assumption.
Qed.

Lemma holds_search_fields doc m :
  holds_search doc m ->
  dict_get doc "timestamp" = Some (VStr (isoformat (SearchResult.timestamp m))) /\
  dict_get doc "user_id" = Some (VStr (SearchResult.user_id m)).
Proof. intros [[oid ->] _]. destruct m. split; reflexivity. Qed.

Lemma get_search_history_up E user_id w :
  store_up E -> Forall search_doc (db_search_results w) ->
  exists ms,
    get_search_history E user_id w = (Ok ms, w) /\
    Forall2 holds_search
      (selected "user_id" user_id "timestamp" Descending 50
         (db_search_results w)) ms.
Proof.
  intros Hup Hok.
  pose proof (selected_Forall search_doc "user_id" user_id "timestamp"
                Descending 50 _ Hok) as Hsel.
  destruct (Forall_exists_Forall2 holds_search _
              (Forall_impl _ (fun d H => proj1 H) Hsel)) as [ms HF].
  exists ms. split; [| exact HF].
  destruct (decode_all_search E w _ ms HF) as [docs' [H1 H2]].
  unfold get_search_history, guarded_all, try_except, bind.
  rewrite (find_sorted_up _ _ _ _ _ _ _ _ Hup). cbn [coll].
  rewrite H1, H2. reflexivity.
Qed.

End HistoryFacts.

(** ** Runs of the service *)

Module RunFacts.
Import PyDatetime PyValue Codec World Collab Pydantic Server Runs.
Import CollabFacts RouteFacts.

Ltac close_draw :=
  cbn [fst snd uuid_count set_coll set_oid_count set_clock_count
       set_uuid_count set_llm_log set_uploads set_warnings];
  split; [lia |]; intros rec Hrec;
  first [ discriminate Hrec
        | inversion Hrec; subst; cbn [record_id User.id ChatMessage.id
                                      FileMetadata.id SearchResult.id];
          eexists; split; [| reflexivity];
          cbn [uuid_count set_coll set_oid_count set_clock_count
               set_uuid_count set_llm_log set_uploads set_warnings]; lia ].

Lemma handle_draws E rq w :
  uuid_count w <= uuid_count (snd (handle E rq w)) /\
  forall rec, fst (handle E rq w) = Ok rec ->
    drawn_within E w (snd (handle E rq w)) (record_id rec).
Proof.
  unfold drawn_within.
  destruct rq as [[fn [un |] [ph |]] | req | user_id file | req];
    unfold handle; open_route; split_faults; close_draw.
Qed.


Lemma serve_cons E rq rest w :
  serve E (rq :: rest) w
  = match fst (handle E rq w) with
    | Ok r =>
        (r :: fst (serve E rest (snd (handle E rq w))),
         snd (serve E rest (snd (handle E rq w))))
    | Raise _ => serve E rest (snd (handle E rq w))
    end.
Proof.
  cbn [serve]. destruct (handle E rq w) as [[r | e] w1]; cbn [fst snd].
  - destruct (serve E rest w1); reflexivity.
  - reflexivity.
Qed.

(** Every record a run creates carries a token drawn during the run. *)
Lemma serve_draws E rqs : forall w,
  uuid_count w <= uuid_count (snd (serve E rqs w)) /\
  Forall (fun rec => drawn_within E w (snd (serve E rqs w)) (record_id rec))
    (fst (serve E rqs w)).
Proof.
  induction rqs as [| rq rest IH]; intros w.
  - cbn [serve fst snd]. split; [lia | constructor].
  - rewrite serve_cons.
    destruct (handle_draws E rq w) as [Hle Hid].
    destruct (IH (snd (handle E rq w))) as [Hle' Hids].
    assert (Hrest : Forall
              (fun rec => drawn_within E w
                 (snd (serve E rest (snd (handle E rq w)))) (record_id rec))
              (fst (serve E rest (snd (handle E rq w))))).
    { eapply Forall_impl; [| exact Hids].
      intros rec [k [Hk Hrec]]. exists k. split; [lia | exact Hrec]. }
    destruct (fst (handle E rq w)) as [r | e] eqn:Hr; cbn [fst snd].
    + split; [lia |]. constructor; [| exact Hrest].
      destruct (Hid r eq_refl) as [k [Hk Hrec]].
      exists k. split; [lia | exact Hrec].
    + split; [lia | exact Hrest].
Qed.

Lemma serve_ids_distinct E rqs : forall w,
  fresh_tokens E -> NoDup (map record_id (fst (serve E rqs w))).
Proof.
  induction rqs as [| rq rest IH]; intros w Hfresh.
  - constructor.
  - rewrite serve_cons.
    destruct (handle_draws E rq w) as [Hle Hid].
    destruct (fst (handle E rq w)) as [r | e] eqn:Hr; cbn [fst snd map].
    + constructor; [| apply IH; exact Hfresh].
      destruct (Hid r eq_refl) as [k [Hk Hrec]].
      destruct (serve_draws E rest (snd (handle E rq w))) as [_ Hids].
      intros Hin. apply in_map_iff in Hin. destruct Hin as [r' [Heq Hin]].
      rewrite Forall_forall in Hids.
      destruct (Hids r' Hin) as [k' [Hk' Hrec']].
      assert (k' = k) by (apply Hfresh; congruence). lia.
    + apply IH. exact Hfresh.
Qed.

(** *** What the store holds after a run *)

Lemma utc_stamp_now E n : clock_ok E -> utc_stamp (now_utc (utc_clock E n)).
Proof. intros Hc. split; [reflexivity | apply Hc]. Qed.

Lemma snd_bind_ret {A B} (m : M A) (f : A -> B) w :
  snd (bind m (fun x => ret (f x)) w) = snd (m w).
Proof. unfold bind, ret. destruct (m w) as [[a | e] w1]; reflexivity. Qed.

Lemma grown_Forall P old new :
  Forall P old -> grown P old new -> Forall P new.
Proof.
  intros Hold [-> | [doc [Hdoc ->]]]; [exact Hold |].
  apply Forall_app. split; [exact Hold | repeat constructor; exact Hdoc].
Qed.

Lemma store_ok_step w w' :
  store_ok w ->
  grown chat_doc (coll w chat_history) (coll w' chat_history) ->
  grown file_doc (coll w file_metadata) (coll w' file_metadata) ->
  grown search_doc (coll w search_results) (coll w' search_results) ->
  store_ok w'.
Proof.
  intros (Hc & Hf & Hs) Gc Gf Gs. cbn [coll] in *.
  repeat split; eapply grown_Forall; eassumption.
Qed.

Lemma handle_store_ok E rq w :
  clock_ok E -> store_ok w -> store_ok (snd (handle E rq w)).
Proof.
  intros Hc Hok.
  destruct rq as [ud | req | user_id file | req]; unfold handle;
    rewrite snd_bind_ret.
  - destruct (create_user_store_effect E ud w) as (Hother & _ & _).
    apply (store_ok_step w); [exact Hok | | |];
      left; apply Hother; discriminate.
  - destruct (chat_store_effect E req w) as (Hother & _ & Hgrow).
    apply (store_ok_step w); [exact Hok | | |];
      try (left; apply Hother; discriminate).
    destruct Hgrow as [Hsame | [s (_ & _ & Hnew)]]; [left; exact Hsame |].
    right. eexists. split; [| exact Hnew].
    eexists. split; [eexists; reflexivity | apply utc_stamp_now, Hc].
  - destruct (upload_store_effect E user_id file w) as (Hother & Hgrow).
    apply (store_ok_step w); [exact Hok | | |];
      try (left; apply Hother; discriminate).
    destruct Hgrow as [Hsame | [ft (_ & _ & _ & Hnew)]]; [left; exact Hsame |].
    right. eexists. split; [| exact Hnew].
    eexists. split; [eexists; reflexivity | apply utc_stamp_now, Hc].
  - destruct (search_store_effect E req w) as (Hother & _ & Hgrow).
    apply (store_ok_step w); [exact Hok | | |];
      try (left; apply Hother; discriminate).
    destruct Hgrow as [Hsame | [s (_ & _ & Hnew)]]; [left; exact Hsame |].
    right. eexists. split; [| exact Hnew].
    eexists. split; [eexists; reflexivity | apply utc_stamp_now, Hc].
Qed.

(** The histories of a store that only the service has written hold
    stamped records and nothing else. *)
Lemma serve_store_ok E rqs : forall w,
  clock_ok E -> store_ok w -> store_ok (snd (serve E rqs w)).
Proof.
  induction rqs as [| rq rest IH]; intros w Hc Hok; [exact Hok |].
  rewrite serve_cons.
  pose proof (handle_store_ok E rq w Hc Hok) as Hok1.
  destruct (fst (handle E rq w)); cbn [snd]; apply IH; assumption.
Qed.

Lemma store_ok_empty : store_ok empty_world.
Proof. repeat split; constructor. Qed.

End RunFacts.

(** ** Session keys and prompts *)

Module SessionFacts.
Import PyDatetime PyValue Codec World Collab Pydantic Server Runs.
Import CollabFacts RouteFacts.
Local Open Scope string_scope.

Lemma append_assoc (a b c : string) : (a ++ b) ++ c = a ++ (b ++ c).
Proof.
  induction a as [| x a IH]; cbn [append]; [| rewrite IH]; reflexivity.
Qed.

Lemma append_inj_l (u a b : string) : u ++ a = u ++ b -> a = b.
Proof.
  induction u as [| x u IH]; cbn [append]; intros H; [exact H |].
  apply IH. inversion H. reflexivity.
Qed.


Lemma Substring_here p rest : Substring p (p ++ rest).
Proof. exists EmptyString, rest. reflexivity. Qed.

Lemma Substring_app_l p x s : Substring p s -> Substring p (x ++ s).
Proof.
  intros [a [b ->]]. exists (x ++ a), b. symmetry. apply append_assoc.
Qed.

Lemma Substring_app_r p s y : Substring p s -> Substring p (s ++ y).
Proof.
  intros [a [b ->]]. exists a, (b ++ y). rewrite !append_assoc. reflexivity.
Qed.

Lemma Substring_refl p : Substring p p.
Proof.
  exists EmptyString, EmptyString. cbn [append].
  induction p as [| x p IH]; cbn [append]; [| rewrite <- IH]; reflexivity.
Qed.

(** The fallback description names the content type and the file. *)
Lemma fallback_names file_type filename :
  Substring file_type (fallback_description file_type filename) /\
  Substring filename (fallback_description file_type filename) /\
  fallback_description file_type filename <> EmptyString.
Proof.
  unfold fallback_description. repeat split.
  - apply Substring_app_l, Substring_here.
  - do 3 apply Substring_app_l. apply Substring_refl.
  - discriminate.
Qed.

(** The search prompt quotes the query and asks for the four points,
    in the voice of a search that was made. *)
Lemma search_prompt_shape query :
  Substring (dquote ++ query ++ dquote) (search_prompt query) /\
  Substring "Key information and facts" (search_prompt query) /\
  Substring "Current context and relevance" (search_prompt query) /\
  Substring "Multiple perspectives" (search_prompt query) /\
  Substring "Helpful resources" (search_prompt query) /\
  Substring "as if you've searched the web" (search_prompt query).
Proof.
  unfold search_prompt. repeat split.
  - apply Substring_app_l.
    exists EmptyString. eexists. cbn [append]. rewrite !append_assoc.
    reflexivity.
  - do 8 apply Substring_app_l. apply Substring_app_r.
    exists "1. ", EmptyString. reflexivity.
  - do 10 apply Substring_app_l. apply Substring_app_r.
    exists "2. ", EmptyString. reflexivity.
  - do 12 apply Substring_app_l. apply Substring_app_r.
    exists "3. ", " if applicable". reflexivity.
  - do 14 apply Substring_app_l. apply Substring_app_r.
    exists "4. ", " or suggestions". reflexivity.
  - do 17 apply Substring_app_l.
    exists "Format your response ",
      " and are providing a summary of the most relevant and useful information.".
    reflexivity.
Qed.

(** *** The requests the routes send *)





End SessionFacts.

(** ** What the history reads return *)

Module HistoryReads.
Import PyDatetime PyValue Codec World Collab Pydantic Server Runs.
Import DatetimeFacts ValueFacts CodecFacts RoundTrip SortFacts HistoryFacts.

Lemma Forall2_Forall_r {A B} (Q : A -> B -> Prop) (P : A -> Prop)
    (P' : B -> Prop) :
  (forall x y, Q x y -> P x -> P' y) ->
  forall l l', Forall2 Q l l' -> Forall P l -> Forall P' l'.
Proof.
  intros H l l' HF. induction HF as [| x y t t' Hq _ IH]; intros HP.
  - constructor.
  - inversion HP; subst. constructor; eauto.
Qed.

Lemma field_is_true field value doc s :
  dict_get doc field = Some (VStr s) ->
  field_is field value doc = true -> s = value.
Proof.
  intros Hg. unfold field_is. rewrite Hg. apply String.eqb_eq.
Qed.

(** *** Chat history *)

Lemma chat_history_read E user_id w :
  store_up E -> Forall chat_doc (db_chat_history w) ->
  exists ms,
    get_chat_history E user_id w = (Ok ms, w) /\
    Sorted (fun a b =>
              datetime_le (ChatMessage.timestamp a) (ChatMessage.timestamp b))
      ms /\
    length ms
      = Nat.min 100
          (length (filter (field_is "user_id" user_id) (db_chat_history w))) /\
    Forall (fun m =>
              ChatMessage.user_id m = user_id /\
              exists oid,
                In (stored (ChatMessage_dict m) oid) (db_chat_history w)) ms.
Proof.
  intros Hup Hok.
  destruct (get_chat_history_up E user_id w Hup Hok) as [ms [Hget HF]].
  exists ms. split; [exact Hget |]. split; [| split].
  - eapply (Sorted_Forall2 _ _ holds_chat); [| exact HF | apply selected_Sorted].
    intros x y a b Hx Hy Hb.
    destruct (holds_chat_fields _ _ Hx) as [Hxt _].
    destruct (holds_chat_fields _ _ Hy) as [Hyt _].
    exact (before_stamps "timestamp" Ascending x y _ _ Hxt Hyt
             (proj2 Hx) (proj2 Hy) Hb).
  - rewrite <- (Forall2_length HF). apply selected_length.
  - eapply (Forall2_Forall_r holds_chat); [| exact HF |
      exact (selected_Forall chat_doc "user_id" user_id "timestamp"
               Ascending 100 _ Hok)].
    intros doc m Hh (_ & Hf & Hin). cbv beta in *.
    destruct (holds_chat_fields _ _ Hh) as [_ Hu].
    split; [exact (field_is_true _ _ _ _ Hu Hf) |].
    destruct Hh as [[oid ->] _]. exists oid. exact Hin.
Qed.

(** *** File history *)

Lemma file_history_read E user_id w :
  store_up E -> Forall file_doc (db_file_metadata w) ->
  exists ms,
    get_user_files E user_id w = (Ok ms, w) /\
    Sorted (fun a b =>
              datetime_ge (FileMetadata.uploaded_at a) (FileMetadata.uploaded_at b))
      ms /\
    length ms
      = Nat.min 50
          (length (filter (field_is "user_id" user_id) (db_file_metadata w))) /\
    Forall (fun m =>
              FileMetadata.user_id m = user_id /\
              exists oid,
                In (stored (FileMetadata_dict m) oid) (db_file_metadata w)) ms.
Proof.
  intros Hup Hok.
  destruct (get_user_files_up E user_id w Hup Hok) as [ms [Hget HF]].
  exists ms. split; [exact Hget |]. split; [| split].
  - eapply (Sorted_Forall2 _ _ holds_file); [| exact HF | apply selected_Sorted].
    intros x y a b Hx Hy Hb.
    destruct (holds_file_fields _ _ Hx) as [Hxt _].
    destruct (holds_file_fields _ _ Hy) as [Hyt _].
    exact (before_stamps "uploaded_at" Descending x y _ _ Hxt Hyt
             (proj2 Hx) (proj2 Hy) Hb).
  - rewrite <- (Forall2_length HF). apply selected_length.
  - eapply (Forall2_Forall_r holds_file); [| exact HF |
      exact (selected_Forall file_doc "user_id" user_id "uploaded_at"
               Descending 50 _ Hok)].
    intros doc m Hh (_ & Hf & Hin). cbv beta in *.
    destruct (holds_file_fields _ _ Hh) as [_ Hu].
    split; [exact (field_is_true _ _ _ _ Hu Hf) |].
    destruct Hh as [[oid ->] _]. exists oid. exact Hin.
Qed.

(** *** Search history *)

Lemma search_history_read E user_id w :
  store_up E -> Forall search_doc (db_search_results w) ->
  exists ms,
    get_search_history E user_id w = (Ok ms, w) /\
    Sorted (fun a b =>
              datetime_ge (SearchResult.timestamp a) (SearchResult.timestamp b))
      ms /\
    length ms
      = Nat.min 50
          (length (filter (field_is "user_id" user_id) (db_search_results w))) /\
    Forall (fun m =>
              SearchResult.user_id m = user_id /\
              exists oid,
                In (stored (SearchResult_dict m) oid) (db_search_results w)) ms.
Proof.
  intros Hup Hok.
  destruct (get_search_history_up E user_id w Hup Hok) as [ms [Hget HF]].
  exists ms. split; [exact Hget |]. split; [| split].
  - eapply (Sorted_Forall2 _ _ holds_search); [| exact HF | apply selected_Sorted].
    intros x y a b Hx Hy Hb.
    destruct (holds_search_fields _ _ Hx) as [Hxt _].
    destruct (holds_search_fields _ _ Hy) as [Hyt _].
    exact (before_stamps "timestamp" Descending x y _ _ Hxt Hyt
             (proj2 Hx) (proj2 Hy) Hb).
  - rewrite <- (Forall2_length HF). apply selected_length.
  - eapply (Forall2_Forall_r holds_search); [| exact HF |
      exact (selected_Forall search_doc "user_id" user_id "timestamp"
               Descending 50 _ Hok)].
    intros doc m Hh (_ & Hf & Hin). cbv beta in *.
    destruct (holds_search_fields _ _ Hh) as [_ Hu].
    split; [exact (field_is_true _ _ _ _ Hu Hf) |].
    destruct Hh as [[oid ->] _]. exists oid. exact Hin.
Qed.

End HistoryReads.

(* ================================================================== *)
(** * Part III: the properties of the specification                    *)
(* ================================================================== *)

Import PyDatetime PyValue Codec World Collab Pydantic Server Runs.
Import DatetimeFacts ValueFacts CodecFacts RoundTrip CollabFacts RouteFacts.
Import SortFacts HistoryFacts HistoryReads RunFacts SessionFacts.

(** ** Storage codec *)

(** C10. The storage encoder is idempotent: encoding an encoded
    dictionary changes nothing.  The first pass keeps the keys, turns
    each datetime value into its ISO-8601 string and leaves every value
    that is neither a datetime nor a dictionary as it is; strings are
    among the values a later pass leaves alone. *)
Theorem prepare_for_mongo_idempotent (d : dict) :
  wf_dict d ->
  prepare_for_mongo (prepare_for_mongo (VDict d)) = prepare_for_mongo (VDict d) /\
  keys (prepare_dict d) = keys d /\
  (forall k t, dict_get d k = Some (VDatetime t) ->
     dict_get (prepare_dict d) k = Some (VStr (isoformat t))) /\
  (forall k v, dict_get d k = Some v ->
     (forall t, v <> VDatetime t) -> (forall x, v <> VDict x) ->
     dict_get (prepare_dict d) k = Some v).
Proof.
  intros Hwf. split; [apply prepare_twice; exact Hwf |].
  apply wf_dict_iff in Hwf. destruct Hwf as [Hnd _].
  rewrite (prepare_dict_items d Hnd). split; [apply keys_encode_items |].
  split.
  - intros k t Hk. rewrite dict_get_encode_items, Hk. reflexivity.
  - intros k v Hk Hdt Hdict. rewrite dict_get_encode_items, Hk.
    cbn [option_map]. f_equal.
    destruct v; try reflexivity; [elim (Hdt d0) | elim (Hdict d0)]; reflexivity.
Qed.

Lemma prepare_for_mongo_idempotent_witness :
  wf_dict Sample.nested_doc /\
  prepare_for_mongo (prepare_for_mongo (VDict Sample.nested_doc))
  = prepare_for_mongo (VDict Sample.nested_doc).
Proof.
  assert (H : wf_dict Sample.nested_doc).
  { cbn. repeat split; repeat constructor; cbn; intuition discriminate. }
  split; [exact H | exact (proj1 (prepare_for_mongo_idempotent _ H))].
Defined.

(** C1. Round trip: for a record of each of the four kinds, encoding its
    field dictionary with [prepare_for_mongo] and decoding the result as
    the reads do (the timestamp string parsed by [fromisoformat], the
    record rebuilt from the document) gives the record back, in a world
    left as it was.  The stored form is the field dictionary with the
    datetime rendered as its ISO-8601 string and nothing else changed;
    [fromisoformat] reads that string back as the datetime, so that the
    parsing step of the reads restores the field dictionary. *)
Theorem decode_encode_roundtrip (E : externals) (w : world)
    (u : User.t) (m : ChatMessage.t) (f : FileMetadata.t) (r : SearchResult.t) :
  valid_datetime (User.created_at u) = true ->
  valid_datetime (ChatMessage.timestamp m) = true ->
  valid_datetime (FileMetadata.uploaded_at f) = true ->
  valid_datetime (SearchResult.timestamp r) = true ->
  (decode_User E (prepare_dict (User_dict u)) w = (Ok u, w) /\
   decode_ChatMessage E (prepare_dict (ChatMessage_dict m)) w = (Ok m, w) /\
   decode_FileMetadata E (prepare_dict (FileMetadata_dict f)) w = (Ok f, w) /\
   decode_SearchResult E (prepare_dict (SearchResult_dict r)) w = (Ok r, w)) /\
  (prepare_for_mongo (VDict (User_dict u))
   = VDict (dict_set (User_dict u) "created_at"
              (VStr (isoformat (User.created_at u)))) /\
   prepare_for_mongo (VDict (ChatMessage_dict m))
   = VDict (dict_set (ChatMessage_dict m) "timestamp"
              (VStr (isoformat (ChatMessage.timestamp m)))) /\
   prepare_for_mongo (VDict (FileMetadata_dict f))
   = VDict (dict_set (FileMetadata_dict f) "uploaded_at"
              (VStr (isoformat (FileMetadata.uploaded_at f)))) /\
   prepare_for_mongo (VDict (SearchResult_dict r))
   = VDict (dict_set (SearchResult_dict r) "timestamp"
              (VStr (isoformat (SearchResult.timestamp r))))) /\
  (dict_get (prepare_dict (User_dict u)) "created_at"
   = Some (VStr (isoformat (User.created_at u))) /\
   dict_get (prepare_dict (ChatMessage_dict m)) "timestamp"
   = Some (VStr (isoformat (ChatMessage.timestamp m))) /\
   dict_get (prepare_dict (FileMetadata_dict f)) "uploaded_at"
   = Some (VStr (isoformat (FileMetadata.uploaded_at f))) /\
   dict_get (prepare_dict (SearchResult_dict r)) "timestamp"
   = Some (VStr (isoformat (SearchResult.timestamp r)))) /\
  (fromisoformat (isoformat (User.created_at u)) = Some (User.created_at u) /\
   fromisoformat (isoformat (ChatMessage.timestamp m))
   = Some (ChatMessage.timestamp m) /\
   fromisoformat (isoformat (FileMetadata.uploaded_at f))
   = Some (FileMetadata.uploaded_at f) /\
   fromisoformat (isoformat (SearchResult.timestamp r))
   = Some (SearchResult.timestamp r)) /\
  (revive "created_at" (prepare_dict (User_dict u)) w = (Ok (User_dict u), w) /\
   revive "timestamp" (prepare_dict (ChatMessage_dict m)) w
   = (Ok (ChatMessage_dict m), w) /\
   revive "uploaded_at" (prepare_dict (FileMetadata_dict f)) w
   = (Ok (FileMetadata_dict f), w) /\
   revive "timestamp" (prepare_dict (SearchResult_dict r)) w
   = (Ok (SearchResult_dict r), w)).
Proof.
  intros Hu Hm Hf Hr. split; [| split; [| split; [| split]]].
  - split; [| split; [| split]].
    + apply decode_encode_User, Hu.
    + apply decode_encode_ChatMessage, Hm.
    + apply decode_encode_FileMetadata, Hf.
    + apply decode_encode_SearchResult, Hr.
  - split; [| split; [| split]].
    + rewrite <- stored_form_User. destruct u as [id fn [un |] [ph |] cid t];
        reflexivity.
    + rewrite <- stored_form_ChatMessage. destruct m; reflexivity.
    + rewrite <- stored_form_FileMetadata. destruct f; reflexivity.
    + rewrite <- stored_form_SearchResult. destruct r; reflexivity.
  - split; [| split; [| split]].
    + destruct u as [id fn [un |] [ph |] cid t]; reflexivity.
    + destruct m; reflexivity.
    + destruct f; reflexivity.
    + destruct r; reflexivity.
  - split; [| split; [| split]]; apply fromisoformat_isoformat; assumption.
  - split; [| split; [| split]].
    + apply revive_stored_User, Hu.
    + apply revive_stored_ChatMessage, Hm.
    + apply revive_stored_FileMetadata, Hf.
    + apply revive_stored_SearchResult, Hr.
Qed.

Lemma decode_encode_roundtrip_witness :
  (decode_User Sample.all_up (prepare_dict (User_dict Sample.ana)) empty_world
     = (Ok Sample.ana, empty_world) /\
   decode_ChatMessage Sample.all_up
     (prepare_dict (ChatMessage_dict Sample.a_chat)) empty_world
     = (Ok Sample.a_chat, empty_world) /\
   decode_FileMetadata Sample.all_up
     (prepare_dict (FileMetadata_dict Sample.a_file)) empty_world
     = (Ok Sample.a_file, empty_world) /\
   decode_SearchResult Sample.all_up
     (prepare_dict (SearchResult_dict Sample.a_search)) empty_world
     = (Ok Sample.a_search, empty_world)) /\
  dict_get (prepare_dict (ChatMessage_dict Sample.a_chat)) "timestamp"
  = Some (VStr "1987-12-01T16:04:05.000120+05:30") /\
  fromisoformat "1987-12-01T16:04:05.000120+05:30" = Some Sample.teatime.
Proof.
  destruct (decode_encode_roundtrip Sample.all_up empty_world Sample.ana
              Sample.a_chat Sample.a_file Sample.a_search)
    as (Hdec & _ & (_ & Hstored & _) & (_ & Hparse & _) & _);
    try (vm_compute; reflexivity).
  split; [exact Hdec |]. split; [exact Hstored | exact Hparse].
Defined.

(** ** Session namespacing *)


(** ** Upload and analysis *)

(** C3. An upload by a known user with an allowed content type succeeds
    although the analysis backend raises: the failure is logged as a
    warning, the description is the fallback text naming the content
    type and the filename, and the record is built, stored and returned
    as it is when the backend answers, the description apart.  The path
    of the record and of the analysis call is the one the route
    computes, [str(upload_dir / name)]. *)
Theorem upload_analysis_fallback (E : externals) (user_id : string)
    (file : UploadFile.t) (file_type msg : string) (w : world) :
  store_up E -> files_up E ->
  user_known E user_id w ->
  UploadFile.content_type file = Some file_type ->
  type_allowed (Some file_type) = true ->
  let filename := UploadFile.filename file in
  let path := upload_path (uuid4_str E (uuid_count w) ++ "_" ++ filename) in
  let build := fun description =>
    FileMetadata.mk (uuid4_str E (S (uuid_count w))) user_id filename
      description path file_type (now_utc (utc_clock E (clock_count w))) in
  llm_reply E (llm_log w) (analysis_call user_id path file_type) = Failure msg ->
  (exists w',
     upload_and_analyze_file E user_id file w
       = (Ok (build (fallback_description file_type filename)), w') /\
     db_file_metadata w'
       = db_file_metadata w
           ++ [stored (FileMetadata_dict
                         (build (fallback_description file_type filename)))
                 (oid_count w)] /\
     warnings w' = warnings w ++ [("File analysis failed: " ++ msg)%string]) /\
  Substring file_type (fallback_description file_type filename) /\
  Substring filename (fallback_description file_type filename) /\
  (forall E' s,
     uuid4_str E' = uuid4_str E -> utc_clock E' = utc_clock E ->
     store_up E' -> files_up E' -> user_known E' user_id w ->
     llm_reply E' (llm_log w) (analysis_call user_id path file_type) = Text s ->
     exists w'',
       upload_and_analyze_file E' user_id file w = (Ok (build s), w'') /\
       db_file_metadata w''
         = db_file_metadata w
             ++ [stored (FileMetadata_dict (build s)) (oid_count w)]).
Proof.
  intros Hup Hfs Hk Hct Hal filename path build Hr.
  split; [| split; [apply fallback_names | split; [apply fallback_names |]]].
  - eexists. rewrite (upload_accepted_up E user_id file file_type w Hup Hfs Hk Hct Hal).
    fold filename path. rewrite Hr. cbn [described warned].
    split; [reflexivity | split; reflexivity].
  - intros E' s Htok Hclk Hup' Hfs' Hk' Hr'.
    eexists.
    rewrite (upload_accepted_up E' user_id file file_type w Hup' Hfs' Hk' Hct Hal).
    rewrite Htok, Hclk. fold filename path. rewrite Hr'. cbn [described warned].
    split; reflexivity.
Qed.

Lemma upload_analysis_fallback_witness :
  let file := UploadFile.mk "cat.png/" (Some "image/png") "PNG-bytes" in
  exists w',
    upload_and_analyze_file Sample.analysis_down "u" file Sample.registered
    = (Ok (FileMetadata.mk "uuuu" "u" "cat.png/"
             "Uploaded image/png file: cat.png/"
             "/app/uploads/uuu_cat.png" "image/png" (Sample.stamp 1 500000)),
       w').
Proof.
  intros file.
  destruct (upload_analysis_fallback Sample.analysis_down "u" file
              "image/png" "analysis backend unavailable" Sample.registered)
    as [[w' [H _]] _].
  - intros op c w. reflexivity.
  - intros p w. reflexivity.
  - eexists. vm_compute. reflexivity.
  - reflexivity.
  - reflexivity.
  - reflexivity.
  - exists w'. exact H.
Defined.

(** C4, as the code has it.  An upload whose content type is outside
    the allowed set leaves the world as it was: no FileMetadata is
    stored, no byte is written, no backend is called.  It fails with
    status 400 when the user is known; the user is looked up first, so
    an unknown user gets 404 whatever the content type. *)
Theorem upload_type_gate (E : externals) (user_id : string)
    (file : UploadFile.t) (w : world) :
  type_allowed (UploadFile.content_type file) = false ->
  let r := fst (upload_and_analyze_file E user_id file w) in
  let w' := snd (upload_and_analyze_file E user_id file w) in
  w' = w /\
  db_file_metadata w' = db_file_metadata w /\
  uploads w' = uploads w /\
  (exists e, r = Raise e) /\
  (user_known E user_id w ->
   r = Raise (HTTPException 400 "Only JPG, PNG, and PDF files are allowed")) /\
  (user_unknown E user_id w ->
   r = Raise (HTTPException 404 "User not found")).
Proof.
  intros Ht r w'. subst r w'.
  destruct (upload_rejected_untouched E user_id file w Ht) as [Hw He].
  rewrite Hw. repeat split; try exact He.
  - intros Hk. rewrite (upload_type_rejected _ _ _ _ Hk Ht). reflexivity.
  - intros Hn. rewrite (upload_user_unknown _ _ _ _ Hn). reflexivity.
Qed.

Lemma upload_type_gate_witness :
  type_allowed (UploadFile.content_type Sample.notes_txt) = false /\
  upload_and_analyze_file Sample.all_up "u" Sample.notes_txt Sample.registered
  = (Raise (HTTPException 400 "Only JPG, PNG, and PDF files are allowed"),
     Sample.registered).
Proof.
  assert (Ht : type_allowed (UploadFile.content_type Sample.notes_txt) = false)
    by reflexivity.
  split; [exact Ht |].
  destruct (upload_type_gate Sample.all_up "u" Sample.notes_txt
              Sample.registered Ht) as (Hw & _ & _ & _ & Hk & _).
  rewrite (surjective_pairing (upload_and_analyze_file _ _ _ _)).
  rewrite Hw, Hk; [reflexivity |].
  eexists. vm_compute. reflexivity.
Defined.

(** C4 as stated fails: a text file sent under an identifier that no
    user has is turned away with 404, not 400. *)
Lemma text_upload_of_unknown_user_gets_404 :
  type_allowed (UploadFile.content_type Sample.notes_txt) = false /\
  fst (upload_and_analyze_file Sample.all_up "nobody" Sample.notes_txt
         empty_world)
  = Raise (HTTPException 404 "User not found") /\
  fst (upload_and_analyze_file Sample.all_up "nobody" Sample.notes_txt
         empty_world)
  <> Raise (HTTPException 400 "Only JPG, PNG, and PDF files are allowed").
Proof.
  split; [reflexivity |]. split; [reflexivity |].
  vm_compute. discriminate.
Qed.

(** ** Chat *)

(** C5. The chat route wants the user to exist: for an unknown user it
    fails with 404 and leaves the world as it was.  When the
    conversational backend fails, the failure is passed on as a 500
    naming the chat, with no fallback, and the store is left as it was.
    The chat history grows only by the message built from an answer the
    backend gave; with the store up, an answer is built into a message,
    stored and returned. *)
Theorem chat_needs_user_and_answer (E : externals) (req : ChatRequest.t)
    (w : world) :
  let user_id := ChatRequest.user_id req in
  let call := get_llm_chat (chat_session_id user_id) (ChatRequest.message req) in
  let r := fst (chat_with_ai E req w) in
  let w' := snd (chat_with_ai E req w) in
  let build := fun s =>
    ChatMessage.mk (uuid4_str E (uuid_count w)) user_id
      (ChatRequest.message req) s (now_utc (utc_clock E (clock_count w))) in
  (user_unknown E user_id w ->
   r = Raise (HTTPException 404 "User not found") /\ w' = w) /\
  (forall msg,
     user_known E user_id w ->
     llm_reply E (llm_log w) call = Failure msg ->
     r = Raise (HTTPException 500 ("Error processing chat: " ++ msg)%string) /\
     same_store w w') /\
  (db_chat_history w' = db_chat_history w \/
   exists s,
     llm_reply E (llm_log w) call = Text s /\
     r = Ok (build s) /\
     db_chat_history w'
     = db_chat_history w ++ [stored (ChatMessage_dict (build s)) (oid_count w)]) /\
  (forall s,
     store_up E -> user_known E user_id w ->
     llm_reply E (llm_log w) call = Text s ->
     r = Ok (build s) /\
     db_chat_history w'
     = db_chat_history w ++ [stored (ChatMessage_dict (build s)) (oid_count w)]).
Proof.
  intros user_id call r w' build. subst user_id call r w' build.
  split; [| split; [| split]].
  - intros Hn. rewrite (chat_user_unknown _ _ _ Hn). split; reflexivity.
  - intros msg Hk Hr. rewrite (chat_backend_failure _ _ _ _ Hk Hr).
    split; [reflexivity |]. split; [intros []; reflexivity | reflexivity].
  - destruct (chat_store_effect E req w) as (_ & _ & [H | [s H]]);
      [left; exact H | right; exists s; exact H].
  - intros s Hup Hk Hr. rewrite (chat_backend_text_up _ _ _ _ Hup Hk Hr).
    split; reflexivity.
Qed.

Lemma chat_needs_user_and_answer_witness :
  chat_with_ai Sample.all_up (ChatRequest.mk "nobody" "hi") empty_world
    = (Raise (HTTPException 404 "User not found"), empty_world) /\
  fst (chat_with_ai Sample.all_down (ChatRequest.mk "u" "hi") Sample.registered)
    = Raise (HTTPException 500 "Error processing chat: backend unavailable") /\
  fst (chat_with_ai Sample.all_up (ChatRequest.mk "u" "hi") Sample.registered)
    = Ok (ChatMessage.mk "uuu" "u" "hi" "re: hi" (Sample.stamp 1 500000)).
Proof.
  split; [| split].
  - destruct (chat_needs_user_and_answer Sample.all_up
                (ChatRequest.mk "nobody" "hi") empty_world) as (H & _).
    destruct H as [Hr Hw]; [reflexivity |].
    rewrite (surjective_pairing (chat_with_ai _ _ _)), Hr, Hw. reflexivity.
  - destruct (chat_needs_user_and_answer Sample.all_down
                (ChatRequest.mk "u" "hi") Sample.registered) as (_ & H & _).
    destruct (H "backend unavailable") as [Hr _];
      [eexists; vm_compute; reflexivity | reflexivity | exact Hr].
  - destruct (chat_needs_user_and_answer Sample.all_up
                (ChatRequest.mk "u" "hi") Sample.registered) as (_ & _ & _ & H).
    destruct (H "re: hi") as [Hr _];
      [intros op c w; reflexivity | eexists; vm_compute; reflexivity
      | reflexivity | exact Hr].
Defined.

(** ** Search *)

(** C9. The search route wants the user to exist.  For a known user it
    sends the conversational backend, under the search key, the prompt
    made from the fixed template and the raw query, which asks for key
    facts, current relevance, several perspectives and resources, in
    the voice of a search that was made.  A failure of the backend is
    passed on as a 500 naming the search and nothing is stored; an
    answer is built, with the raw query, into a SearchResult that is
    stored and returned. *)
Theorem web_search_outcomes (E : externals) (req : SearchRequest.t)
    (w : world) :
  let user_id := SearchRequest.user_id req in
  let query := SearchRequest.query req in
  let call := get_llm_chat (search_session_id user_id) (search_prompt query) in
  let r := fst (web_search E req w) in
  let w' := snd (web_search E req w) in
  let build := fun s =>
    SearchResult.mk (uuid4_str E (uuid_count w)) user_id query s
      (now_utc (utc_clock E (clock_count w))) in
  (user_unknown E user_id w ->
   r = Raise (HTTPException 404 "User not found") /\ w' = w) /\
  (session_id call = (user_id ++ "_search")%string /\
   text call = search_prompt query /\
   provider call = "openai" /\
   Substring (dquote ++ query ++ dquote)%string (search_prompt query) /\
   Substring "Key information and facts" (search_prompt query) /\
   Substring "Current context and relevance" (search_prompt query) /\
   Substring "Multiple perspectives" (search_prompt query) /\
   Substring "Helpful resources" (search_prompt query) /\
   Substring "as if you've searched the web" (search_prompt query)) /\
  (forall msg,
     user_known E user_id w ->
     llm_reply E (llm_log w) call = Failure msg ->
     r = Raise (HTTPException 500 ("Error processing search: " ++ msg)%string) /\
     llm_log w' = llm_log w ++ [call] /\
     same_store w w') /\
  (db_search_results w' = db_search_results w \/
   exists s,
     llm_reply E (llm_log w) call = Text s /\
     r = Ok (build s) /\
     db_search_results w'
     = db_search_results w ++ [stored (SearchResult_dict (build s)) (oid_count w)]) /\
  (forall s,
     store_up E -> user_known E user_id w ->
     llm_reply E (llm_log w) call = Text s ->
     r = Ok (build s) /\
     llm_log w' = llm_log w ++ [call] /\
     db_search_results w'
     = db_search_results w ++ [stored (SearchResult_dict (build s)) (oid_count w)]).
Proof.
  intros user_id query call r w' build. subst user_id query call r w' build.
  split; [| split; [| split; [| split]]].
  - intros Hn. rewrite (search_user_unknown _ _ _ Hn). split; reflexivity.
  - split; [reflexivity |]. split; [reflexivity |]. split; [reflexivity |].
    apply search_prompt_shape.
  - intros msg Hk Hr. rewrite (search_backend_failure _ _ _ _ Hk Hr).
    split; [reflexivity |]. split; [reflexivity |].
    split; [intros []; reflexivity | reflexivity].
  - destruct (search_store_effect E req w) as (_ & _ & [H | [s H]]);
      [left; exact H | right; exists s; exact H].
  - intros s Hup Hk Hr. rewrite (search_backend_text_up _ _ _ _ Hup Hk Hr).
    split; [reflexivity | split; reflexivity].
Qed.

Lemma web_search_outcomes_witness :
  web_search Sample.all_up (SearchRequest.mk "nobody" "rocq") empty_world
    = (Raise (HTTPException 404 "User not found"), empty_world) /\
  fst (web_search Sample.all_down (SearchRequest.mk "u" "rocq") Sample.registered)
    = Raise (HTTPException 500 "Error processing search: backend unavailable") /\
  fst (web_search Sample.all_up (SearchRequest.mk "u" "rocq") Sample.registered)
    = Ok (SearchResult.mk "uuu" "u" "rocq"
            ("re: " ++ search_prompt "rocq")%string (Sample.stamp 1 500000)).
Proof.
  split; [| split].
  - destruct (web_search_outcomes Sample.all_up
                (SearchRequest.mk "nobody" "rocq") empty_world) as (H & _).
    destruct H as [Hr Hw]; [reflexivity |].
    rewrite (surjective_pairing (web_search _ _ _)), Hr, Hw. reflexivity.
  - destruct (web_search_outcomes Sample.all_down
                (SearchRequest.mk "u" "rocq") Sample.registered) as (_ & _ & H & _).
    destruct (H "backend unavailable") as [Hr _];
      [eexists; vm_compute; reflexivity | reflexivity | exact Hr].
  - destruct (web_search_outcomes Sample.all_up
                (SearchRequest.mk "u" "rocq") Sample.registered)
      as (_ & _ & _ & _ & H).
    destruct (H ("re: " ++ search_prompt "rocq")%string) as [Hr _];
      [intros op c w; reflexivity | eexists; vm_compute; reflexivity
      | reflexivity | exact Hr].
Defined.

(** ** Stored texts *)

(** C7 as stated fails: a backend that answers with the empty string
    has its answer stored as it is, as the description of the file and
    as the summary of the search. *)
Lemma empty_answer_is_stored :
  (exists f w',
     upload_and_analyze_file Sample.mute "u" Sample.cat_png Sample.registered
       = (Ok f, w') /\
     FileMetadata.description f = EmptyString /\
     In (stored (FileMetadata_dict f) 1) (db_file_metadata w')) /\
  (exists r w',
     web_search Sample.mute (SearchRequest.mk "u" "rocq") Sample.registered
       = (Ok r, w') /\
     SearchResult.summary r = EmptyString /\
     In (stored (SearchResult_dict r) 1) (db_search_results w')).
Proof.
  split; eexists; eexists; (split; [vm_compute; reflexivity |]);
    (split; [reflexivity | left; reflexivity]).
Qed.

(** C7, as the code has it.  The description stored with a file is the
    text the analysis backend gave, or the fallback text when it gave
    none; the summary stored with a search is the text the
    conversational backend gave.  So the fallback description is never
    empty, and a stored description or summary is empty only when the
    backend answered with the empty string. *)
Theorem stored_texts_nonempty (E : externals) (w : world) :
  (forall user_id file,
     let r := fst (upload_and_analyze_file E user_id file w) in
     let w' := snd (upload_and_analyze_file E user_id file w) in
     db_file_metadata w' = db_file_metadata w \/
     exists f,
       let answer :=
         llm_reply E (llm_log w)
           (analysis_call user_id (FileMetadata.file_path f)
              (FileMetadata.file_type f)) in
       r = Ok f /\
       db_file_metadata w'
         = db_file_metadata w ++ [stored (FileMetadata_dict f) (oid_count w)] /\
       FileMetadata.description f
         = described answer (FileMetadata.file_type f)
             (UploadFile.filename file) /\
       (answer <> Text EmptyString ->
        FileMetadata.description f <> EmptyString)) /\
  (forall file_type filename msg,
     described (Failure msg) file_type filename <> EmptyString) /\
  (forall req,
     let r := fst (web_search E req w) in
     let w' := snd (web_search E req w) in
     let answer :=
       llm_reply E (llm_log w)
         (get_llm_chat (search_session_id (SearchRequest.user_id req))
            (search_prompt (SearchRequest.query req))) in
     db_search_results w' = db_search_results w \/
     exists sr,
       r = Ok sr /\
       db_search_results w'
         = db_search_results w ++ [stored (SearchResult_dict sr) (oid_count w)] /\
       answer = Text (SearchResult.summary sr) /\
       (answer <> Text EmptyString ->
        SearchResult.summary sr <> EmptyString)).
Proof.
  split; [| split].
  - intros user_id file r w'. subst r w'.
    destruct (upload_store_effect E user_id file w)
      as (_ & [H | [ft (Hct & Hal & Hr & Hnew)]]); [left; exact H |].
    right. eexists. cbv zeta. split; [exact Hr |]. split; [exact Hnew |].
    cbn [FileMetadata.description FileMetadata.file_path FileMetadata.file_type].
    split; [reflexivity |].
    destruct (llm_reply E (llm_log w) _) as [s | msg]; cbn [described].
    + intros Hne Hs. apply Hne. rewrite Hs. reflexivity.
    + intros _. apply fallback_names.
  - intros file_type filename msg. cbn [described]. apply fallback_names.
  - intros req r w' answer. subst r w' answer.
    destruct (search_store_effect E req w) as (_ & _ & [H | [s (Hr & Hok & Hnew)]]);
      [left; exact H |].
    right. eexists. split; [exact Hok |]. split; [exact Hnew |].
    cbn [SearchResult.summary]. split; [exact Hr |].
    rewrite Hr. intros Hne Hs. apply Hne. rewrite Hs. reflexivity.
Qed.

Lemma stored_texts_nonempty_witness :
  exists f,
    fst (upload_and_analyze_file Sample.all_up "u" Sample.cat_png
           Sample.registered) = Ok f /\
    FileMetadata.description f <> EmptyString.
Proof.
  destruct (stored_texts_nonempty Sample.all_up Sample.registered) as (H & _).
  destruct (H "u" Sample.cat_png) as [Hsame | [f (Hr & Hnew & Hd & Hne)]].
  - vm_compute in Hsame. discriminate Hsame.
  - exists f. split; [exact Hr |]. apply Hne.
    unfold Sample.all_up. cbn [llm_reply provider analysis_call String.eqb
                               Ascii.eqb Bool.eqb].
    discriminate.
Defined.

(** ** Histories *)

(** C6. Over a store whose histories the service wrote, and with the
    store up, each history read returns records of the user asked for,
    all of them when they are no more than the cap and the cap's worth
    of them otherwise: the chat history sorted by timestamp, oldest
    first, at most 100; the file history by upload time and the search
    history by timestamp, newest first, at most 50 each. *)
Theorem histories_sorted_and_capped (E : externals) (user_id : string)
    (w : world) :
  store_up E -> store_ok w ->
  (exists ms,
     get_chat_history E user_id w = (Ok ms, w) /\
     Sorted (fun a b =>
               datetime_le (ChatMessage.timestamp a) (ChatMessage.timestamp b))
       ms /\
     length ms <= 100 /\
     length ms
       = Nat.min 100
           (length (filter (field_is "user_id" user_id) (db_chat_history w))) /\
     Forall (fun m =>
               ChatMessage.user_id m = user_id /\
               exists oid,
                 In (stored (ChatMessage_dict m) oid) (db_chat_history w)) ms) /\
  (exists fs,
     get_user_files E user_id w = (Ok fs, w) /\
     Sorted (fun a b =>
               datetime_ge (FileMetadata.uploaded_at a)
                 (FileMetadata.uploaded_at b)) fs /\
     length fs <= 50 /\
     length fs
       = Nat.min 50
           (length (filter (field_is "user_id" user_id) (db_file_metadata w))) /\
     Forall (fun f =>
               FileMetadata.user_id f = user_id /\
               exists oid,
                 In (stored (FileMetadata_dict f) oid) (db_file_metadata w)) fs) /\
  (exists rs,
     get_search_history E user_id w = (Ok rs, w) /\
     Sorted (fun a b =>
               datetime_ge (SearchResult.timestamp a)
                 (SearchResult.timestamp b)) rs /\
     length rs <= 50 /\
     length rs
       = Nat.min 50
           (length (filter (field_is "user_id" user_id) (db_search_results w))) /\
     Forall (fun r =>
               SearchResult.user_id r = user_id /\
               exists oid,
                 In (stored (SearchResult_dict r) oid) (db_search_results w)) rs).
Proof.
  intros Hup (Hc & Hf & Hs). split; [| split].
  - destruct (chat_history_read E user_id w Hup Hc) as [ms (H1 & H2 & H3 & H4)].
    exists ms. repeat split; try assumption. rewrite H3. apply Nat.le_min_l.
  - destruct (file_history_read E user_id w Hup Hf) as [fs (H1 & H2 & H3 & H4)].
    exists fs. repeat split; try assumption. rewrite H3. apply Nat.le_min_l.
  - destruct (search_history_read E user_id w Hup Hs) as [rs (H1 & H2 & H3 & H4)].
    exists rs. repeat split; try assumption. rewrite H3. apply Nat.le_min_l.
Qed.

Lemma histories_sorted_and_capped_witness :
  (exists ms,
     get_chat_history Sample.all_up "u" Sample.archive = (Ok ms, Sample.archive) /\
     map ChatMessage.id ms = ["m4"; "m3"; "m1"]%string) /\
  (exists fs,
     get_user_files Sample.all_up "u" Sample.archive = (Ok fs, Sample.archive) /\
     map FileMetadata.id fs = ["f2"; "f1"]%string) /\
  (exists rs,
     get_search_history Sample.all_up "u" Sample.archive = (Ok rs, Sample.archive) /\
     map SearchResult.id rs = ["s2"; "s1"]%string).
Proof.
  assert (Hup : store_up Sample.all_up) by (intros op c w; reflexivity).
  assert (Hok : store_ok Sample.archive).
  { unfold store_ok, Sample.archive; cbn [db_chat_history db_file_metadata
                                            db_search_results].
    repeat split;
      repeat (constructor;
              [eexists; split; [eexists; reflexivity | split; reflexivity] |]);
      constructor. }
  destruct (histories_sorted_and_capped Sample.all_up "u" Sample.archive Hup Hok)
    as ((ms & Hm & _) & (fs & Hf & _) & (rs & Hr & _)).
  split; [| split].
  - exists ms. split; [exact Hm |].
    vm_compute in Hm. inversion Hm. reflexivity.
  - exists fs. split; [exact Hf |].
    vm_compute in Hf. inversion Hf. reflexivity.
  - exists rs. split; [exact Hr |].
    vm_compute in Hr. inversion Hr. reflexivity.
Defined.

(** ** Identifiers *)

(** C8. With [uuid4] a source of fresh tokens, the records created by
    any sequence of requests carry pairwise distinct identifiers, two
    records created one after the other in particular; and a user is
    created with two tokens drawn one after the other, the first as
    identifier and the second as context identifier, which therefore
    differ. *)
Theorem identifiers_are_fresh (E : externals) :
  fresh_tokens E ->
  (forall rqs w, NoDup (map record_id (fst (serve E rqs w)))) /\
  (forall rq1 rq2 w r1 w1 r2 w2,
     handle E rq1 w = (Ok r1, w1) -> handle E rq2 w1 = (Ok r2, w2) ->
     record_id r1 <> record_id r2) /\
  (forall user_data w u w',
     create_user E user_data w = (Ok u, w') ->
     User.id u = uuid4_str E (uuid_count w) /\
     User.chat_id u = uuid4_str E (S (uuid_count w)) /\
     User.id u <> User.chat_id u) /\
  (forall user_data w,
     store_up E -> exists u w', create_user E user_data w = (Ok u, w')).
Proof.
  intros Hfresh. split; [| split; [| split]].
  - intros rqs w. apply serve_ids_distinct. exact Hfresh.
  - intros rq1 rq2 w r1 w1 r2 w2 H1 H2.
    destruct (handle_draws E rq1 w) as [_ Hd1].
    destruct (handle_draws E rq2 w1) as [_ Hd2].
    rewrite H1 in Hd1. rewrite H2 in Hd2. cbn [fst snd] in Hd1, Hd2.
    destruct (Hd1 r1 eq_refl) as [k1 [Hk1 E1]].
    destruct (Hd2 r2 eq_refl) as [k2 [Hk2 E2]].
    intros Heq. assert (k1 = k2) by (apply Hfresh; congruence). lia.
  - intros user_data w u w' Hc.
    destruct (create_user_store_effect E user_data w) as (_ & _ & Hids).
    rewrite Hc in Hids. cbn [fst] in Hids.
    destruct (Hids u eq_refl) as [Hid Hcid].
    split; [exact Hid |]. split; [exact Hcid |].
    rewrite Hid, Hcid. intros Heq. apply Hfresh in Heq. lia.
  - intros user_data w Hup. eexists. eexists.
    apply (create_user_up E user_data w Hup).
Qed.

Lemma identifiers_are_fresh_witness :
  fresh_tokens Sample.all_up /\
  NoDup (map record_id (fst (serve Sample.all_up Sample.session empty_world))) /\
  length (fst (serve Sample.all_up Sample.session empty_world)) = 9.
Proof.
  assert (Hfresh : fresh_tokens Sample.all_up).
  { unfold fresh_tokens, Sample.all_up; cbn [uuid4_str].
    intros i. induction i as [| i IH]; intros [| j] H; cbn [Sample.tally] in H.
    - reflexivity.
    - destruct j; discriminate H.
    - destruct i; discriminate H.
    - f_equal. apply IH. inversion H. reflexivity. }
  split; [exact Hfresh |]. split.
  - exact (proj1 (identifiers_are_fresh Sample.all_up Hfresh)
             Sample.session empty_world).
  - vm_compute. reflexivity.
Defined.

(* ================================================================== *)
(** * Part IV: further lemmas                                          *)
(* ================================================================== *)

(** ** Users, from registration on *)

Module UserFacts.
Import PyDatetime PyValue Codec World Collab Pydantic Server Runs Lifecycle.
Import DatetimeFacts ValueFacts CodecFacts RoundTrip CollabFacts RouteFacts.
Import SortFacts HistoryFacts RunFacts.

Lemma holds_user_id doc u :
  holds_user doc u -> dict_get doc "id" = Some (VStr (User.id u)).
Proof.
  intros [[oid ->] _]. destruct u as [id fn [un |] [ph |] cid t]; reflexivity.
Qed.

Lemma decode_stored_user E w doc u :
  holds_user doc u -> decode_User E doc w = (Ok u, w).
Proof.
  intros [[oid ->] Hs]. apply utc_stamp_valid in Hs.
  destruct u as [id fn un ph cid t]. cbn [User.created_at] in Hs.
  unfold decode_User, bind.
  destruct un, ph;
    (rewrite (revive_string "created_at" _ (isoformat t) t w);
     [| reflexivity | apply fromisoformat_isoformat; exact Hs]);
    reflexivity.
Qed.

(** What a registration does to the users and to the tokens. *)
Lemma create_user_users_effect E user_data w :
  let r := fst (create_user E user_data w) in
  let w' := snd (create_user E user_data w) in
  uuid_count w <= uuid_count w' /\
  (db_users w' = db_users w \/
   exists u,
     r = Ok u /\
     User.id u = uuid4_str E (uuid_count w) /\
     User.created_at u = now_utc (utc_clock E (clock_count w)) /\
     uuid_count w < uuid_count w' /\
     db_users w' = db_users w ++ [stored (User_dict u) (oid_count w)]).
Proof.
  intros r w'. subst r w'. destruct user_data as [fn [un |] [ph |]];
    open_route; split_faults;
    cbn [fst snd coll set_coll set_oid_count set_clock_count set_uuid_count
         db_users uuid_count oid_count clock_count];
    (split; [lia |]);
    first [ left; reflexivity
          | right; eexists; split; [reflexivity |];
            cbn [User.id User.created_at];
            split; [reflexivity |]; split; [reflexivity |];
            split; [lia | reflexivity] ].
Qed.

Lemma users_ok_weaken E (l : list dict) n n' :
  n <= n' ->
  Forall (fun doc => exists u k,
            holds_user doc u /\ User.id u = uuid4_str E k /\ k < n) l ->
  Forall (fun doc => exists u k,
            holds_user doc u /\ User.id u = uuid4_str E k /\ k < n') l.
Proof.
  intros Hle. apply Forall_impl. intros doc (u & k & Hh & Hid & Hk).
  exists u, k. split; [exact Hh | split; [exact Hid | lia]].
Qed.

Lemma handle_users_ok E rq w :
  clock_ok E -> users_ok E w -> users_ok E (snd (handle E rq w)).
Proof.
  intros Hc Hok. unfold users_ok in *.
  destruct (handle_draws E rq w) as [Hle _]. revert Hle.
  destruct rq as [ud | req | user_id file | req]; unfold handle;
    rewrite snd_bind_ret; intros Hle.
  - destruct (create_user_users_effect E ud w)
      as (_ & [Hsame | (u & _ & Hid & Hat & Hlt & Hnew)]).
    + rewrite Hsame. exact (users_ok_weaken E _ _ _ Hle Hok).
    + rewrite Hnew. apply Forall_app. split.
      * exact (users_ok_weaken E _ _ _ Hle Hok).
      * constructor; [| constructor]. exists u, (uuid_count w).
        split; [| split; [exact Hid | exact Hlt]].
        split; [eexists; reflexivity |]. rewrite Hat. apply utc_stamp_now, Hc.
  - destruct (chat_store_effect E req w) as (Hother & _).
    specialize (Hother users). cbn [coll] in Hother.
    rewrite Hother by discriminate. exact (users_ok_weaken E _ _ _ Hle Hok).
  - destruct (upload_store_effect E user_id file w) as (Hother & _).
    specialize (Hother users). cbn [coll] in Hother.
    rewrite Hother by discriminate. exact (users_ok_weaken E _ _ _ Hle Hok).
  - destruct (search_store_effect E req w) as (Hother & _).
    specialize (Hother users). cbn [coll] in Hother.
    rewrite Hother by discriminate. exact (users_ok_weaken E _ _ _ Hle Hok).
Qed.

Lemma serve_users_ok E rqs : forall w,
  clock_ok E -> users_ok E w -> users_ok E (snd (serve E rqs w)).
Proof.
  induction rqs as [| rq rest IH]; intros w Hc Hok; [exact Hok |].
  rewrite serve_cons.
  pose proof (handle_users_ok E rq w Hc Hok) as Hok1.
  destruct (fst (handle E rq w)); cbn [snd]; apply IH; assumption.
Qed.

(** No request takes a user document away or rewrites one. *)
Lemma handle_keeps_users E rq w :
  exists more, db_users (snd (handle E rq w)) = db_users w ++ more.
Proof.
  destruct rq as [ud | req | user_id file | req]; unfold handle;
    rewrite snd_bind_ret.
  - destruct (create_user_users_effect E ud w)
      as (_ & [Hsame | (u & _ & _ & _ & _ & Hnew)]).
    + exists []. rewrite app_nil_r. exact Hsame.
    + eexists. exact Hnew.
  - destruct (chat_store_effect E req w) as (Hother & _).
    exists []. rewrite app_nil_r. apply (Hother users). discriminate.
  - destruct (upload_store_effect E user_id file w) as (Hother & _).
    exists []. rewrite app_nil_r. apply (Hother users). discriminate.
  - destruct (search_store_effect E req w) as (Hother & _).
    exists []. rewrite app_nil_r. apply (Hother users). discriminate.
Qed.

Lemma serve_keeps_users E rqs : forall w,
  exists more, db_users (snd (serve E rqs w)) = db_users w ++ more.
Proof.
  induction rqs as [| rq rest IH]; intros w.
  - exists []. rewrite app_nil_r. reflexivity.
  - rewrite serve_cons.
    destruct (handle_keeps_users E rq w) as [m1 H1].
    destruct (IH (snd (handle E rq w))) as [m2 H2].
    exists (m1 ++ m2). rewrite app_assoc, <- H1.
    destruct (fst (handle E rq w)); cbn [snd]; exact H2.
Qed.

Lemma find_app_none {A} (f : A -> bool) l1 l2 :
  Forall (fun x => f x = false) l1 -> List.find f (l1 ++ l2) = List.find f l2.
Proof.
  induction 1 as [| x t Hx _ IH]; cbn [app List.find]; [reflexivity |].
  rewrite Hx. exact IH.
Qed.

(** With fresh tokens, no stored user carries the next token. *)
Lemma next_token_unused E w :
  fresh_tokens E -> users_ok E w ->
  forall n, uuid_count w <= n ->
  Forall (fun doc => field_is "id" (uuid4_str E n) doc = false) (db_users w).
Proof.
  intros Hfresh Hok n Hn. eapply Forall_impl; [| exact Hok].
  intros doc (u & k & Hh & Hid & Hk). unfold field_is.
  rewrite (holds_user_id _ _ Hh), Hid.
  apply String.eqb_neq. intros Heq. apply Hfresh in Heq. lia.
Qed.

Lemma get_user_found E user_id w doc u :
  store_up E ->
  List.find (field_is "id" user_id) (db_users w) = Some doc ->
  holds_user doc u ->
  get_user E user_id w = (Ok u, w).
Proof.
  intros Hup Hfind Hh. unfold get_user, guarded, try_except, bind, find_one.
  rewrite Hup. cbn [coll]. rewrite Hfind.
  rewrite (decode_stored_user E w doc u Hh). reflexivity.
Qed.

End UserFacts.

(** ** The sample collaborators *)

Module SampleFacts.
Import PyDatetime PyValue Codec World Collab Pydantic Server Runs Lifecycle.
Import DatetimeFacts.

Lemma tally_fresh : forall i j, Sample.tally i = Sample.tally j -> i = j.
Proof.
  intros i. induction i as [| i IH]; intros [| j] H; cbn [Sample.tally] in H.
  - reflexivity.
  - destruct j; discriminate H.
  - destruct i; discriminate H.
  - f_equal. apply IH. inversion H. reflexivity.
Qed.

Lemma tick_valid n : valid_naive (Sample.tick n) = true.
Proof.
  unfold valid_naive, Sample.tick.
  cbn [year month day hour minute second microsecond].
  assert (H60 : (N.of_nat n mod 60 <? 60)%N = true)
    by (apply N.ltb_lt, N.mod_lt; discriminate).
  assert (H2 : (N.of_nat n mod 2 * 500000 <? 1000000)%N = true).
  { apply N.ltb_lt. pose proof (N.mod_lt (N.of_nat n) 2). lia. }
  rewrite H60, H2. reflexivity.
Qed.

Lemma all_up_ready :
  fresh_tokens Sample.all_up /\ store_up Sample.all_up /\
  files_up Sample.all_up /\ clock_ok Sample.all_up.
Proof.
  split; [exact tally_fresh |]. split; [intros op c w; reflexivity |].
  split; [intros p w; reflexivity | exact tick_valid].
Qed.

Lemma tally_plain n : slashless (Sample.tally n) = true.
Proof.
  induction n as [| n IH]; cbn [Sample.tally slashless]; [reflexivity |].
  rewrite IH. reflexivity.
Qed.

End SampleFacts.

(** ** Reading a stored document *)

Module ReadFacts.
Import PyDatetime PyValue Codec World Collab Pydantic Server Runs Lifecycle.
Import DatetimeFacts ValueFacts CodecFacts RoundTrip CollabFacts RouteFacts.
Import SortFacts HistoryFacts RunFacts UserFacts.

Lemma dict_get_dict_set_other d k v k' :
  k <> k' -> dict_get (dict_set d k v) k' = dict_get d k'.
Proof.
  intros Hne. induction d as [| [k0 v0] t IH]; cbn [dict_set dict_get].
  - destruct (String.eqb_spec k k'); [contradiction | reflexivity].
  - destruct (String.eqb_spec k0 k) as [-> | Hk]; cbn [dict_get].
    + destruct (String.eqb_spec k k'); [contradiction | reflexivity].
    + destruct (String.eqb k0 k'); [reflexivity | exact IH].
Qed.

(** What [revive] does to the other keys: nothing. *)
Lemma revive_cases k d w :
  (exists d', revive k d w = (Ok d', w) /\
              forall k', k <> k' -> dict_get d' k' = dict_get d k') \/
  (exists s, dict_get d k = Some (VStr s) /\
             revive k d w
             = (Raise (Exception ("Invalid isoformat string: '" ++ s ++ "'")), w)).
Proof.
  unfold revive. destruct (dict_get d k) as [[] |] eqn:Hg;
    try (left; eexists; split; [reflexivity | reflexivity]).
  destruct (fromisoformat s) as [t |].
  - left. eexists. split; [reflexivity |].
    intros k' Hne. apply dict_get_dict_set_other. exact Hne.
  - right. exists s. split; reflexivity.
Qed.

Lemma find_one_found E c field value w doc :
  find_one E c field value w = (Ok (Some doc), w) ->
  In doc (coll w c) /\ exists s, dict_get doc field = Some (VStr s) /\ s = value.
Proof.
  unfold find_one. destruct (db_fault E FindOne c w); [discriminate |].
  intros H. inversion H as [Hf]. apply List.find_some in Hf.
  destruct Hf as [Hin Hm]. split; [exact Hin |].
  unfold field_is in Hm. destruct (dict_get doc field) as [[] |]; try discriminate.
  eexists. split; [reflexivity | apply String.eqb_eq; exact Hm].
Qed.

End ReadFacts.

(** ** Collections only grow *)

Module AppendFacts.
Import PyDatetime PyValue Codec World Collab Pydantic Server Runs Lifecycle.
Import DatetimeFacts ValueFacts CodecFacts RoundTrip CollabFacts RouteFacts.
Import SortFacts HistoryFacts RunFacts UserFacts.

Lemma appended_refl l : appended l l.
Proof. exists []. rewrite app_nil_r. split; [reflexivity | apply le_0_n]. Qed.

Lemma appended_one l doc : appended l (l ++ [doc]).
Proof. exists [doc]. split; [reflexivity | apply le_n]. Qed.

Lemma appended_eq l l' : l' = l -> appended l l'.
Proof. intros ->. apply appended_refl. Qed.

(** One request adds at most one document to a collection and changes
    none that is there. *)
Lemma handle_appends E rq w c :
  appended (coll w c) (coll (snd (handle E rq w)) c).
Proof.
  destruct rq as [ud | req | user_id file | req]; unfold handle;
    rewrite snd_bind_ret.
  - destruct (create_user_store_effect E ud w) as (Hother & _).
    destruct c; try (apply appended_eq, Hother; discriminate).
    destruct (create_user_users_effect E ud w)
      as (_ & [Hsame | (u & _ & _ & _ & _ & Hnew)]); cbn [coll].
    + apply appended_eq, Hsame.
    + rewrite Hnew. apply appended_one.
  - destruct (chat_store_effect E req w) as (Hother & _ & Hgrow).
    destruct c; try (apply appended_eq, Hother; discriminate).
    destruct Hgrow as [Hsame | [s (_ & _ & Hnew)]].
    + apply appended_eq, Hsame.
    + rewrite Hnew. apply appended_one.
  - destruct (upload_store_effect E user_id file w) as (Hother & Hgrow).
    destruct c; try (apply appended_eq, Hother; discriminate).
    destruct Hgrow as [Hsame | [ft (_ & _ & _ & Hnew)]].
    + apply appended_eq, Hsame.
    + rewrite Hnew. apply appended_one.
  - destruct (search_store_effect E req w) as (Hother & _ & Hgrow).
    destruct c; try (apply appended_eq, Hother; discriminate).
    destruct Hgrow as [Hsame | [s (_ & _ & Hnew)]].
    + apply appended_eq, Hsame.
    + rewrite Hnew. apply appended_one.
Qed.

End AppendFacts.

(** ** One user at a time *)

Module PerUserFacts.
Import PyDatetime PyValue Codec World Collab Pydantic Server Runs Lifecycle.
Import DatetimeFacts ValueFacts CodecFacts RoundTrip CollabFacts RouteFacts.
Import SortFacts HistoryFacts RunFacts UserFacts.

Lemma chat_read_from E user_id w ms :
  store_up E ->
  Forall2 holds_chat
    (selected "user_id" user_id "timestamp" Ascending 100 (db_chat_history w))
    ms ->
  get_chat_history E user_id w = (Ok ms, w).
Proof.
  intros Hup HF. destruct (decode_all_chat E w _ ms HF) as [docs' [H1 H2]].
  unfold get_chat_history, guarded_all, try_except, bind.
  rewrite (find_sorted_up _ _ _ _ _ _ _ _ Hup). cbn [coll].
  rewrite H1, H2. reflexivity.
Qed.

Lemma file_read_from E user_id w fs :
  store_up E ->
  Forall2 holds_file
    (selected "user_id" user_id "uploaded_at" Descending 50 (db_file_metadata w))
    fs ->
  get_user_files E user_id w = (Ok fs, w).
Proof.
  intros Hup HF. destruct (decode_all_file E w _ fs HF) as [docs' [H1 H2]].
  unfold get_user_files, guarded_all, try_except, bind.
  rewrite (find_sorted_up _ _ _ _ _ _ _ _ Hup). cbn [coll].
  rewrite H1, H2. reflexivity.
Qed.

Lemma search_read_from E user_id w rs :
  store_up E ->
  Forall2 holds_search
    (selected "user_id" user_id "timestamp" Descending 50 (db_search_results w))
    rs ->
  get_search_history E user_id w = (Ok rs, w).
Proof.
  intros Hup HF. destruct (decode_all_search E w _ rs HF) as [docs' [H1 H2]].
  unfold get_search_history, guarded_all, try_except, bind.
  rewrite (find_sorted_up _ _ _ _ _ _ _ _ Hup). cbn [coll].
  rewrite H1, H2. reflexivity.
Qed.

Lemma selected_skips field value sort_field dir n docs doc :
  field_is field value doc = false ->
  selected field value sort_field dir n (docs ++ [doc])
  = selected field value sort_field dir n docs.
Proof.
  intros Hf. unfold selected. rewrite filter_app. cbn [filter].
  rewrite Hf, app_nil_r. reflexivity.
Qed.

Lemma field_is_other field value doc s :
  dict_get doc field = Some (VStr s) -> s <> value ->
  field_is field value doc = false.
Proof.
  intros Hg Hne. unfold field_is. rewrite Hg. apply String.eqb_neq. exact Hne.
Qed.

(** What one request leaves of the documents stored for another user:
    all of them, and no new one. *)
Lemma handle_keeps_selection E rq other w c sort_field dir n :
  request_user rq <> Some other ->
  selected "user_id" other sort_field dir n (coll (snd (handle E rq w)) c)
  = selected "user_id" other sort_field dir n (coll w c).
Proof.
  intros Hne.
  destruct rq as [ud | req | user_id file | req]; unfold handle;
    rewrite snd_bind_ret; cbn [request_user] in Hne.
  - destruct (create_user_store_effect E ud w) as (Hother & _).
    destruct c; try (rewrite Hother by discriminate; reflexivity).
    destruct (create_user_users_effect E ud w)
      as (_ & [Hsame | (u & _ & _ & _ & _ & Hnew)]); cbn [coll].
    + rewrite Hsame. reflexivity.
    + rewrite Hnew. apply selected_skips.
      destruct u as [id fn [un |] [ph |] cid t]; reflexivity.
  - destruct (chat_store_effect E req w) as (Hother & _ & Hgrow).
    destruct c; try (rewrite Hother by discriminate; reflexivity).
    destruct Hgrow as [Hsame | [s (_ & _ & Hnew)]].
    + rewrite Hsame. reflexivity.
    + rewrite Hnew. apply selected_skips.
      eapply field_is_other;
        [reflexivity | intros Heq; apply Hne; f_equal; exact Heq].
  - destruct (upload_store_effect E user_id file w) as (Hother & Hgrow).
    destruct c; try (rewrite Hother by discriminate; reflexivity).
    destruct Hgrow as [Hsame | [ft (_ & _ & _ & Hnew)]].
    + rewrite Hsame. reflexivity.
    + rewrite Hnew. apply selected_skips.
      eapply field_is_other;
        [reflexivity | intros Heq; apply Hne; f_equal; exact Heq].
  - destruct (search_store_effect E req w) as (Hother & _ & Hgrow).
    destruct c; try (rewrite Hother by discriminate; reflexivity).
    destruct Hgrow as [Hsame | [s (_ & _ & Hnew)]].
    + rewrite Hsame. reflexivity.
    + rewrite Hnew. apply selected_skips.
      eapply field_is_other;
        [reflexivity | intros Heq; apply Hne; f_equal; exact Heq].
Qed.

End PerUserFacts.

(** ** A stored document holds one record *)

Module CapFacts.
Import PyDatetime PyValue Codec World Collab Pydantic Server Runs Lifecycle.
Import DatetimeFacts ValueFacts CodecFacts RoundTrip CollabFacts RouteFacts.
Import SortFacts HistoryFacts RunFacts UserFacts PerUserFacts.

Lemma holds_chat_all_fields doc m :
  holds_chat doc m ->
  dict_get doc "id" = Some (VStr (ChatMessage.id m)) /\
  dict_get doc "user_id" = Some (VStr (ChatMessage.user_id m)) /\
  dict_get doc "message" = Some (VStr (ChatMessage.message m)) /\
  dict_get doc "response" = Some (VStr (ChatMessage.response m)) /\
  dict_get doc "timestamp"
    = Some (VStr (isoformat (ChatMessage.timestamp m))).
Proof. intros [[oid ->] _]. destruct m. repeat split; reflexivity. Qed.

Lemma isoformat_inj a b :
  valid_datetime a = true -> valid_datetime b = true ->
  isoformat a = isoformat b -> a = b.
Proof.
  intros Ha Hb Heq. apply fromisoformat_isoformat in Ha, Hb.
  rewrite Heq in Ha. congruence.
Qed.

(** A stored document holds one record only. *)
Lemma holds_chat_inj doc m m' :
  holds_chat doc m -> holds_chat doc m' -> m = m'.
Proof.
  intros H H'.
  destruct (holds_chat_all_fields _ _ H) as (H1 & H2 & H3 & H4 & H5).
  destruct (holds_chat_all_fields _ _ H') as (H1' & H2' & H3' & H4' & H5').
  destruct H as [_ Hs], H' as [_ Hs']. apply utc_stamp_valid in Hs, Hs'.
  destruct m as [i u ms r t], m' as [i' u' ms' r' t'].
  cbn [ChatMessage.id ChatMessage.user_id ChatMessage.message
       ChatMessage.response ChatMessage.timestamp] in *.
  assert (t = t') by (apply isoformat_inj; congruence).
  congruence.
Qed.

Lemma Forall2_In_l {A B} (Q : A -> B -> Prop) l l' x :
  Forall2 Q l l' -> In x l -> exists y, In y l' /\ Q x y.
Proof.
  induction 1 as [| a b t t' Hq _ IH]; intros Hin; [destruct Hin |].
  destruct Hin as [-> | Hin].
  - exists b. split; [left; reflexivity | exact Hq].
  - destruct (IH Hin) as [y [Hy Hqy]]. exists y. split; [right |]; assumption.
Qed.

End CapFacts.

(** ** The page a read selects *)

Module PageFacts.
Import PyDatetime PyValue Codec World Collab Pydantic Server Runs Lifecycle.
Import DatetimeFacts ValueFacts CodecFacts RoundTrip CollabFacts RouteFacts.
Import SortFacts HistoryFacts RunFacts.

Lemma compare_lt_trans a b c :
  String.compare a b = Lt -> String.compare b c = Lt ->
  String.compare a c = Lt.
Proof.
  intros Hab Hbc.
  apply OrderedTypeEx.String_as_OT.cmp_lt.
  apply OrderedTypeEx.String_as_OT.lt_trans with b;
    apply OrderedTypeEx.String_as_OT.cmp_lt; assumption.
Qed.

Lemma compare_le_lt_trans a b c :
  String.compare a b <> Gt -> String.compare b c = Lt ->
  String.compare a c = Lt.
Proof.
  intros Hab Hbc. destruct (String.compare a b) eqn:H.
  - apply String.compare_eq_iff in H. subst. exact Hbc.
  - exact (compare_lt_trans _ _ _ H Hbc).
  - elim Hab. reflexivity.
Qed.

Lemma compare_gt_lt a b :
  String.compare a b = Gt <-> String.compare b a = Lt.
Proof.
  rewrite (String.compare_antisym a b).
  destruct (String.compare b a); cbn [CompOpp]; split; congruence.
Qed.

(** The first page of a sorted list, when the documents that satisfy
    [P] come first. *)
Section Page.
Variable R : dict -> dict -> Prop.
Variable P : dict -> bool.
Variable Q : dict -> Prop.
Hypothesis closed :
  forall x y, Q x -> Q y -> R x y -> P x = false -> P y = false.

Lemma sorted_tail_out l : forall a,
  Sorted R (a :: l) -> Forall Q (a :: l) -> P a = false ->
  filter P (a :: l) = [].
Proof.
  induction l as [| b t IH]; intros a Hs Hq Ha; cbn [filter]; rewrite Ha.
  - reflexivity.
  - inversion Hs as [| ? ? Hst Hd]; subst. inversion Hd as [| ? ? Hab]; subst.
    inversion Hq as [| ? ? Hqa Hqt]; subst.
    inversion Hqt as [| ? ? Hqb _]; subst.
    apply (IH b Hst Hqt). exact (closed a b Hqa Hqb Hab Ha).
Qed.

Lemma firstn_within l : forall n,
  Sorted R l -> Forall Q l -> n <= length (filter P l) ->
  Forall (fun x => P x = true) (firstn n l).
Proof.
  induction l as [| a t IH]; intros n Hs Hq Hn.
  - rewrite firstn_nil. constructor.
  - destruct n as [| n]; [constructor |]. cbn [firstn].
    destruct (P a) eqn:Ha.
    + constructor; [exact Ha |].
      inversion Hs; subst. inversion Hq; subst.
      apply IH; [assumption | assumption |].
      cbn [filter] in Hn. rewrite Ha in Hn. cbn [length] in Hn. lia.
    + rewrite (sorted_tail_out t a Hs Hq Ha) in Hn. cbn [length] in Hn. lia.
Qed.
End Page.

Lemma filter_insert_sorted ord (P : dict -> bool) x l :
  length (filter P (insert_sorted ord x l)) = length (filter P (x :: l)).
Proof.
  induction l as [| y t IH]; cbn [insert_sorted]; [reflexivity |].
  destruct (ord x y); [reflexivity |].
  cbn [filter] in *. destruct (P y), (P x); cbn [length] in *; lia.
Qed.

Lemma filter_sort_docs field dir (P : dict -> bool) l :
  length (filter P (sort_docs field dir l)) = length (filter P l).
Proof.
  unfold sort_docs. induction l as [| x t IH]; cbn [fold_right];
    [reflexivity |].
  rewrite filter_insert_sorted. cbn [filter].
  destruct (P x); cbn [length]; rewrite IH; reflexivity.
Qed.

Lemma filter_filter (P1 P2 : dict -> bool) l :
  filter P2 (filter P1 l) = filter (fun x => P1 x && P2 x) l.
Proof.
  induction l as [| x t IH]; cbn [filter]; [reflexivity |].
  destruct (P1 x); cbn [filter andb]; [destruct (P2 x) |]; rewrite IH;
    reflexivity.
Qed.

Lemma before_closed_up field t x y :
  has_stamp field x -> has_stamp field y ->
  before field Ascending x y = true ->
  stamped_before field t x = false -> stamped_before field t y = false.
Proof.
  intros [sx Hx] [sy Hy]. unfold before, stamped_before, bson_compare.
  rewrite Hx, Hy. intros Hb Hpx.
  destruct (String.compare sy (isoformat t)) eqn:Hyt; try reflexivity.
  rewrite (compare_le_lt_trans sx sy (isoformat t)) in Hpx;
    [discriminate | | exact Hyt].
  intros Hgt. rewrite Hgt in Hb. discriminate.
Qed.

Lemma before_closed_down field t x y :
  has_stamp field x -> has_stamp field y ->
  before field Descending x y = true ->
  stamped_after field t x = false -> stamped_after field t y = false.
Proof.
  intros [sx Hx] [sy Hy]. unfold before, stamped_after, bson_compare.
  rewrite Hx, Hy. intros Hb Hpx.
  destruct (String.compare sy (isoformat t)) eqn:Hyt; try reflexivity.
  apply compare_gt_lt in Hyt.
  assert (Hxt : String.compare (isoformat t) sx = Lt).
  { destruct (String.compare sx sy) eqn:Hxy.
    - apply String.compare_eq_iff in Hxy. subst. exact Hyt.
    - discriminate.
    - apply compare_gt_lt in Hxy. exact (compare_lt_trans _ _ _ Hyt Hxy). }
  apply compare_gt_lt in Hxt. rewrite Hxt in Hpx. discriminate.
Qed.

(** The page a read selects holds only documents within the cut, when
    the documents within the cut fill a page. *)
Lemma selected_within (P : dict -> bool) field value sort_field dir n docs :
  (forall x y, has_stamp sort_field x -> has_stamp sort_field y ->
     before sort_field dir x y = true -> P x = false -> P y = false) ->
  Forall (has_stamp sort_field) docs ->
  n <= length (filter (fun doc => field_is field value doc && P doc) docs) ->
  Forall (fun x => P x = true) (selected field value sort_field dir n docs) /\
  length (selected field value sort_field dir n docs) = n.
Proof.
  intros Hcl Hq Hn. unfold selected.
  rewrite <- filter_filter in Hn.
  rewrite <- (filter_sort_docs sort_field dir) in Hn.
  split.
  - apply (firstn_within (fun x y => before sort_field dir x y = true) P
             (has_stamp sort_field) Hcl).
    + apply Sorted_sort_docs.
    + apply Forall_forall. intros x Hx. apply In_sort_docs in Hx.
      apply filter_In in Hx. rewrite Forall_forall in Hq. apply Hq, Hx.
    + exact Hn.
  - apply firstn_length_le.
    pose proof (filter_length_le P
                  (sort_docs sort_field dir (filter (field_is field value) docs))).
    lia.
Qed.

Lemma stamp_lt a b :
  utc_stamp a -> utc_stamp b ->
  String.compare (isoformat a) (isoformat b) = Lt -> datetime_lt a b.
Proof.
  intros [Ha Hva] [Hb Hvb] Hc.
  rewrite (isoformat_compare a b Hva Hvb) in Hc by congruence.
  split; [congruence | exact Hc].
Qed.

Lemma Forall2_Forall_lr {A B} (Q : A -> B -> Prop) (P1 : A -> Prop)
    (P2 : B -> Prop) :
  (forall x y, Q x y -> P1 x -> P2 y) ->
  forall l l', Forall2 Q l l' -> Forall P1 l -> Forall P2 l'.
Proof.
  intros H l l' HF. induction HF as [| x y t t' Hq _ IH]; intros Hl;
    [constructor |].
  inversion Hl; subst. constructor; [eapply H; eassumption | apply IH].
  assumption.
Qed.

Lemma datetime_lt_irrefl t : ~ datetime_lt t t.
Proof.
  intros [_ H]. unfold naive_compare in H.
  destruct (wall t). cbn in H.
  repeat rewrite N.compare_refl in H. cbn in H. discriminate.
Qed.

End PageFacts.

(** ** The crowded store *)

Module CrowdFacts.
Import PyDatetime PyValue Codec World Collab Pydantic Server Runs Lifecycle.
Import HistoryFacts SampleFacts PageFacts.

Lemma second_stamp_ok k : k < 1800 -> utc_stamp (Crowd.second_stamp k).
Proof.
  intros Hk. split; [reflexivity |].
  unfold valid_naive, Crowd.second_stamp, now_utc.
  cbn [wall year month day hour minute second microsecond].
  assert (Hs : (N.of_nat k mod 60 <? 60)%N = true)
    by (apply N.ltb_lt, N.mod_lt; discriminate).
  assert (Hm : (30 + N.of_nat k / 60 <? 60)%N = true).
  { apply N.ltb_lt.
    assert (N.of_nat k / 60 < 30)%N
      by (apply N.Div0.div_lt_upper_bound; lia).
    lia. }
  rewrite Hs, Hm. reflexivity.
Qed.

Lemma chats_ok n : n <= 1800 -> Forall chat_doc (Crowd.chats n).
Proof.
  induction n as [| k IH]; intros Hn; cbn [Crowd.chats]; constructor.
  - eexists. split; [eexists; reflexivity |].
    apply second_stamp_ok. exact Hn.
  - apply IH. apply Nat.lt_le_incl. exact Hn.
Qed.

Lemma files_ok n : n <= 1800 -> Forall file_doc (Crowd.files n).
Proof.
  induction n as [| k IH]; intros Hn; cbn [Crowd.files]; constructor.
  - eexists. split; [eexists; reflexivity |].
    apply second_stamp_ok. exact Hn.
  - apply IH. apply Nat.lt_le_incl. exact Hn.
Qed.

Lemma searches_ok n : n <= 1800 -> Forall search_doc (Crowd.searches n).
Proof.
  induction n as [| k IH]; intros Hn; cbn [Crowd.searches]; constructor.
  - eexists. split; [eexists; reflexivity |].
    apply second_stamp_ok. exact Hn.
  - apply IH. apply Nat.lt_le_incl. exact Hn.
Qed.

(** The page of the spoiled store holds none but the messages the
    service wrote. *)
Lemma spoiled_page_ok : Forall chat_doc (chat_page "u" Crowd.spoiled).
Proof.
  assert (Hchats : Forall chat_doc (Crowd.chats 100))
    by (apply chats_ok; apply Nat.leb_le; reflexivity).
  unfold chat_page.
  destruct (selected_within
              (stamped_before "timestamp" (Crowd.second_stamp 100))
              "user_id" "u" "timestamp" Ascending 100
              (db_chat_history Crowd.spoiled)) as [Hin _].
  - intros x y. apply before_closed_up.
  - constructor; [eexists; reflexivity |].
    eapply Forall_impl; [| exact Hchats].
    intros doc [m Hm]. eexists. exact (proj1 (holds_chat_fields _ _ Hm)).
  - apply Nat.leb_le. vm_compute. reflexivity.
  - pose proof (selected_Forall (fun _ => True) "user_id" "u" "timestamp"
                  Ascending 100 (db_chat_history Crowd.spoiled)
                  (proj2 (Forall_forall _ _) (fun _ _ => I))) as Hsel.
    rewrite Forall_forall in *. intros d Hd.
    destruct (Hsel d Hd) as (_ & _ & [Heq | Hold]).
    + specialize (Hin d Hd). rewrite <- Heq in Hin. vm_compute in Hin.
      discriminate Hin.
    + exact (Hchats d Hold).
Qed.

End CrowdFacts.

(** ** Encoded dictionaries *)

Module EncodedFacts.
Import PyDatetime PyValue Codec Lifecycle ValueFacts CodecFacts.

Lemma dict_values_encoded_items (d : dict) :
  dict_values_encoded (VDict d) <->
  Forall (fun kv => (forall dt, snd kv <> VDatetime dt) /\
                    dict_values_encoded (snd kv)) d.
Proof.
  cbn [dict_values_encoded].
  induction d as [| [k x] t IH].
  - split; [constructor | exact (fun _ => I)].
  - split.
    + intros (H1 & H2 & H3). constructor; [split; assumption |].
      apply IH. exact H3.
    + intros H. inversion H as [| ? ? [H1 H2] H3]; subst.
      split; [exact H1 |]. split; [exact H2 |]. apply IH. exact H3.
Qed.

End EncodedFacts.

(** ** Reading back what was written *)

Module ReadBackFacts.
Import PyDatetime PyValue Codec World Collab Pydantic Server Runs Lifecycle.
Import DatetimeFacts ValueFacts CodecFacts RoundTrip CollabFacts RouteFacts.
Import SortFacts HistoryFacts RunFacts UserFacts PerUserFacts CapFacts.

Lemma holds_file_all_fields doc f :
  holds_file doc f ->
  dict_get doc "id" = Some (VStr (FileMetadata.id f)) /\
  dict_get doc "user_id" = Some (VStr (FileMetadata.user_id f)) /\
  dict_get doc "filename" = Some (VStr (FileMetadata.filename f)) /\
  dict_get doc "description" = Some (VStr (FileMetadata.description f)) /\
  dict_get doc "file_path" = Some (VStr (FileMetadata.file_path f)) /\
  dict_get doc "file_type" = Some (VStr (FileMetadata.file_type f)) /\
  dict_get doc "uploaded_at"
    = Some (VStr (isoformat (FileMetadata.uploaded_at f))).
Proof. intros [[oid ->] _]. destruct f. repeat split; reflexivity. Qed.

Lemma holds_file_inj doc f f' :
  holds_file doc f -> holds_file doc f' -> f = f'.
Proof.
  intros H H'.
  destruct (holds_file_all_fields _ _ H) as (H1 & H2 & H3 & H4 & H5 & H6 & H7).
  destruct (holds_file_all_fields _ _ H')
    as (H1' & H2' & H3' & H4' & H5' & H6' & H7').
  destruct H as [_ Hs], H' as [_ Hs']. apply utc_stamp_valid in Hs, Hs'.
  destruct f as [i u n d p ty t], f' as [i' u' n' d' p' ty' t'].
  cbn [FileMetadata.id FileMetadata.user_id FileMetadata.filename
       FileMetadata.description FileMetadata.file_path FileMetadata.file_type
       FileMetadata.uploaded_at] in *.
  assert (t = t') by (apply isoformat_inj; congruence).
  congruence.
Qed.

Lemma holds_search_all_fields doc r :
  holds_search doc r ->
  dict_get doc "id" = Some (VStr (SearchResult.id r)) /\
  dict_get doc "user_id" = Some (VStr (SearchResult.user_id r)) /\
  dict_get doc "query" = Some (VStr (SearchResult.query r)) /\
  dict_get doc "summary" = Some (VStr (SearchResult.summary r)) /\
  dict_get doc "timestamp"
    = Some (VStr (isoformat (SearchResult.timestamp r))).
Proof. intros [[oid ->] _]. destruct r. repeat split; reflexivity. Qed.

Lemma holds_search_inj doc r r' :
  holds_search doc r -> holds_search doc r' -> r = r'.
Proof.
  intros H H'.
  destruct (holds_search_all_fields _ _ H) as (H1 & H2 & H3 & H4 & H5).
  destruct (holds_search_all_fields _ _ H') as (H1' & H2' & H3' & H4' & H5').
  destruct H as [_ Hs], H' as [_ Hs']. apply utc_stamp_valid in Hs, Hs'.
  destruct r as [i u q s t], r' as [i' u' q' s' t'].
  cbn [SearchResult.id SearchResult.user_id SearchResult.query
       SearchResult.summary SearchResult.timestamp] in *.
  assert (t = t') by (apply isoformat_inj; congruence).
  congruence.
Qed.

(** A document added to a collection that holds less than a page of
    the user's documents is on the page read next. *)
Lemma selected_new field value sort_field dir n docs doc :
  field_is field value doc = true ->
  length (filter (field_is field value) docs) < n ->
  In doc (selected field value sort_field dir n (docs ++ [doc])).
Proof.
  intros Hmine Hlt. unfold selected.
  assert (Hlen : length (filter (field_is field value) (docs ++ [doc]))
                 = S (length (filter (field_is field value) docs))).
  { rewrite filter_app. cbn [filter]. rewrite Hmine.
    rewrite length_app. cbn [length]. lia. }
  rewrite firstn_all2 by (rewrite length_sort_docs, Hlen; lia).
  apply In_sort_docs. apply filter_In. split; [| exact Hmine].
  apply in_or_app. right. left. reflexivity.
Qed.

End ReadBackFacts.

(** ** Reads that fail *)

Module PoisonFacts.
Import PyDatetime PyValue Codec World Collab Pydantic Server Runs Lifecycle.
Import DatetimeFacts ValueFacts CodecFacts RoundTrip CollabFacts RouteFacts.
Import SortFacts HistoryFacts RunFacts UserFacts ReadFacts.
Local Open Scope service_scope.

Lemma mapM_Ok_inv {A B} (f : A -> M B) l : forall w l' w',
  mapM f l w = (Ok l', w') ->
  forall x, In x l -> exists w0 y w1, f x w0 = (Ok y, w1) /\ In y l'.
Proof.
  induction l as [| a t IH]; intros w l' w' H x Hin; [destruct Hin |].
  cbn [mapM] in H. unfold bind in H.
  destruct (f a w) as [[y | e] w1] eqn:Hfa; [| discriminate].
  destruct (mapM f t w1) as [[ys | e] w2] eqn:Ht; [| discriminate].
  unfold ret in H. inversion H; subst.
  destruct Hin as [-> | Hin].
  - exists w, y, w1. split; [exact Hfa | left; reflexivity].
  - destruct (IH _ _ _ Ht x Hin) as (w0 & y' & w3 & Hf & Hy).
    exists w0, y', w3. split; [exact Hf | right; exact Hy].
Qed.

Lemma mapM_raises {A B} (f : A -> M B) x l :
  In x l ->
  (forall w0, exists e w1, f x w0 = (Raise e, w1)) ->
  forall w, exists e w1, mapM f l w = (Raise e, w1).
Proof.
  intros Hin Hx. induction l as [| a t IH]; intros w; [destruct Hin |].
  cbn [mapM]. unfold bind.
  destruct (f a w) as [[y | e] w1] eqn:Hfa.
  - destruct Hin as [-> | Hin].
    + destruct (Hx w) as (e & w2 & He). congruence.
    + destruct (IH Hin w1) as (e & w2 & He). rewrite He. eauto.
  - eauto.
Qed.

(** One document that cannot be made a record fails the whole read. *)
Lemma read_poisoned {A} (prefix : string) E c field value sort_field dir n
    (init : dict -> M A) k doc w :
  db_fault E Find c w = None ->
  In doc (selected field value sort_field dir n (coll w c)) ->
  sort_field <> k -> dict_get doc k = None ->
  (forall d, dict_get d k = None ->
     forall w0, exists e w1, init d w0 = (Raise e, w1)) ->
  exists detail w',
    guarded_all prefix
      (h <- find_sorted E c field value sort_field dir n ;;
       h <- mapM (revive sort_field) h ;;
       mapM init h) w
    = (Raise (HTTPException 500 (prefix ++ detail)), w').
Proof.
  intros Hf Hin Hne Hk Hinit.
  unfold guarded_all, try_except, bind, find_sorted. rewrite Hf.
  destruct (mapM (revive sort_field) _ w) as [[h | e] w1] eqn:Hrev.
  - destruct (mapM_Ok_inv _ _ _ _ _ Hrev doc Hin) as (w0 & d & w2 & Hd & Hdin).
    assert (Hdk : dict_get d k = None).
    { destruct (revive_cases sort_field doc w0)
        as [(d' & Hd' & Hkeep) | (s & _ & Hbad)]; [| congruence].
      rewrite Hd' in Hd. inversion Hd; subst. rewrite (Hkeep k Hne). exact Hk. }
    destruct (mapM_raises init d h Hdin (Hinit d Hdk) w1) as (e & w3 & He).
    rewrite He. unfold raise. eauto.
  - unfold raise. eauto.
Qed.

Lemma field_is_get field value doc :
  field_is field value doc = true -> dict_get doc field = Some (VStr value).
Proof.
  unfold field_is. destruct (dict_get doc field) as [[] |]; try discriminate.
  intros H. apply String.eqb_eq in H. subst. reflexivity.
Qed.

Lemma selected_all field value sort_field dir n docs doc :
  In doc docs -> field_is field value doc = true ->
  length (filter (field_is field value) docs) <= n ->
  In doc (selected field value sort_field dir n docs).
Proof.
  intros Hin Hmine Hle. unfold selected.
  rewrite firstn_all2 by (rewrite length_sort_docs; exact Hle).
  apply In_sort_docs. apply filter_In. split; assumption.
Qed.

(** A read looks at its page only. *)
Lemma chat_page_read E user_id w :
  store_up E -> Forall chat_doc (chat_page user_id w) ->
  exists ms,
    get_chat_history E user_id w = (Ok ms, w) /\
    Forall2 holds_chat (chat_page user_id w) ms.
Proof.
  intros Hup Hsel.
  destruct (Forall_exists_Forall2 holds_chat _ Hsel) as [ms HF].
  exists ms. split; [| exact HF].
  destruct (decode_all_chat E w _ ms HF) as [docs' [H1 H2]].
  unfold get_chat_history, guarded_all, try_except, bind.
  rewrite (find_sorted_up _ _ _ _ _ _ _ _ Hup). cbn [coll].
  fold (chat_page user_id w). rewrite H1, H2. reflexivity.
Qed.

Lemma file_page_read E user_id w :
  store_up E -> Forall file_doc (file_page user_id w) ->
  exists fs,
    get_user_files E user_id w = (Ok fs, w) /\
    Forall2 holds_file (file_page user_id w) fs.
Proof.
  intros Hup Hsel.
  destruct (Forall_exists_Forall2 holds_file _ Hsel) as [ms HF].
  exists ms. split; [| exact HF].
  destruct (decode_all_file E w _ ms HF) as [docs' [H1 H2]].
  unfold get_user_files, guarded_all, try_except, bind.
  rewrite (find_sorted_up _ _ _ _ _ _ _ _ Hup). cbn [coll].
  fold (file_page user_id w). rewrite H1, H2. reflexivity.
Qed.

Lemma search_page_read E user_id w :
  store_up E -> Forall search_doc (search_page user_id w) ->
  exists rs,
    get_search_history E user_id w = (Ok rs, w) /\
    Forall2 holds_search (search_page user_id w) rs.
Proof.
  intros Hup Hsel.
  destruct (Forall_exists_Forall2 holds_search _ Hsel) as [ms HF].
  exists ms. split; [| exact HF].
  destruct (decode_all_search E w _ ms HF) as [docs' [H1 H2]].
  unfold get_search_history, guarded_all, try_except, bind.
  rewrite (find_sorted_up _ _ _ _ _ _ _ _ Hup). cbn [coll].
  fold (search_page user_id w). rewrite H1, H2. reflexivity.
Qed.

End PoisonFacts.

(** ** Paths in the upload directory *)

Module PathFacts.
Import PyDatetime PyValue Codec World Collab Pydantic Server Runs Lifecycle.
Import CollabFacts RouteFacts SessionFacts.
Local Open Scope string_scope.

Lemma length_append (a b : string) :
  String.length (a ++ b) = String.length a + String.length b.
Proof.
  induction a as [| x a IH]; cbn [append String.length plus];
    [| rewrite IH]; reflexivity.
Qed.

Lemma append_inj_r (a b u : string) : a ++ u = b ++ u -> a = b.
Proof.
  revert b. induction a as [| x a IH]; intros [| y b] H; cbn [append] in H.
  - reflexivity.
  - apply (f_equal String.length) in H. cbn [String.length] in H.
    rewrite length_append in H. lia.
  - apply (f_equal String.length) in H. cbn [String.length] in H.
    rewrite length_append in H. lia.
  - inversion H as [[Hxy Hab]]. f_equal. apply IH. exact Hab.
Qed.

Lemma split_cons s : exists h r, PyPath.split s = h :: r.
Proof.
  induction s as [| c t [h [r IH]]]; cbn [PyPath.split].
  - eauto.
  - destruct (Ascii.eqb c PyPath.sep); [eauto | rewrite IH; eauto].
Qed.

Lemma split_plain_app a s h r :
  slashless a = true -> PyPath.split s = h :: r ->
  PyPath.split (a ++ s) = (a ++ h) :: r.
Proof.
  induction a as [| c a IH]; cbn [append slashless PyPath.split];
    intros Ha Hs; [exact Hs |].
  apply andb_prop in Ha. destruct Ha as [Hc Ha]. unfold PyPath.sep.
  destruct (Ascii.eqb c "/"); [discriminate Hc |].
  rewrite (IH Ha Hs). reflexivity.
Qed.

Lemma split_plain s : slashless s = true -> PyPath.split s = [s].
Proof.
  intros Hs.
  pose proof (split_plain_app s EmptyString EmptyString [] Hs eq_refl) as H.
  rewrite DigitsFacts.append_empty_r in H. exact H.
Qed.

Lemma splitroot_plain a s :
  slashless a = true ->
  PyPath.splitroot (a ++ "_" ++ s) = (EmptyString, a ++ "_" ++ s).
Proof.
  destruct a as [| c a]; cbn [append slashless PyPath.splitroot];
    [reflexivity |].
  intros Ha. apply andb_prop in Ha. destruct Ha as [Hc _]. unfold PyPath.sep.
  destruct (Ascii.eqb c "/"); [discriminate Hc | reflexivity].
Qed.

Lemma kept_after_token a h : PyPath.kept (a ++ "_" ++ h) = true.
Proof.
  unfold PyPath.kept. destruct a as [| c a]; [reflexivity |].
  cbn [append String.eqb]. destruct (Ascii.eqb c "."); [| reflexivity].
  destruct a; reflexivity.
Qed.

Lemma concat_head sep a h l :
  String.concat sep ((a ++ h) :: l) = a ++ String.concat sep (h :: l).
Proof.
  destruct l; cbn [String.concat]; [| rewrite append_assoc]; reflexivity.
Qed.

(** The path of an upload, when the token holds no slash: the upload
    directory, the token, and what the path keeps of the filename. *)
Lemma upload_path_shape a filename :
  slashless a = true ->
  upload_path (a ++ "_" ++ filename)
  = upload_dir ++ "/" ++ a ++ "_" ++ kept_name filename.
Proof.
  intros Ha. destruct (split_cons filename) as [h [r Hfn]].
  assert (Hu : PyPath.split ("_" ++ filename) = ("_" ++ h) :: r)
    by (cbn [append PyPath.split]; rewrite Hfn; reflexivity).
  assert (Hp : PyPath.PurePosixPath (a ++ "_" ++ filename)
               = PyPath.mk EmptyString
                   ((a ++ "_" ++ h) :: filter PyPath.kept r)).
  { unfold PyPath.PurePosixPath. rewrite (splitroot_plain a filename Ha).
    rewrite (split_plain_app a _ _ _ Ha Hu). cbn [filter].
    rewrite kept_after_token. reflexivity. }
  unfold upload_path, PyPath.joinpath. rewrite Hp.
  cbn [PyPath.root PyPath.parts].
  change (PyPath.PurePosixPath upload_dir)
    with (PyPath.mk "/" ["app"; "uploads"]).
  cbn [PyPath.root PyPath.parts app]. unfold PyPath.str, kept_name.
  cbn [PyPath.root PyPath.parts]. rewrite Hfn.
  change (String.concat "/"
            ("app" :: "uploads" :: (a ++ "_" ++ h) :: filter PyPath.kept r))
    with ("app/uploads/"
            ++ String.concat "/" ((a ++ "_" ++ h) :: filter PyPath.kept r)).
  rewrite (concat_head "/" a ("_" ++ h)), (concat_head "/" "_" h).
  reflexivity.
Qed.

Lemma kept_name_plain filename :
  slashless filename = true -> kept_name filename = filename.
Proof.
  intros H. unfold kept_name. rewrite (split_plain _ H). reflexivity.
Qed.

(** A slash that ends the filename is not in the path. *)
Lemma kept_name_trailing_slash name :
  slashless name = true -> kept_name (name ++ "/") = name.
Proof.
  intros H. unfold kept_name.
  rewrite (split_plain_app name "/" EmptyString [EmptyString] H eq_refl).
  cbn [filter PyPath.kept String.eqb negb andb String.concat].
  apply DigitsFacts.append_empty_r.
Qed.

(** Two tokens give two paths for one filename. *)
Lemma upload_path_inj (a b filename : string) :
  slashless a = true -> slashless b = true ->
  upload_path (a ++ "_" ++ filename) = upload_path (b ++ "_" ++ filename) ->
  a = b.
Proof.
  intros Ha Hb H. rewrite !upload_path_shape in H by assumption.
  apply append_inj_l in H. apply (append_inj_l "/") in H.
  exact (append_inj_r _ _ _ H).
Qed.

(** Serving an upload leaves the users as they are. *)
Lemma user_known_same_users E user_id w w' :
  store_up E -> db_users w' = db_users w ->
  user_known E user_id w -> user_known E user_id w'.
Proof.
  intros Hup Hsame [u Hu]. exists u. unfold find_one in *.
  rewrite Hup in *. cbn [coll] in *. rewrite Hsame.
  inversion Hu as [Hf]. rewrite Hf. reflexivity.
Qed.

End PathFacts.

(* ================================================================== *)
(** * Part V: further properties of the code                          *)
(* ================================================================== *)

Import Lifecycle UserFacts SampleFacts ReadFacts AppendFacts PerUserFacts.
Import CapFacts PageFacts CrowdFacts EncodedFacts ReadBackFacts PoisonFacts.
Import PathFacts.

(** X1. A user registered in a store that only the service has written
    is found again under the identifier the registration returned, the
    same record, whatever requests are served in between. *)
Theorem registered_user_stays_found (E : externals)
    (before_it after_it : list request) (user_data : UserCreate.t) :
  fresh_tokens E -> store_up E -> clock_ok E ->
  let w := snd (serve E before_it empty_world) in
  exists u w1,
    create_user E user_data w = (Ok u, w1) /\
    User.first_name u = UserCreate.first_name user_data /\
    User.username u = UserCreate.username user_data /\
    User.phone u = UserCreate.phone user_data /\
    let w2 := snd (serve E after_it w1) in
    get_user E (User.id u) w2 = (Ok u, w2).
Proof.
  intros Hfresh Hup Hc w.
  assert (Hok : users_ok E w).
  { apply serve_users_ok; [exact Hc | constructor]. }
  pose proof (create_user_up E user_data w Hup) as Hcreate. cbv zeta in Hcreate.
  match type of Hcreate with
  | _ = (Ok ?U, _) => remember U as u eqn:Hu
  end.
  match type of Hcreate with
  | _ = (_, ?W1) => set (w1 := W1) in *
  end.
  exists u, w1. split; [exact Hcreate |].
  split; [rewrite Hu; reflexivity |]. split; [rewrite Hu; reflexivity |].
  split; [rewrite Hu; reflexivity |].
  cbv zeta.
  assert (Hh : holds_user (stored (User_dict u) (oid_count w)) u).
  { split; [eexists; reflexivity | rewrite Hu; apply utc_stamp_now, Hc]. }
  destruct (serve_keeps_users E after_it w1) as [more Hmore].
  eapply get_user_found; [exact Hup | | exact Hh].
  rewrite Hmore. subst w1. cbn [db_users]. rewrite <- app_assoc.
  assert (Hid : User.id u = uuid4_str E (uuid_count w))
    by (rewrite Hu; reflexivity).
  rewrite Hid.
  rewrite find_app_none
    by (apply (next_token_unused E w Hfresh Hok); apply le_n).
  cbn [app List.find]. unfold field_is.
  rewrite (holds_user_id _ _ Hh), Hid, String.eqb_refl. reflexivity.
Qed.

Lemma registered_user_stays_found_witness :
  exists u w1,
    create_user Sample.all_up (UserCreate.mk "Bo" None (Some "555"))
      (snd (serve Sample.all_up Sample.session empty_world)) = (Ok u, w1) /\
    User.first_name u = "Bo" /\
    get_user Sample.all_up (User.id u)
      (snd (serve Sample.all_up Sample.session w1))
    = (Ok u, snd (serve Sample.all_up Sample.session w1)).
Proof.
  destruct all_up_ready as (Hfresh & Hup & _ & Hc).
  destruct (registered_user_stays_found Sample.all_up Sample.session
              Sample.session (UserCreate.mk "Bo" None (Some "555"))
              Hfresh Hup Hc) as (u & w1 & Hcreate & Hname & _ & _ & Hget).
  exists u, w1. split; [exact Hcreate |]. split; [exact Hname | exact Hget].
Defined.

(** X2. The lookup of a user fails closed: an unknown identifier gives
    404, a failing store gives 500 with the store's message, and a
    stored document without a first name gives 500 whatever else it
    holds; in each case the world is left as it was. *)
Theorem get_user_failures (E : externals) (user_id : string) (w : world) :
  (user_unknown E user_id w ->
   get_user E user_id w = (Raise (HTTPException 404 "User not found"), w)) /\
  (forall msg,
     find_one E users "id" user_id w = (Raise (Exception msg), w) ->
     get_user E user_id w
     = (Raise (HTTPException 500 ("Error retrieving user: " ++ msg)%string), w)) /\
  (forall doc,
     find_one E users "id" user_id w = (Ok (Some doc), w) ->
     dict_get doc "first_name" = None ->
     exists msg,
       get_user E user_id w
       = (Raise (HTTPException 500 ("Error retrieving user: " ++ msg)%string), w)).
Proof.
  split; [| split].
  - intros Hn. unfold get_user, guarded, try_except, bind. rewrite Hn. reflexivity.
  - intros msg Hf. unfold get_user, guarded, try_except, bind. rewrite Hf.
    reflexivity.
  - intros doc Hf Hfn.
    destruct (find_one_found _ _ _ _ _ _ Hf) as [_ [s [Hid _]]].
    unfold get_user, guarded, try_except, bind. rewrite Hf.
    unfold decode_User, bind.
    destruct (revive_cases "created_at" doc w) as [[d' [Hr Hk]] | [s' [_ Hr]]];
      rewrite Hr.
    + unfold User_init, bind, str_field_or, str_field.
      rewrite (Hk "id") by discriminate. rewrite Hid.
      rewrite (Hk "first_name") by discriminate. rewrite Hfn.
      eexists. reflexivity.
    + eexists. reflexivity.
Qed.

Lemma get_user_failures_witness :
  get_user Sample.all_up "nobody" Sample.registered
  = (Raise (HTTPException 404 "User not found"), Sample.registered).
Proof.
  apply (proj1 (get_user_failures Sample.all_up "nobody" Sample.registered)).
  reflexivity.
Defined.

(** X3. A stored user document that has no context identifier and no
    creation time is read with both filled in anew: the context
    identifier is the next token and the creation time the present
    reading of the clock.  Nothing is written back, so the next read
    draws again, and with fresh tokens the two reads give the user two
    different context identifiers. *)
Theorem get_user_fills_missing_fields (E : externals) (user_id first_name : string)
    (doc : dict) (w : world) :
  store_up E ->
  List.find (field_is "id" user_id) (db_users w) = Some doc ->
  dict_get doc "first_name" = Some (VStr first_name) ->
  dict_get doc "username" = None -> dict_get doc "phone" = None ->
  dict_get doc "chat_id" = None -> dict_get doc "created_at" = None ->
  let read := fun n c =>
    User.mk user_id first_name None None (uuid4_str E n)
      (now_utc (utc_clock E c)) in
  let w1 := set_clock_count (set_uuid_count w (S (uuid_count w)))
              (S (clock_count w)) in
  get_user E user_id w = (Ok (read (uuid_count w) (clock_count w)), w1) /\
  db_users w1 = db_users w /\
  fst (get_user E user_id w1)
    = Ok (read (S (uuid_count w)) (S (clock_count w))) /\
  (fresh_tokens E ->
   User.chat_id (read (uuid_count w) (clock_count w))
   <> User.chat_id (read (S (uuid_count w)) (S (clock_count w)))).
Proof.
  intros Hup Hfind Hfn Hun Hph Hcid Hat read w1.
  assert (Hid : dict_get doc "id" = Some (VStr user_id)).
  { apply List.find_some in Hfind. destruct Hfind as [_ Hm].
    unfold field_is in Hm. destruct (dict_get doc "id") as [[] |];
      try discriminate.
    apply String.eqb_eq in Hm. subst. reflexivity. }
  assert (Hget : forall w0, db_users w0 = db_users w ->
            get_user E user_id w0
            = (Ok (read (uuid_count w0) (clock_count w0)),
               set_clock_count (set_uuid_count w0 (S (uuid_count w0)))
                 (S (clock_count w0)))).
  { intros w0 Hsame. unfold get_user, guarded, try_except, bind, find_one.
    rewrite Hup. cbn [coll]. rewrite Hsame, Hfind.
    unfold decode_User, bind, revive. rewrite Hat.
    unfold ret, User_init, bind, str_field_or, str_field, optional_str_field,
      datetime_field_or.
    rewrite Hid, Hfn, Hun, Hph, Hcid, Hat. reflexivity. }
  split; [apply Hget; reflexivity |]. split; [reflexivity |].
  split; [rewrite Hget by reflexivity; reflexivity |].
  intros Hfresh Heq. cbn [User.chat_id read] in Heq. apply Hfresh in Heq. lia.
Qed.

Lemma get_user_fills_missing_fields_witness :
  let doc := [("id", VStr "u"); ("first_name", VStr "Ana")] in
  let w := set_coll empty_world users [doc] in
  fst (get_user Sample.all_up "u" w)
  = Ok (User.mk "u" "Ana" None None "u" (Sample.stamp 0 0)).
Proof.
  intros doc w.
  assert (Hup : store_up Sample.all_up) by (intros op c w0; reflexivity).
  pose proof (get_user_fills_missing_fields Sample.all_up "u" "Ana" doc w
                Hup eq_refl eq_refl eq_refl eq_refl eq_refl eq_refl) as H.
  cbv zeta in H. destruct H as (H & _). rewrite H. reflexivity.
Defined.

(** X4. A chat turn is read back: when a chat succeeds for a user who
    had fewer than 100 messages stored, the chat history read made
    right after returns the message the chat returned, among one
    message more than were stored before. *)
Theorem chat_turn_is_read_back (E : externals) (req : ChatRequest.t)
    (s : string) (w : world) :
  store_up E -> clock_ok E ->
  Forall chat_doc (db_chat_history w) ->
  user_known E (ChatRequest.user_id req) w ->
  llm_reply E (llm_log w)
    (get_llm_chat (chat_session_id (ChatRequest.user_id req))
       (ChatRequest.message req)) = Text s ->
  length (filter (field_is "user_id" (ChatRequest.user_id req))
            (db_chat_history w)) < 100 ->
  exists m w' ms,
    chat_with_ai E req w = (Ok m, w') /\
    ChatMessage.message m = ChatRequest.message req /\
    ChatMessage.response m = s /\
    get_chat_history E (ChatRequest.user_id req) w' = (Ok ms, w') /\
    In m ms /\
    length ms
    = S (length (filter (field_is "user_id" (ChatRequest.user_id req))
                   (db_chat_history w))).
Proof.
  intros Hup Hc Hok Hk Hr Hlt.
  pose proof (chat_backend_text_up E req w s Hup Hk Hr) as Hchat.
  cbv zeta in Hchat.
  match type of Hchat with
  | _ = (Ok ?M, _) => remember M as m eqn:Hm
  end.
  match type of Hchat with
  | _ = (_, ?W1) => set (w' := W1) in *
  end.
  assert (Hh : holds_chat (stored (ChatMessage_dict m) (oid_count w)) m).
  { split; [eexists; reflexivity | rewrite Hm; apply utc_stamp_now, Hc]. }
  assert (Hnew : db_chat_history w'
                 = db_chat_history w ++ [stored (ChatMessage_dict m) (oid_count w)])
    by reflexivity.
  assert (Hok' : Forall chat_doc (db_chat_history w')).
  { rewrite Hnew. apply Forall_app. split; [exact Hok |].
    constructor; [exists m; exact Hh | constructor]. }
  assert (Hmine : field_is "user_id" (ChatRequest.user_id req)
                    (stored (ChatMessage_dict m) (oid_count w)) = true).
  { unfold field_is.
    rewrite (proj1 (proj2 (holds_chat_all_fields _ _ Hh))), Hm.
    apply String.eqb_refl. }
  destruct (get_chat_history_up E (ChatRequest.user_id req) w' Hup Hok')
    as [ms [Hget HF]].
  exists m, w', ms. split; [exact Hchat |].
  split; [rewrite Hm; reflexivity |]. split; [rewrite Hm; reflexivity |].
  split; [exact Hget |].
  assert (Hlen : length (filter (field_is "user_id" (ChatRequest.user_id req))
                           (db_chat_history w'))
                 = S (length (filter (field_is "user_id" (ChatRequest.user_id req))
                                (db_chat_history w)))).
  { rewrite Hnew, filter_app. cbn [filter]. rewrite Hmine.
    rewrite length_app. cbn [length]. lia. }
  split.
  - assert (Hin : In (stored (ChatMessage_dict m) (oid_count w))
                    (selected "user_id" (ChatRequest.user_id req) "timestamp"
                       Ascending 100 (db_chat_history w'))).
    { unfold selected. rewrite firstn_all2
        by (rewrite length_sort_docs, Hlen; lia).
      apply In_sort_docs. apply filter_In. split; [| exact Hmine].
      rewrite Hnew. apply in_or_app. right. left. reflexivity. }
    destruct (Forall2_In_l _ _ _ _ HF Hin) as [m' [Hm' Hh']].
    rewrite (holds_chat_inj _ _ _ Hh Hh'). exact Hm'.
  - rewrite <- (Forall2_length HF), selected_length, Hlen. lia.
Qed.

Lemma chat_turn_is_read_back_witness :
  exists m w' ms,
    chat_with_ai Sample.all_up (ChatRequest.mk "u" "hi") Sample.registered
      = (Ok m, w') /\
    get_chat_history Sample.all_up "u" w' = (Ok ms, w') /\
    ms = [m].
Proof.
  destruct all_up_ready as (_ & Hup & _ & Hc).
  assert (Hk : user_known Sample.all_up "u" Sample.registered)
    by (eexists; vm_compute; reflexivity).
  destruct (chat_turn_is_read_back Sample.all_up (ChatRequest.mk "u" "hi")
              "re: hi" Sample.registered Hup Hc)
    as (m & w' & ms & Hchat & _ & _ & Hget & Hin & Hlen).
  - constructor.
  - exact Hk.
  - reflexivity.
  - cbn. lia.
  - exists m, w', ms. split; [exact Hchat |]. split; [exact Hget |].
    destruct ms as [| a [| b t]]; cbn in Hlen; try discriminate Hlen.
    destruct Hin as [-> | []]. reflexivity.
Defined.

(** X5. The chat history is cut at its oldest hundred: when a user has
    at least 100 stored messages stamped before [t], the read returns
    exactly 100 messages, all of them earlier than [t]; a message
    stamped [t] is not returned. *)
Theorem chat_history_keeps_the_oldest (E : externals) (user_id : string)
    (t : datetime) (w : world) :
  store_up E -> Forall chat_doc (db_chat_history w) -> utc_stamp t ->
  100 <= length (filter (fun doc => field_is "user_id" user_id doc
                                    && stamped_before "timestamp" t doc)
                   (db_chat_history w)) ->
  exists ms,
    get_chat_history E user_id w = (Ok ms, w) /\
    length ms = 100 /\
    Forall (fun m => datetime_lt (ChatMessage.timestamp m) t) ms /\
    (forall m, In m ms -> ChatMessage.timestamp m <> t).
Proof.
  intros Hup Hok Ht Hn.
  destruct (get_chat_history_up E user_id w Hup Hok) as [ms [Hget HF]].
  destruct (selected_within (stamped_before "timestamp" t) "user_id" user_id
              "timestamp" Ascending 100 (db_chat_history w)) as [Hin Hlen].
  - intros x y. apply before_closed_up.
  - eapply Forall_impl; [| exact Hok].
    intros doc [m Hm]. eexists. exact (proj1 (holds_chat_fields _ _ Hm)).
  - exact Hn.
  - assert (Hall : Forall (fun m => datetime_lt (ChatMessage.timestamp m) t) ms).
    { refine (Forall2_Forall_lr holds_chat
                (fun x => stamped_before "timestamp" t x = true) _
                _ _ _ HF Hin).
      intros x m Hm Hx. unfold stamped_before in Hx.
      rewrite (proj1 (holds_chat_fields _ _ Hm)) in Hx.
      apply stamp_lt; [exact (proj2 Hm) | exact Ht |].
      destruct (String.compare (isoformat (ChatMessage.timestamp m))
                  (isoformat t)); [discriminate | reflexivity | discriminate]. }
    exists ms. split; [exact Hget |].
    split; [rewrite <- (Forall2_length HF); exact Hlen |].
    split; [exact Hall |].
    intros m Hm Heq. rewrite Forall_forall in Hall.
    apply (datetime_lt_irrefl t). rewrite <- Heq at 1. apply Hall, Hm.
Qed.

Lemma chat_history_keeps_the_oldest_witness :
  exists ms,
    get_chat_history Sample.all_up "u" Crowd.crowded = (Ok ms, Crowd.crowded) /\
    length ms = 100 /\
    Forall (fun m => datetime_lt (ChatMessage.timestamp m)
                       (Crowd.second_stamp 101)) ms.
Proof.
  destruct (chat_history_keeps_the_oldest Sample.all_up "u"
              (Crowd.second_stamp 101) Crowd.crowded)
    as (ms & Hget & Hlen & Hall & _).
  - exact (proj1 (proj2 all_up_ready)).
  - apply chats_ok. apply Nat.leb_le. reflexivity.
  - apply second_stamp_ok. apply Nat.ltb_lt. reflexivity.
  - apply Nat.leb_le. vm_compute. reflexivity.
  - exists ms. split; [exact Hget |]. split; [exact Hlen | exact Hall].
Defined.

(** X6. A store that only the service has written stays readable: after
    any sequence of requests served from the empty store, with the
    collaborators' clock giving real dates and the store up, each of
    the three history reads of any user succeeds, returns its records
    in the order of time (chat oldest first, files and searches newest
    first) and changes nothing. *)
Theorem run_keeps_histories_readable (E : externals) (rqs : list request)
    (user_id : string) :
  clock_ok E -> store_up E ->
  let w := snd (serve E rqs empty_world) in
  store_ok w /\
  (exists ms,
     get_chat_history E user_id w = (Ok ms, w) /\
     Sorted (fun a b =>
               datetime_le (ChatMessage.timestamp a) (ChatMessage.timestamp b))
       ms) /\
  (exists fs,
     get_user_files E user_id w = (Ok fs, w) /\
     Sorted (fun a b =>
               datetime_ge (FileMetadata.uploaded_at a)
                 (FileMetadata.uploaded_at b)) fs) /\
  (exists rs,
     get_search_history E user_id w = (Ok rs, w) /\
     Sorted (fun a b =>
               datetime_ge (SearchResult.timestamp a)
                 (SearchResult.timestamp b)) rs).
Proof.
  intros Hc Hup w.
  assert (Hok : store_ok w) by (apply serve_store_ok; [exact Hc | apply store_ok_empty]).
  split; [exact Hok |]. destruct Hok as (Hchat & Hfile & Hsearch).
  split; [| split].
  - destruct (chat_history_read E user_id w Hup Hchat) as [ms (H1 & H2 & _)].
    exists ms. split; assumption.
  - destruct (file_history_read E user_id w Hup Hfile) as [fs (H1 & H2 & _)].
    exists fs. split; assumption.
  - destruct (search_history_read E user_id w Hup Hsearch) as [rs (H1 & H2 & _)].
    exists rs. split; assumption.
Qed.

Lemma run_keeps_histories_readable_witness :
  exists ms,
    get_chat_history Sample.all_up "u"
      (snd (serve Sample.all_up Sample.session empty_world))
    = (Ok ms, snd (serve Sample.all_up Sample.session empty_world)) /\
    map ChatMessage.message ms = ["one"; "two"; "three"]%string.
Proof.
  destruct all_up_ready as (_ & Hup & _ & Hc).
  destruct (run_keeps_histories_readable Sample.all_up Sample.session "u"
              Hc Hup) as (_ & (ms & Hm & _) & _).
  exists ms. split; [exact Hm |].
  vm_compute in Hm. inversion Hm. reflexivity.
Defined.

(** X7. The store is an append-only log.  Whatever a sequence of
    requests does, succeed or fail, every collection afterwards is the
    collection before with documents added at its end, at most one for
    each request: no request removes a stored document or rewrites
    one. *)
Theorem requests_only_append (E : externals) (rqs : list request)
    (w : world) (c : collection) :
  exists more,
    coll (snd (serve E rqs w)) c = coll w c ++ more /\
    length more <= length rqs.
Proof.
  revert w. induction rqs as [| rq rest IH]; intros w.
  - exists []. rewrite app_nil_r. split; [reflexivity | apply le_n].
  - rewrite serve_cons.
    destruct (handle_appends E rq w c) as [m1 [H1 L1]].
    destruct (IH (snd (handle E rq w))) as [m2 [H2 L2]].
    exists (m1 ++ m2). split.
    + rewrite app_assoc, <- H1.
      destruct (fst (handle E rq w)); cbn [snd]; exact H2.
    + rewrite length_app. cbn [length]. lia.
Qed.

(** X8. The histories are kept per user: a request made for one user,
    whether it succeeds or fails, leaves what the three history reads
    return for any other user exactly as it was. *)
Theorem histories_are_per_user (E : externals) (rq : request)
    (other : string) (w : world) :
  store_up E -> store_ok w ->
  request_user rq <> Some other ->
  let w' := snd (handle E rq w) in
  fst (get_chat_history E other w') = fst (get_chat_history E other w) /\
  fst (get_user_files E other w') = fst (get_user_files E other w) /\
  fst (get_search_history E other w') = fst (get_search_history E other w).
Proof.
  intros Hup (Hchat & Hfile & Hsearch) Hne w'. subst w'.
  split; [| split].
  - destruct (get_chat_history_up E other w Hup Hchat) as [ms [Hget HF]].
    rewrite Hget.
    rewrite (chat_read_from E other (snd (handle E rq w)) ms Hup);
      [reflexivity |].
    change (db_chat_history (snd (handle E rq w)))
      with (coll (snd (handle E rq w)) chat_history).
    rewrite handle_keeps_selection by exact Hne. exact HF.
  - destruct (get_user_files_up E other w Hup Hfile) as [fs [Hget HF]].
    rewrite Hget.
    rewrite (file_read_from E other (snd (handle E rq w)) fs Hup);
      [reflexivity |].
    change (db_file_metadata (snd (handle E rq w)))
      with (coll (snd (handle E rq w)) file_metadata).
    rewrite handle_keeps_selection by exact Hne. exact HF.
  - destruct (get_search_history_up E other w Hup Hsearch) as [rs [Hget HF]].
    rewrite Hget.
    rewrite (search_read_from E other (snd (handle E rq w)) rs Hup);
      [reflexivity |].
    change (db_search_results (snd (handle E rq w)))
      with (coll (snd (handle E rq w)) search_results).
    rewrite handle_keeps_selection by exact Hne. exact HF.
Qed.

Lemma histories_are_per_user_witness :
  fst (get_chat_history Sample.all_up "v"
         (snd (handle Sample.all_up (PostChat (ChatRequest.mk "u" "hi"))
                Sample.archive)))
  = fst (get_chat_history Sample.all_up "v" Sample.archive).
Proof.
  assert (Hok : store_ok Sample.archive).
  { unfold store_ok, Sample.archive; cbn [db_chat_history db_file_metadata
                                            db_search_results].
    repeat split;
      repeat (constructor;
              [eexists; split; [eexists; reflexivity | split; reflexivity] |]);
      constructor. }
  apply (histories_are_per_user Sample.all_up
           (PostChat (ChatRequest.mk "u" "hi")) "v" Sample.archive
           (proj1 (proj2 all_up_ready)) Hok).
  discriminate.
Defined.

(** X9. An upload does not undo what it has done when it fails late.
    If the store refuses the metadata after the bytes are written and
    the file analysed, the upload answers 500 with the store's message
    and no FileMetadata is stored, while the written file stays where
    it was written, at [str(upload_dir / name)], and the analysis
    backend has seen the request for that path. *)
Theorem failed_insert_leaves_the_file (E : externals) (user_id : string)
    (file : UploadFile.t) (file_type msg : string) (w : world) :
  files_up E ->
  user_known E user_id w ->
  UploadFile.content_type file = Some file_type ->
  type_allowed (Some file_type) = true ->
  (forall w0, db_fault E InsertOne file_metadata w0 = Some msg) ->
  let path := upload_path (uuid4_str E (uuid_count w) ++ "_"
                             ++ UploadFile.filename file)%string in
  let r := fst (upload_and_analyze_file E user_id file w) in
  let w' := snd (upload_and_analyze_file E user_id file w) in
  r = Raise (HTTPException 500 ("Error processing file upload: " ++ msg)%string) /\
  db_file_metadata w' = db_file_metadata w /\
  In (path, UploadFile.content file) (uploads w') /\
  llm_log w' = llm_log w ++ [analysis_call user_id path file_type].
Proof.
  intros Hfs [u Hu] Hct Hal Hdown path r w'. subst r w'.
  unfold upload_and_analyze_file, guarded, try_except, bind.
  rewrite Hu, Hct, Hal. cbn [negb].
  rewrite (mkdir_up _ _ _ Hfs). unfold uuid4.
  rewrite (write_file_up _ _ _ _ Hfs). fold path.
  unfold send_message.
  cbn [llm_log set_uploads set_uuid_count].
  destruct (llm_reply E (llm_log w) (analysis_call user_id path file_type))
    as [s | e];
    unfold FileMetadata_init, bind, str_field_or, str_field,
      datetime_field_or, log_warning;
    cbn [dict_get String.eqb Ascii.eqb Bool.eqb];
    unfold uuid4, datetime_now_utc, ret, insert_one;
    rewrite Hdown;
    cbn [fst snd db_file_metadata uploads llm_log set_clock_count
         set_uuid_count set_llm_log set_uploads set_warnings];
    (split; [reflexivity |]); (split; [reflexivity |]);
    (split; [apply in_or_app; right; left; reflexivity | reflexivity]).
Qed.

Lemma failed_insert_leaves_the_file_witness :
  let E := mk_externals Sample.tally Sample.tick
             (fun _ _ => Text "A picture.")
             (fun op _ _ =>
                match op with
                | InsertOne => Some "disk full"
                | _ => None
                end)
             (fun _ _ => None) in
  fst (upload_and_analyze_file E "u" Sample.cat_png Sample.registered)
    = Raise (HTTPException 500 "Error processing file upload: disk full") /\
  In ("/app/uploads/uuu_cat.png", "PNG-bytes")
    (uploads (snd (upload_and_analyze_file E "u" Sample.cat_png
                     Sample.registered))).
Proof.
  intros E.
  assert (Hk : user_known E "u" Sample.registered)
    by (eexists; vm_compute; reflexivity).
  pose proof (failed_insert_leaves_the_file E "u" Sample.cat_png "image/png"
                "disk full" Sample.registered
                (fun p w0 => eq_refl) Hk eq_refl eq_refl
                (fun w0 => eq_refl)) as H.
  cbv zeta in H. destruct H as (Hr & _ & Hin & _).
  split; [exact Hr | exact Hin].
Defined.

(** X10. What an accepted upload records hangs together: the path in
    the returned FileMetadata is the rendering of the upload directory
    joined with the token, an underscore and the original filename,
    the uploaded bytes are what the upload directory holds at that
    path, and the file sent to the analysis backend is that path with
    the declared content type, which is one of the allowed ones.  For
    a token without a slash the path is the upload directory, a slash,
    the token, an underscore and what the path keeps of the filename:
    the filename itself when it holds no slash either, the filename
    without its last character when only that one is a slash. *)
Theorem upload_record_names_the_file (E : externals) (user_id : string)
    (file : UploadFile.t) (file_type : string) (w : world) :
  store_up E -> files_up E ->
  user_known E user_id w ->
  UploadFile.content_type file = Some file_type ->
  type_allowed (Some file_type) = true ->
  exists f w',
    upload_and_analyze_file E user_id file w = (Ok f, w') /\
    FileMetadata.user_id f = user_id /\
    FileMetadata.filename f = UploadFile.filename file /\
    FileMetadata.file_type f = file_type /\
    In (FileMetadata.file_type f) allowed_types /\
    FileMetadata.file_path f
      = upload_path (uuid4_str E (uuid_count w) ++ "_"
                       ++ UploadFile.filename file)%string /\
    (forall content,
       In (FileMetadata.file_path f, content) (uploads w') <->
       content = UploadFile.content file) /\
    (exists c,
       llm_log w' = llm_log w ++ [c] /\
       provider c = "gemini" /\
       file_contents c
       = [(FileMetadata.file_path f, FileMetadata.file_type f)]) /\
    (slashless (uuid4_str E (uuid_count w)) = true ->
     FileMetadata.file_path f
     = (upload_dir ++ "/" ++ uuid4_str E (uuid_count w) ++ "_"
          ++ kept_name (UploadFile.filename file))%string /\
     (slashless (UploadFile.filename file) = true ->
      FileMetadata.file_path f
      = (upload_dir ++ "/" ++ uuid4_str E (uuid_count w) ++ "_"
           ++ UploadFile.filename file)%string) /\
     (forall name,
        slashless name = true ->
        UploadFile.filename file = (name ++ "/")%string ->
        FileMetadata.file_path f
        = (upload_dir ++ "/" ++ uuid4_str E (uuid_count w) ++ "_"
             ++ name)%string)).
Proof.
  intros Hup Hfs Hk Hct Hal.
  pose proof (upload_accepted_up E user_id file file_type w Hup Hfs Hk Hct Hal)
    as H. cbv zeta in H.
  eexists. eexists. split; [exact H |].
  cbn [FileMetadata.user_id FileMetadata.filename FileMetadata.file_type
       FileMetadata.file_path uploads llm_log].
  repeat (split; [reflexivity |]).
  split.
  { unfold type_allowed in Hal. apply existsb_exists in Hal.
    destruct Hal as [x [Hin Hx]]. apply String.eqb_eq in Hx. subst x. exact Hin. }
  split; [reflexivity |]. split.
  - intros content. rewrite in_app_iff, filter_In. cbn [In fst]. split.
    + intros [[_ Hne] | [Heq | []]].
      * rewrite String.eqb_refl in Hne. discriminate Hne.
      * inversion Heq. reflexivity.
    + intros ->. right. left. reflexivity.
  - split; [eexists; split; [reflexivity |]; split; reflexivity |].
    intros Htok. rewrite (upload_path_shape _ _ Htok).
    split; [reflexivity |]. split.
    + intros Hname. rewrite (kept_name_plain _ Hname). reflexivity.
    + intros name Hname ->. rewrite (kept_name_trailing_slash _ Hname).
      reflexivity.
Qed.

Lemma upload_record_names_the_file_witness :
  let file := UploadFile.mk "cat.png/" (Some "image/png") "PNG-bytes" in
  exists f w',
    upload_and_analyze_file Sample.all_up "u" file Sample.registered
      = (Ok f, w') /\
    FileMetadata.filename f = "cat.png/" /\
    FileMetadata.file_path f = "/app/uploads/uuu_cat.png" /\
    In ("/app/uploads/uuu_cat.png", "PNG-bytes") (uploads w').
Proof.
  intros file.
  destruct all_up_ready as (_ & Hup & Hfs & _).
  assert (Hk : user_known Sample.all_up "u" Sample.registered)
    by (eexists; vm_compute; reflexivity).
  destruct (upload_record_names_the_file Sample.all_up "u" file
              "image/png" Sample.registered Hup Hfs Hk eq_refl eq_refl)
    as (f & w' & Hr & _ & Hn & _ & _ & Hp & Hc & _).
  exists f, w'. split; [exact Hr |]. split; [exact Hn |].
  assert (Hp' : FileMetadata.file_path f = "/app/uploads/uuu_cat.png")
    by (rewrite Hp; reflexivity).
  split; [exact Hp' |]. rewrite <- Hp'. apply Hc. reflexivity.
Defined.

(** X11. A history read does not look the user up: for an identifier
    under which nothing is stored it returns the empty list, whether or
    not a user has that identifier. *)
Theorem history_of_stranger_is_empty (E : externals) (user_id : string)
    (w : world) :
  store_up E ->
  (filter (field_is "user_id" user_id) (db_chat_history w) = [] ->
   get_chat_history E user_id w = (Ok [], w)) /\
  (filter (field_is "user_id" user_id) (db_file_metadata w) = [] ->
   get_user_files E user_id w = (Ok [], w)) /\
  (filter (field_is "user_id" user_id) (db_search_results w) = [] ->
   get_search_history E user_id w = (Ok [], w)).
Proof.
  intros Hup. repeat split; intros Hnone;
    unfold get_chat_history, get_user_files, get_search_history,
      guarded_all, try_except, bind;
    rewrite (find_sorted_up _ _ _ _ _ _ _ _ Hup); unfold selected;
    cbn [coll]; rewrite Hnone; reflexivity.
Qed.

Lemma history_of_stranger_is_empty_witness :
  user_unknown Sample.all_up "nobody" Sample.archive /\
  get_chat_history Sample.all_up "nobody" Sample.archive
  = (Ok [], Sample.archive).
Proof.
  split; [reflexivity |].
  apply (proj1 (history_of_stranger_is_empty Sample.all_up "nobody"
                  Sample.archive (proj1 (proj2 all_up_ready)))).
  reflexivity.
Defined.

(** X12. In the stored form of a dictionary no value is a datetime, at
    any depth of nested dictionaries: the encoder reaches the
    dictionaries held as values of dictionaries. *)
Theorem encoded_dict_holds_no_datetime (v : pyval) :
  wf_val v -> dict_values_encoded (prepare_for_mongo v).
Proof.
  induction v as [| | | | | | | d IH] using pyval_values_ind; intros Hwf;
    try exact I.
  apply wf_dict_iff in Hwf. destruct Hwf as [Hnd Hvals].
  rewrite (prepare_for_mongo_items d Hnd).
  apply dict_values_encoded_items. apply Forall_map.
  clear Hnd. induction d as [| [k x] t IHt]; constructor.
  - inversion IH as [| ? ? Hx _]; subst.
    inversion Hvals as [| ? ? Hwx _]; subst. cbn [snd] in *.
    unfold encode_item, encode_value. cbn [fst snd].
    destruct x; try (split; [discriminate | exact I]).
    split; [| exact (Hx Hwx)].
    intros dt. cbn [prepare_for_mongo]. discriminate.
  - inversion IH; subst. inversion Hvals; subst. apply IHt; assumption.
Qed.

Lemma encoded_dict_holds_no_datetime_witness :
  dict_values_encoded (prepare_for_mongo (VDict Sample.nested_doc)).
Proof.
  apply (encoded_dict_holds_no_datetime (VDict Sample.nested_doc)).
  cbn. repeat split; repeat constructor; cbn; intuition discriminate.
Defined.

(** X13. The file and the search histories are cut at their newest
    fifty: when a user has at least 50 stored uploads (searches)
    stamped after [t], the read returns exactly 50 records, all of
    them later than [t]; a record stamped [t] is not returned. *)
Theorem file_and_search_history_keep_the_newest (E : externals)
    (user_id : string) (t : datetime) (w : world) :
  store_up E -> store_ok w -> utc_stamp t ->
  (50 <= length (filter (fun doc => field_is "user_id" user_id doc
                                    && stamped_after "uploaded_at" t doc)
                   (db_file_metadata w)) ->
   exists fs,
     get_user_files E user_id w = (Ok fs, w) /\
     length fs = 50 /\
     Forall (fun f => datetime_lt t (FileMetadata.uploaded_at f)) fs /\
     (forall f, In f fs -> FileMetadata.uploaded_at f <> t)) /\
  (50 <= length (filter (fun doc => field_is "user_id" user_id doc
                                    && stamped_after "timestamp" t doc)
                   (db_search_results w)) ->
   exists rs,
     get_search_history E user_id w = (Ok rs, w) /\
     length rs = 50 /\
     Forall (fun r => datetime_lt t (SearchResult.timestamp r)) rs /\
     (forall r, In r rs -> SearchResult.timestamp r <> t)).
Proof.
  intros Hup (_ & Hfiles & Hsearches) Ht. split; intros Hn.
  - destruct (get_user_files_up E user_id w Hup Hfiles) as [fs [Hget HF]].
    destruct (selected_within (stamped_after "uploaded_at" t) "user_id"
                user_id "uploaded_at" Descending 50 (db_file_metadata w))
      as [Hin Hlen].
    + intros x y. apply before_closed_down.
    + eapply Forall_impl; [| exact Hfiles].
      intros doc [f Hf]. eexists. exact (proj1 (holds_file_fields _ _ Hf)).
    + exact Hn.
    + assert (Hall : Forall (fun f => datetime_lt t (FileMetadata.uploaded_at f))
                       fs).
      { refine (Forall2_Forall_lr holds_file
                  (fun x => stamped_after "uploaded_at" t x = true) _
                  _ _ _ HF Hin).
        intros x f Hf Hx. unfold stamped_after in Hx.
        rewrite (proj1 (holds_file_fields _ _ Hf)) in Hx.
        apply stamp_lt; [exact Ht | exact (proj2 Hf) |].
        apply compare_gt_lt.
        destruct (String.compare (isoformat (FileMetadata.uploaded_at f))
                    (isoformat t));
          [discriminate | discriminate | reflexivity]. }
      exists fs. split; [exact Hget |].
      split; [rewrite <- (Forall2_length HF); exact Hlen |].
      split; [exact Hall |].
      intros f Hf Heq. rewrite Forall_forall in Hall.
      apply (datetime_lt_irrefl t). rewrite <- Heq at 2. apply Hall, Hf.
  - destruct (get_search_history_up E user_id w Hup Hsearches)
      as [rs [Hget HF]].
    destruct (selected_within (stamped_after "timestamp" t) "user_id"
                user_id "timestamp" Descending 50 (db_search_results w))
      as [Hin Hlen].
    + intros x y. apply before_closed_down.
    + eapply Forall_impl; [| exact Hsearches].
      intros doc [r Hr]. eexists. exact (proj1 (holds_search_fields _ _ Hr)).
    + exact Hn.
    + assert (Hall : Forall (fun r => datetime_lt t (SearchResult.timestamp r))
                       rs).
      { refine (Forall2_Forall_lr holds_search
                  (fun x => stamped_after "timestamp" t x = true) _
                  _ _ _ HF Hin).
        intros x r Hr Hx. unfold stamped_after in Hx.
        rewrite (proj1 (holds_search_fields _ _ Hr)) in Hx.
        apply stamp_lt; [exact Ht | exact (proj2 Hr) |].
        apply compare_gt_lt.
        destruct (String.compare (isoformat (SearchResult.timestamp r))
                    (isoformat t));
          [discriminate | discriminate | reflexivity]. }
      exists rs. split; [exact Hget |].
      split; [rewrite <- (Forall2_length HF); exact Hlen |].
      split; [exact Hall |].
      intros r Hr Heq. rewrite Forall_forall in Hall.
      apply (datetime_lt_irrefl t). rewrite <- Heq at 2. apply Hall, Hr.
Qed.

Lemma file_and_search_history_keep_the_newest_witness :
  (exists fs,
     get_user_files Sample.all_up "u" Crowd.crowded = (Ok fs, Crowd.crowded) /\
     length fs = 50) /\
  (exists rs,
     get_search_history Sample.all_up "u" Crowd.crowded
       = (Ok rs, Crowd.crowded) /\
     length rs = 50).
Proof.
  assert (Hok : store_ok Crowd.crowded).
  { split; [| split]; [apply chats_ok | apply files_ok | apply searches_ok];
      apply Nat.leb_le; reflexivity. }
  assert (Ht : utc_stamp (Crowd.second_stamp 0))
    by (apply second_stamp_ok; apply Nat.ltb_lt; reflexivity).
  destruct (file_and_search_history_keep_the_newest Sample.all_up "u"
              (Crowd.second_stamp 0) Crowd.crowded
              (proj1 (proj2 all_up_ready)) Hok Ht) as [Hf Hs].
  split.
  - destruct Hf as (fs & Hget & Hlen & _);
      [apply Nat.leb_le; vm_compute; reflexivity |].
    exists fs. split; assumption.
  - destruct Hs as (rs & Hget & Hlen & _);
      [apply Nat.leb_le; vm_compute; reflexivity |].
    exists rs. split; assumption.
Defined.

(** X14. An upload and a search are read back: when either succeeds
    for a user who had fewer than 50 records of that kind stored, the
    history read made right after returns the record the request
    returned. *)
Theorem upload_and_search_are_read_back (E : externals) (user_id : string)
    (w : world) :
  store_up E -> clock_ok E -> store_ok w -> user_known E user_id w ->
  (forall file file_type,
     files_up E ->
     UploadFile.content_type file = Some file_type ->
     type_allowed (Some file_type) = true ->
     length (filter (field_is "user_id" user_id) (db_file_metadata w)) < 50 ->
     exists f w' fs,
       upload_and_analyze_file E user_id file w = (Ok f, w') /\
       FileMetadata.filename f = UploadFile.filename file /\
       FileMetadata.file_type f = file_type /\
       get_user_files E user_id w' = (Ok fs, w') /\
       In f fs) /\
  (forall query s,
     llm_reply E (llm_log w)
       (get_llm_chat (search_session_id user_id) (search_prompt query))
       = Text s ->
     length (filter (field_is "user_id" user_id) (db_search_results w)) < 50 ->
     exists r w' rs,
       web_search E (SearchRequest.mk user_id query) w = (Ok r, w') /\
       SearchResult.query r = query /\
       SearchResult.summary r = s /\
       get_search_history E user_id w' = (Ok rs, w') /\
       In r rs).
Proof.
  intros Hup Hc (_ & Hfiles & Hsearches) Hk. split.
  - intros file file_type Hfs Hct Hal Hlt.
    pose proof (upload_accepted_up E user_id file file_type w Hup Hfs Hk
                  Hct Hal) as Hput.
    cbv zeta in Hput.
    match type of Hput with
    | _ = (Ok ?F, _) => remember F as f eqn:Hf
    end.
    match type of Hput with
    | _ = (_, ?W1) => set (w' := W1) in *
    end.
    assert (Hh : holds_file (stored (FileMetadata_dict f) (oid_count w)) f).
    { split; [eexists; reflexivity | rewrite Hf; apply utc_stamp_now, Hc]. }
    assert (Hok' : Forall file_doc (db_file_metadata w')).
    { subst w'. cbn [db_file_metadata]. apply Forall_app.
      split; [exact Hfiles |]. constructor; [exists f; exact Hh | constructor]. }
    assert (Hmine : field_is "user_id" user_id
                      (stored (FileMetadata_dict f) (oid_count w)) = true).
    { unfold field_is.
      rewrite (proj1 (proj2 (holds_file_all_fields _ _ Hh))), Hf.
      apply String.eqb_refl. }
    destruct (get_user_files_up E user_id w' Hup Hok') as [fs [Hget HF]].
    exists f, w', fs. split; [exact Hput |].
    split; [rewrite Hf; reflexivity |]. split; [rewrite Hf; reflexivity |].
    split; [exact Hget |].
    pose proof (selected_new "user_id" user_id "uploaded_at" Descending 50
                  (db_file_metadata w) _ Hmine Hlt) as Hin.
    destruct (Forall2_In_l _ _ _ _ HF Hin) as [f' [Hf' Hh']].
    rewrite (holds_file_inj _ _ _ Hh Hh'). exact Hf'.
  - intros query s Hr Hlt.
    pose proof (search_backend_text_up E (SearchRequest.mk user_id query) w s
                  Hup Hk Hr) as Hput.
    cbv zeta in Hput. cbn [SearchRequest.user_id SearchRequest.query] in Hput.
    match type of Hput with
    | _ = (Ok ?F, _) => remember F as r eqn:Hf
    end.
    match type of Hput with
    | _ = (_, ?W1) => set (w' := W1) in *
    end.
    assert (Hh : holds_search (stored (SearchResult_dict r) (oid_count w)) r).
    { split; [eexists; reflexivity | rewrite Hf; apply utc_stamp_now, Hc]. }
    assert (Hok' : Forall search_doc (db_search_results w')).
    { subst w'. cbn [db_search_results]. apply Forall_app.
      split; [exact Hsearches |].
      constructor; [exists r; exact Hh | constructor]. }
    assert (Hmine : field_is "user_id" user_id
                      (stored (SearchResult_dict r) (oid_count w)) = true).
    { unfold field_is.
      rewrite (proj1 (proj2 (holds_search_all_fields _ _ Hh))), Hf.
      apply String.eqb_refl. }
    destruct (get_search_history_up E user_id w' Hup Hok') as [rs [Hget HF]].
    exists r, w', rs. split; [exact Hput |].
    split; [rewrite Hf; reflexivity |]. split; [rewrite Hf; reflexivity |].
    split; [exact Hget |].
    pose proof (selected_new "user_id" user_id "timestamp" Descending 50
                  (db_search_results w) _ Hmine Hlt) as Hin.
    destruct (Forall2_In_l _ _ _ _ HF Hin) as [r' [Hr' Hh']].
    rewrite (holds_search_inj _ _ _ Hh Hh'). exact Hr'.
Qed.

Lemma upload_and_search_are_read_back_witness :
  (exists f w' fs,
     upload_and_analyze_file Sample.all_up "u" Sample.cat_png Sample.registered
       = (Ok f, w') /\
     get_user_files Sample.all_up "u" w' = (Ok fs, w') /\ In f fs) /\
  (exists r w' rs,
     web_search Sample.all_up (SearchRequest.mk "u" "rocq") Sample.registered
       = (Ok r, w') /\
     get_search_history Sample.all_up "u" w' = (Ok rs, w') /\ In r rs).
Proof.
  destruct all_up_ready as (_ & Hup & Hfs & Hc).
  assert (Hk : user_known Sample.all_up "u" Sample.registered)
    by (eexists; vm_compute; reflexivity).
  assert (Hok : store_ok Sample.registered)
    by (repeat split; constructor).
  destruct (upload_and_search_are_read_back Sample.all_up "u"
              Sample.registered Hup Hc Hok Hk) as [Hfile Hsearch].
  split.
  - destruct (Hfile Sample.cat_png "image/png" Hfs eq_refl eq_refl)
      as (f & w' & fs & Hput & _ & _ & Hget & Hin);
      [cbn; lia |].
    exists f, w', fs. split; [exact Hput |]. split; assumption.
  - destruct (Hsearch "rocq" ("re: " ++ search_prompt "rocq")%string)
      as (r & w' & rs & Hput & _ & _ & Hget & Hin);
      [reflexivity | cbn; lia |].
    exists r, w', rs. split; [exact Hput |]. split; assumption.
Defined.

(** X15. How the history reads fail.  A fault of the store at the
    query gives status 500 with the fault's text after the read's own
    prefix and leaves the world as it was.  A read builds a record from
    every document on its page (the user's first 100 messages by time,
    the user's last 50 uploads, the user's last 50 searches): one
    document on the page that lacks a required field (the message of a
    chat, the filename of an upload, the query of a search) makes the
    whole read fail with status 500, whatever the other documents are.
    A stored document of the user is on the page whenever the user has
    no more documents than the page holds.  A document beyond the page
    is not read: with the store up, the read succeeds when the
    documents on its page are ones the service wrote. *)
Theorem history_read_failures (E : externals) (user_id : string)
    (w : world) :
  ((forall msg,
      db_fault E Find chat_history w = Some msg ->
      get_chat_history E user_id w
      = (Raise (HTTPException 500
                  ("Error retrieving chat history: " ++ msg)%string), w)) /\
   (forall msg,
      db_fault E Find World.file_metadata w = Some msg ->
      get_user_files E user_id w
      = (Raise (HTTPException 500 ("Error retrieving files: " ++ msg)%string),
         w)) /\
   (forall msg,
      db_fault E Find search_results w = Some msg ->
      get_search_history E user_id w
      = (Raise (HTTPException 500
                  ("Error retrieving search history: " ++ msg)%string), w))) /\
  ((forall doc,
      db_fault E Find chat_history w = None ->
      In doc (chat_page user_id w) ->
      dict_get doc "message" = None ->
      exists detail w',
        get_chat_history E user_id w
        = (Raise (HTTPException 500
                    ("Error retrieving chat history: " ++ detail)%string),
           w')) /\
   (forall doc,
      db_fault E Find World.file_metadata w = None ->
      In doc (file_page user_id w) ->
      dict_get doc "filename" = None ->
      exists detail w',
        get_user_files E user_id w
        = (Raise (HTTPException 500
                    ("Error retrieving files: " ++ detail)%string), w')) /\
   (forall doc,
      db_fault E Find search_results w = None ->
      In doc (search_page user_id w) ->
      dict_get doc "query" = None ->
      exists detail w',
        get_search_history E user_id w
        = (Raise (HTTPException 500
                    ("Error retrieving search history: " ++ detail)%string),
           w'))) /\
  ((forall doc,
      In doc (db_chat_history w) -> field_is "user_id" user_id doc = true ->
      length (filter (field_is "user_id" user_id) (db_chat_history w)) <= 100 ->
      In doc (chat_page user_id w)) /\
   (forall doc,
      In doc (db_file_metadata w) -> field_is "user_id" user_id doc = true ->
      length (filter (field_is "user_id" user_id) (db_file_metadata w)) <= 50 ->
      In doc (file_page user_id w)) /\
   (forall doc,
      In doc (db_search_results w) -> field_is "user_id" user_id doc = true ->
      length (filter (field_is "user_id" user_id) (db_search_results w)) <= 50 ->
      In doc (search_page user_id w))) /\
  (store_up E ->
   (Forall chat_doc (chat_page user_id w) ->
    exists ms,
      get_chat_history E user_id w = (Ok ms, w) /\
      Forall2 holds_chat (chat_page user_id w) ms) /\
   (Forall file_doc (file_page user_id w) ->
    exists fs,
      get_user_files E user_id w = (Ok fs, w) /\
      Forall2 holds_file (file_page user_id w) fs) /\
   (Forall search_doc (search_page user_id w) ->
    exists rs,
      get_search_history E user_id w = (Ok rs, w) /\
      Forall2 holds_search (search_page user_id w) rs)).
Proof.
  split; [| split; [| split]].
  - split; [| split]; intros msg Hf;
      unfold get_chat_history, get_user_files, get_search_history,
        guarded_all, try_except, bind, find_sorted;
      rewrite Hf; reflexivity.
  - split; [| split].
    + intros doc Hf Hin Hk. unfold get_chat_history.
      apply (read_poisoned _ E chat_history "user_id" user_id "timestamp"
               Ascending 100 (ChatMessage_init E) "message" doc w Hf Hin).
      * discriminate.
      * exact Hk.
      * intros d Hd w0. unfold ChatMessage_init, str_field_or, str_field,
          bind, uuid4, ret, raise. rewrite Hd.
        destruct (dict_get d "id") as [[] |];
          destruct (dict_get d "user_id") as [[] |]; eauto.
    + intros doc Hf Hin Hk. unfold get_user_files.
      apply (read_poisoned _ E World.file_metadata "user_id" user_id
               "uploaded_at" Descending 50 (FileMetadata_init E) "filename"
               doc w Hf Hin).
      * discriminate.
      * exact Hk.
      * intros d Hd w0. unfold FileMetadata_init, str_field_or, str_field,
          bind, uuid4, ret, raise. rewrite Hd.
        destruct (dict_get d "id") as [[] |];
          destruct (dict_get d "user_id") as [[] |]; eauto.
    + intros doc Hf Hin Hk. unfold get_search_history.
      apply (read_poisoned _ E search_results "user_id" user_id "timestamp"
               Descending 50 (SearchResult_init E) "query" doc w Hf Hin).
      * discriminate.
      * exact Hk.
      * intros d Hd w0. unfold SearchResult_init, str_field_or, str_field,
          bind, uuid4, ret, raise. rewrite Hd.
        destruct (dict_get d "id") as [[] |];
          destruct (dict_get d "user_id") as [[] |]; eauto.
  - split; [| split]; intros doc Hin Hmine Hle; apply selected_all; assumption.
  - intros Hup. split; [| split]; intros Hpage.
    + apply chat_page_read; assumption.
    + apply file_page_read; assumption.
    + apply search_page_read; assumption.
Qed.

Lemma history_read_failures_witness :
  In Crowd.no_message (db_chat_history Crowd.spoiled) /\
  dict_get Crowd.no_message "message" = None /\
  exists ms,
    get_chat_history Sample.all_up "u" Crowd.spoiled = (Ok ms, Crowd.spoiled) /\
    length ms = 100.
Proof.
  split; [left; reflexivity |]. split; [reflexivity |].
  destruct (proj1 (proj2 (proj2 (proj2 (history_read_failures Sample.all_up
                                          "u" Crowd.spoiled)))
                     (proj1 (proj2 all_up_ready)))
              spoiled_page_ok) as [ms [Hget HF]].
  exists ms. split; [exact Hget |].
  rewrite <- (Forall2_length HF). unfold chat_page.
  rewrite selected_length. vm_compute. reflexivity.
Defined.

(** X16. A record that cannot be stored is lost.  When the store
    refuses every insert, a registration answers 500 with the store's
    message after [Error creating user: ], and a chat or a search of a
    known user answers 500 likewise although the backend has been
    asked and has answered: the answer is dropped, the store and the
    upload directory are as they were. *)
Theorem failed_insert_loses_the_answer (E : externals) (msg : string)
    (w : world) :
  (forall c w0, db_fault E InsertOne c w0 = Some msg) ->
  (forall user_data,
     exists w',
       create_user E user_data w
       = (Raise (HTTPException 500 ("Error creating user: " ++ msg)%string), w')
       /\ same_store w w') /\
  (forall req s,
     let call := get_llm_chat (chat_session_id (ChatRequest.user_id req))
                   (ChatRequest.message req) in
     user_known E (ChatRequest.user_id req) w ->
     llm_reply E (llm_log w) call = Text s ->
     exists w',
       chat_with_ai E req w
       = (Raise (HTTPException 500 ("Error processing chat: " ++ msg)%string), w')
       /\ same_store w w' /\ llm_log w' = llm_log w ++ [call]) /\
  (forall req s,
     let call := get_llm_chat (search_session_id (SearchRequest.user_id req))
                   (search_prompt (SearchRequest.query req)) in
     user_known E (SearchRequest.user_id req) w ->
     llm_reply E (llm_log w) call = Text s ->
     exists w',
       web_search E req w
       = (Raise (HTTPException 500 ("Error processing search: " ++ msg)%string),
          w')
       /\ same_store w w' /\ llm_log w' = llm_log w ++ [call]).
Proof.
  intros Hdown. split; [| split].
  - intros user_data.
    unfold create_user, guarded_all, try_except, bind, User_init, bind,
      str_field_or, str_field, optional_str_field, datetime_field_or.
    cbn [dict_get String.eqb Ascii.eqb Bool.eqb UserCreate_dict opt_val].
    destruct (UserCreate.username user_data), (UserCreate.phone user_data);
      cbn [opt_val];
      unfold uuid4, datetime_now_utc, ret, bind, insert_one;
      rewrite Hdown; eexists;
      (split; [reflexivity |]);
      (split; [intros c; destruct c; reflexivity | reflexivity]).
  - intros req s call [u Hu] Hr. subst call.
    unfold chat_with_ai, guarded, try_except, bind. rewrite Hu.
    rewrite (send_message_text _ _ _ _ Hr).
    unfold ChatMessage_init, bind, str_field_or, str_field, datetime_field_or.
    cbn [dict_get String.eqb Ascii.eqb Bool.eqb].
    unfold uuid4, datetime_now_utc, ret, insert_one. rewrite Hdown.
    eexists. split; [reflexivity |].
    split; [split; [intros c; destruct c; reflexivity | reflexivity] |].
    reflexivity.
  - intros req s call [u Hu] Hr. subst call.
    unfold web_search, guarded, try_except, bind. rewrite Hu.
    rewrite (send_message_text _ _ _ _ Hr).
    unfold SearchResult_init, bind, str_field_or, str_field, datetime_field_or.
    cbn [dict_get String.eqb Ascii.eqb Bool.eqb].
    unfold uuid4, datetime_now_utc, ret, insert_one. rewrite Hdown.
    eexists. split; [reflexivity |].
    split; [split; [intros c; destruct c; reflexivity | reflexivity] |].
    reflexivity.
Qed.

Lemma failed_insert_loses_the_answer_witness :
  let E := mk_externals Sample.tally Sample.tick
             (fun _ c => Text ("re: " ++ text c)%string)
             (fun op _ _ =>
                match op with
                | InsertOne => Some "disk full"
                | _ => None
                end)
             (fun _ _ => None) in
  fst (chat_with_ai E (ChatRequest.mk "u" "hi") Sample.registered)
  = Raise (HTTPException 500 "Error processing chat: disk full").
Proof.
  intros E.
  assert (Hk : user_known E "u" Sample.registered)
    by (eexists; vm_compute; reflexivity).
  destruct (proj1 (proj2 (failed_insert_loses_the_answer E "disk full"
                            Sample.registered (fun c w0 => eq_refl)))
              (ChatRequest.mk "u" "hi") "re: hi" Hk eq_refl)
    as (w' & Hr & _).
  rewrite Hr. reflexivity.
Defined.

(** X17. Uploads do not overwrite one another: two accepted uploads of
    a user under the same filename, one after the other, are written
    to two different paths, and the upload directory holds both
    contents afterwards.  The paths are compared as [pathlib] renders
    them, so the tokens are taken to hold no slash, as those of
    [uuid4] do: slashes in a token could be normalised away. *)
Theorem same_name_uploads_are_both_kept (E : externals) (user_id : string)
    (file1 file2 : UploadFile.t) (type1 type2 : string) (w : world) :
  fresh_tokens E -> plain_tokens E -> store_up E -> files_up E ->
  user_known E user_id w ->
  UploadFile.content_type file1 = Some type1 ->
  type_allowed (Some type1) = true ->
  UploadFile.content_type file2 = Some type2 ->
  type_allowed (Some type2) = true ->
  UploadFile.filename file1 = UploadFile.filename file2 ->
  exists f1 w1 f2 w2,
    upload_and_analyze_file E user_id file1 w = (Ok f1, w1) /\
    upload_and_analyze_file E user_id file2 w1 = (Ok f2, w2) /\
    FileMetadata.file_path f1 <> FileMetadata.file_path f2 /\
    In (FileMetadata.file_path f1, UploadFile.content file1) (uploads w2) /\
    In (FileMetadata.file_path f2, UploadFile.content file2) (uploads w2).
Proof.
  intros Hfresh Hplain Hup Hfs Hk Hct1 Hal1 Hct2 Hal2 Hname.
  pose proof (upload_accepted_up E user_id file1 type1 w Hup Hfs Hk Hct1 Hal1)
    as H1.
  cbv zeta in H1.
  match type of H1 with
  | _ = (Ok ?F, _) => remember F as f1 eqn:Hf1
  end.
  match type of H1 with
  | _ = (_, ?W) => remember W as w1 eqn:Hw1
  end.
  assert (Hk1 : user_known E user_id w1).
  { apply (user_known_same_users E user_id w w1 Hup); [| exact Hk].
    rewrite Hw1. reflexivity. }
  pose proof (upload_accepted_up E user_id file2 type2 w1 Hup Hfs Hk1 Hct2 Hal2)
    as H2.
  cbv zeta in H2.
  match type of H2 with
  | _ = (Ok ?F, _) => remember F as f2 eqn:Hf2
  end.
  match type of H2 with
  | _ = (_, ?W) => remember W as w2 eqn:Hw2
  end.
  exists f1, w1, f2, w2. split; [exact H1 |]. split; [exact H2 |].
  assert (Hne : FileMetadata.file_path f1 <> FileMetadata.file_path f2).
  { rewrite Hf1, Hf2. cbn [FileMetadata.file_path]. rewrite Hname. intros Heq.
    apply upload_path_inj in Heq; [| apply Hplain | apply Hplain].
    apply Hfresh in Heq.
    rewrite Hw1 in Heq. cbn [uuid_count] in Heq. lia. }
  split; [exact Hne |].
  assert (Hp1 : FileMetadata.file_path f1
                = upload_path (uuid4_str E (uuid_count w) ++ "_"
                                 ++ UploadFile.filename file1)%string)
    by (rewrite Hf1; reflexivity).
  assert (Hp2 : FileMetadata.file_path f2
                = upload_path (uuid4_str E (uuid_count w1) ++ "_"
                                 ++ UploadFile.filename file2)%string)
    by (rewrite Hf2; reflexivity).
  rewrite Hw2. cbn [uploads]. rewrite <- Hp2. split.
  - apply in_or_app. left. apply filter_In. split.
    + rewrite Hw1. cbn [uploads]. rewrite <- Hp1.
      apply in_or_app. right. left. reflexivity.
    + cbn [fst]. destruct (String.eqb_spec (FileMetadata.file_path f1)
                             (FileMetadata.file_path f2)) as [Heq | _];
        [elim (Hne Heq) | reflexivity].
  - apply in_or_app. right. left. reflexivity.
Qed.

Lemma same_name_uploads_are_both_kept_witness :
  exists f1 w1 f2 w2,
    upload_and_analyze_file Sample.all_up "u" Sample.cat_png Sample.registered
      = (Ok f1, w1) /\
    upload_and_analyze_file Sample.all_up "u" Sample.cat_png w1 = (Ok f2, w2) /\
    FileMetadata.file_path f1 <> FileMetadata.file_path f2 /\
    In (FileMetadata.file_path f1, "PNG-bytes") (uploads w2) /\
    In (FileMetadata.file_path f2, "PNG-bytes") (uploads w2).
Proof.
  destruct all_up_ready as (Hfresh & Hup & Hfs & _).
  assert (Hk : user_known Sample.all_up "u" Sample.registered)
    by (eexists; vm_compute; reflexivity).
  exact (same_name_uploads_are_both_kept Sample.all_up "u" Sample.cat_png
           Sample.cat_png "image/png" "image/png" Sample.registered
           Hfresh tally_plain Hup Hfs Hk eq_refl eq_refl eq_refl eq_refl
           eq_refl).
Defined.
